(** * Weight-based memory engine: a shallow embedding

    The development follows [BiomimeticMemoryManager.js] (the memory manager),
    [neuromorphic-mcp-server.js] (the tool layer in front of it) and
    [src/neuromorphic-mcp-server.js] (the class [NeuromorphicBrain]).

    Conventions of the embedding:
    - a JavaScript number is the rational it denotes ([Q]); the records hold
      finite numbers. The importance of a record decides the branches of a
      consolidation pass, and a threshold can be crossed in the last bit, so
      the recency and the importance are computed as the code computes
      them: every operation is followed by the rounding [Js.double] to the
      nearest binary64 value, and the thresholds are the values of their
      literals. A weight is kept as the rational that its update defines;
      the stored value follows it up to the rounding of each operation. The
      one division whose divisor is not a constant goes through [Js.div],
      which keeps the non-finite outcomes apart;
    - a [Date] is its epoch time in milliseconds ([Z]); every reading of the
      clock made by one operation is the argument [now] of that operation;
    - an optional property of an argument object is an [option]: [None] is a
      property the object does not have;
    - the objects of the six backing stores are reached only through the
      methods the manager calls on them; these methods are the interface
      [Regions], and the bodies the repository gives them are the instance
      [Placeholder.placeholders];
    - [emit] and [console.log] have no effect on the results and are left
      out, and so is the pause [_sleep], whose length [_calculateAccessDelay]
      is kept. *)

From Stdlib Require Import QArith ZArith List String Bool Lia Lqa.
From Stdlib Require Import Qminmax Qround Qpower Sorting.Sorted Permutation DecimalString.
From Stdlib Require DecimalPos DecimalZ.
From Stdlib Require Import Floats.
Import ListNotations.

Open Scope Q_scope.

(** ** JavaScript primitives used by the sources *)

Module Js.

(** [a || d] on an optional number: zero and a missing value are falsy. *)
Definition or_num (a : option Q) (d : Q) : Q :=
  match a with
  | Some q => if Qeq_bool q 0 then d else q
  | None => d
  end.

(** [a || d] on an optional string: the empty string and a missing value
    are falsy. *)
Definition or_str (a : option string) (d : string) : string :=
  match a with
  | Some EmptyString => d
  | Some s => s
  | None => d
  end.

(** [a || d] on an optional object or array: only a missing value is falsy. *)
Definition or_obj {A : Type} (a : option A) (d : A) : A :=
  match a with
  | Some x => x
  | None => d
  end.

(** The spread [{ k: d, ...options }]: a property that [options] has
    overwrites the one written before it. *)
Definition spread {A : Type} (a : option A) (d : A) : A :=
  match a with
  | Some x => x
  | None => d
  end.

(** A default parameter value [f(x = d)]: used only when the argument is
    undefined. *)
Definition default_param (a : option Q) (d : Q) : Q :=
  match a with
  | Some q => q
  | None => d
  end.

(** [Math.min(a, b)] and [Math.max(a, b)]. *)
Definition min (a b : Q) : Q := if Qle_bool a b then a else b.
Definition max (a b : Q) : Q := if Qle_bool a b then b else a.

(** *** Binary64 arithmetic

    [double q] is the binary64 number nearest to the rational [q], a tie
    going to the even significand: a significand of 53 bits over the
    exponent of [q], and below the normal range the multiples of [2^-1074].
    No number the sources compute here reaches the overflow threshold. *)

Definition pow2 (z : Z) : Q := 2 ^ z.

(** The integer nearest to [x], the even one of two at the same distance. *)
Definition nearest (x : Q) : Z :=
  let f := Qfloor x in
  match Qcompare (x - inject_Z f) (1 # 2) with
  | Lt => f
  | Gt => (f + 1)%Z
  | Eq => if Z.even f then f else (f + 1)%Z
  end.

(** The binary exponent of a positive [a]: [2^k <= a < 2^(k+1)]. *)
Definition flog2 (a : Q) : Z :=
  let k := (Z.log2 (Qnum a) - Z.log2 (Zpos (Qden a)))%Z in
  if Qle_bool (pow2 k) a then k else (k - 1)%Z.

Definition emin : Z := (-1074)%Z.

(** The exponent of the last bit of the significand of [a]. *)
Definition exponent (a : Q) : Z := Z.max emin (flog2 a - 52).

Definition round_pos (a : Q) : Q :=
  inject_Z (nearest (a * pow2 (- exponent a))) * pow2 (exponent a).

Definition double (q : Q) : Q :=
  let q := Qred q in
  match Qnum q with
  | Z0 => 0
  | Zpos _ => Qred (round_pos q)
  | Zneg _ => Qred (- round_pos (- q))
  end.

(** [a + b], [a - b], [a * b] and [a / b] on binary64 numbers. *)
Definition fadd (a b : Q) : Q := double (a + b).
Definition fsub (a b : Q) : Q := double (a - b).
Definition fmul (a b : Q) : Q := double (a * b).
Definition fdiv (a b : Q) : Q := double (a / b).

(** The rational that a binary64 number of the Standard Library denotes;
    there is none for an infinity and for not-a-number. *)
Definition of_float (f : float) : option Q :=
  match Prim2SF f with
  | S754_zero _ => Some 0
  | S754_finite s m e => Some (Qred ((if s then - (1) else 1) * inject_Z (Zpos m) * pow2 e))
  | _ => None
  end.

(** The value of a division: finite, not-a-number, or an infinity. *)
Inductive number : Type :=
| Num (q : Q)
| NaN
| Infinity (negative : bool).

(** [a / b] for a divisor that may be zero. *)
Definition div (a b : Q) : number :=
  if Qeq_bool b 0 then
    if Qeq_bool a 0 then NaN else Infinity (negb (Qle_bool 0 a))
  else Num (a / b).

(** [Array.prototype.sort(cmp)]: the sort is stable, so for a comparator
    that is a consistent ordering the result is the one of a stable
    insertion; [cmp a b <= 0] keeps [a] in front of [b]. *)
Fixpoint insert {A : Type} (cmp : A -> A -> Q) (x : A) (l : list A) : list A :=
  match l with
  | [] => [x]
  | y :: l' => if Qle_bool (cmp x y) 0 then x :: y :: l' else y :: insert cmp x l'
  end.

Fixpoint sort {A : Type} (cmp : A -> A -> Q) (l : list A) : list A :=
  match l with
  | [] => []
  | x :: l' => insert cmp x (sort cmp l')
  end.

(** [Array.prototype.slice(0, e)]: a negative [e] counts from the end. *)
Definition slice0 {A : Type} (e : Z) (l : list A) : list A :=
  let len := Z.of_nat (List.length l) in
  let final := if (e <? 0)%Z then Z.max (len + e) 0 else Z.min e len in
  firstn (Z.to_nat final) l.

(** [Array.prototype.flat()] followed by [filter(Boolean)] on arrays whose
    entries are records or null. *)
Definition flat_filter_Boolean {A : Type} (ls : list (list (option A))) : list A :=
  flat_map (fun l => flat_map (fun o => match o with Some x => [x] | None => [] end) l) ls.

(** [Array.prototype.find(r => r !== null)] followed by the test [!memory]. *)
Fixpoint find_not_null {A : Type} (l : list (option A)) : option A :=
  match l with
  | [] => None
  | Some x :: _ => Some x
  | None :: l' => find_not_null l'
  end.

(** [Number.prototype.toString()] of an integer. *)
Definition string_of_Z (z : Z) : string := NilZero.string_of_int (Z.to_int z).

End Js.

(** ** The memory record and the arguments of the operations *)

Module Memory.

Record t : Type := mk {
  id : string;
  content : string;
  type : string;
  weight : Q;
  created : Z;
  lastAccessed : Z;
  accessCount : Z;
  emotionalWeight : Q;
  semanticWeight : Q;
  tags : list string;
  metadata : list (string * string)
}.

End Memory.

(** The argument [memoryData] of [storeMemory]. *)
Module MemoryData.

Record t : Type := mk {
  content : string;
  type : option string;
  initialWeight : option Q;
  emotionalWeight : option Q;
  semanticWeight : option Q;
  tags : option (list string);
  embedding : list Q;
  metadata : option (list (string * string))
}.

End MemoryData.

(** The argument [options] of [searchMemories]. *)
Module Options.

Record t : Type := mk {
  maxResults : option Z;
  minWeight : option Q;
  includeSubconscious : option bool;
  sortBy : option string
}.

End Options.

(** The object [searchOptions] built by [searchMemories]. *)
Module SearchOptions.

Record t : Type := mk {
  maxResults : Z;
  minWeight : Q;
  includeSubconscious : bool;
  sortBy : string
}.

End SearchOptions.

(** ** BiomimeticMemoryManager.js *)

Module BiomimeticMemoryManager.

(** An operation either returns or throws. *)
Inductive result (A : Type) : Type :=
| Ok (a : A)
| Throw (message : string).
Arguments Ok {A} a.
Arguments Throw {A} message.

(** [this.config.memory]: the constructor sets these values itself and reads
    none of them from its argument. *)
Module config.
Module memory.
Definition consciousThreshold : Q := 0.8.
Definition easyRecallThreshold : Q := 0.6.
Definition effortThreshold : Q := 0.3.
Definition subconscciousThreshold : Q := 0.1.
Definition dormantThreshold : Q := 0.01.
Definition decayRate : Q := 0.001.
Definition consolidationStrength : Q := 0.1.
End memory.
End config.

(** [this.importanceFactors]. *)
Module importanceFactors.
Definition recency : Q := 0.3.
Definition frequency : Q := 0.25.
Definition emotional : Q := 0.25.
Definition semantic : Q := 0.2.
End importanceFactors.

(** [this.memoryStats]. *)
Module MemoryStats.
Record t : Type := mk {
  totalMemories : Z;
  consciousMemories : Z;
  consolidationsPerformed : Z;
  lastConsolidation : option Z;
  averageWeight : Q
}.
End MemoryStats.

(** The methods through which the manager reaches the six backing stores,
    over a state [S] of those stores. A method that writes returns the new
    state of the stores. *)
Class Regions (S : Type) : Type := {
  _distributeMemory : Memory.t -> S -> S;
  _searchHippocampus : string -> S -> option Memory.t;
  _searchNeocortex : string -> S -> option Memory.t;
  _searchBasalGanglia : string -> S -> option Memory.t;
  _searchThalamus : string -> S -> option Memory.t;
  _searchAmygdala : string -> S -> option Memory.t;
  _searchCerebellum : string -> S -> option Memory.t;
  _searchHippocampusContent : string -> SearchOptions.t -> S -> list (option Memory.t);
  _searchNeocortexContent : string -> SearchOptions.t -> S -> list (option Memory.t);
  _searchBasalGangliaContent : string -> SearchOptions.t -> S -> list (option Memory.t);
  _searchThalamusContent : string -> SearchOptions.t -> S -> list (option Memory.t);
  _searchAmygdalaContent : string -> SearchOptions.t -> S -> list (option Memory.t);
  _searchCerebellumContent : string -> SearchOptions.t -> S -> list (option Memory.t);
  _updateMemoryAcrossRegions : Memory.t -> S -> S;
  _getAllMemoriesForConsolidation : S -> list Memory.t;
  _createSemanticAssociations : Memory.t -> S -> S;
  _getHippocampusStats : S -> Z;
  _getNeocortexStats : S -> Z;
  _getBasalGangliaStats : S -> Z;
  _getThalamusStats : S -> Z;
  _getAmygdalaStats : S -> Z;
  _getCerebellumStats : S -> Z
}.

(** The manager: the fields of [this] that the operations read or write. *)
Record Manager (S : Type) : Type := mkManager {
  isInitialized : bool;
  memoryStats : MemoryStats.t;
  regions : S
}.
Arguments mkManager {S} _ _ _.
Arguments isInitialized {S} _.
Arguments memoryStats {S} _.
Arguments regions {S} _.

(** [_generateMemoryId]: [random] is the text drawn from [Math.random]. *)
Definition _generateMemoryId (now : Z) (random : string) : string :=
  ("mem_" ++ Js.string_of_Z now ++ "_" ++ random)%string.

Definition _calculateAccessDelay (weight : Q) : Z :=
  if Qle_bool config.memory.consciousThreshold weight then 0%Z
  else if Qle_bool config.memory.easyRecallThreshold weight then 100%Z
  else if Qle_bool config.memory.effortThreshold weight then 500%Z
  else if Qle_bool config.memory.subconscciousThreshold weight then 1500%Z
  else 3000%Z.

Definition day_ms : Z := (24 * 60 * 60 * 1000)%Z.

(** [_calculateRecencyScore]: the dates are whole milliseconds, and every
    operation is the binary64 one. *)
Definition _calculateRecencyScore (now : Z) (memory : Memory.t) : Q :=
  let created := inject_Z (Memory.created memory) in
  let lastAccessed := inject_Z (Memory.lastAccessed memory) in
  let daysSinceCreated := Js.fdiv (Js.fsub (inject_Z now) created) (inject_Z day_ms) in
  let daysSinceAccessed := Js.fdiv (Js.fsub (inject_Z now) lastAccessed) (inject_Z day_ms) in
  Js.max 0 (Js.fsub 1 (Js.fdiv (Js.min daysSinceCreated daysSinceAccessed) 30)).

(** [_calculateImportance]: the fields are read as the binary64 numbers the
    record holds, the factors are the values of their literals, and the
    sum is taken from left to right. *)
Definition _calculateImportance (now : Z) (memory : Memory.t) : Q :=
  let recencyScore := _calculateRecencyScore now memory in
  let frequencyScore := Js.fdiv (Js.double (inject_Z (Memory.accessCount memory))) 100 in
  let emotionalScore := Js.or_num (Some (Js.double (Memory.emotionalWeight memory))) 0 in
  let semanticScore := Js.or_num (Some (Js.double (Memory.semanticWeight memory))) 0 in
  Js.fadd
    (Js.fadd
       (Js.fadd (Js.fmul recencyScore (Js.double importanceFactors.recency))
                (Js.fmul frequencyScore (Js.double importanceFactors.frequency)))
       (Js.fmul emotionalScore (Js.double importanceFactors.emotional)))
    (Js.fmul semanticScore (Js.double importanceFactors.semantic)).

Definition _isRecent (now : Z) (memory : Memory.t) (milliseconds : Z) : bool :=
  (now - Memory.lastAccessed memory <? milliseconds)%Z.

Definition _calculateAmplificationFactor (memories : list Memory.t) : Q :=
  let accessibleMemories :=
    List.length (filter (fun m => Qle_bool config.memory.effortThreshold (Memory.weight m)) memories) in
  let baselineHuman := 100 in
  Js.max 1 (inject_Z (Z.of_nat accessibleMemories) / baselineHuman).

Module WeightDistribution.
Record t : Type := mk {
  average : Js.number;
  conscious : nat;
  accessible : nat;
  dormant : nat;
  total : option nat
}.
End WeightDistribution.

Definition _calculateWeightDistribution (memories : list Memory.t) : WeightDistribution.t :=
  if Nat.eqb (List.length memories) 0 then
    WeightDistribution.mk (Js.Num 0) 0 0 0 None
  else
    let totalWeight := fold_left (fun sum m => sum + Memory.weight m) memories 0 in
    let conscious :=
      List.length (filter (fun m => Qle_bool config.memory.consciousThreshold (Memory.weight m)) memories) in
    let accessible :=
      List.length (filter (fun m => Qle_bool config.memory.effortThreshold (Memory.weight m)) memories) in
    let dormant :=
      List.length (filter (fun m => negb (Qle_bool config.memory.subconscciousThreshold (Memory.weight m))) memories) in
    WeightDistribution.mk
      (Js.div totalWeight (inject_Z (Z.of_nat (List.length memories))))
      conscious accessible dormant (Some (List.length memories)).

(** The body the source gives this method: it returns its argument. *)
Definition _deduplicateMemories (memories : list Memory.t) : list Memory.t := memories.

(** The object literal [memory] of [storeMemory]. *)
Definition newMemory (now : Z) (random : string) (memoryData : MemoryData.t) : Memory.t :=
  {| Memory.id := _generateMemoryId now random;
     Memory.content := MemoryData.content memoryData;
     Memory.type := Js.or_str (MemoryData.type memoryData) "general";
     Memory.weight := Js.or_num (MemoryData.initialWeight memoryData) 1.0;
     Memory.created := now;
     Memory.lastAccessed := now;
     Memory.accessCount := 0;
     Memory.emotionalWeight := Js.or_num (MemoryData.emotionalWeight memoryData) 0.5;
     Memory.semanticWeight := Js.or_num (MemoryData.semanticWeight memoryData) 0.5;
     Memory.tags := Js.or_obj (MemoryData.tags memoryData) [];
     Memory.metadata := Js.or_obj (MemoryData.metadata memoryData) [] |}.

(** The three assignments of [retrieveMemory] to the record it found. *)
Definition reinforce (now : Z) (memory : Memory.t) : Memory.t :=
  {| Memory.id := Memory.id memory;
     Memory.content := Memory.content memory;
     Memory.type := Memory.type memory;
     Memory.weight := Js.min 1.0 (Memory.weight memory + 0.01);
     Memory.created := Memory.created memory;
     Memory.lastAccessed := now;
     Memory.accessCount := Memory.accessCount memory + 1;
     Memory.emotionalWeight := Memory.emotionalWeight memory;
     Memory.semanticWeight := Memory.semanticWeight memory;
     Memory.tags := Memory.tags memory;
     Memory.metadata := Memory.metadata memory |}.

(** [memory.weight = w]. *)
Definition set_weight (w : Q) (memory : Memory.t) : Memory.t :=
  {| Memory.id := Memory.id memory;
     Memory.content := Memory.content memory;
     Memory.type := Memory.type memory;
     Memory.weight := w;
     Memory.created := Memory.created memory;
     Memory.lastAccessed := Memory.lastAccessed memory;
     Memory.accessCount := Memory.accessCount memory;
     Memory.emotionalWeight := Memory.emotionalWeight memory;
     Memory.semanticWeight := Memory.semanticWeight memory;
     Memory.tags := Memory.tags memory;
     Memory.metadata := Memory.metadata memory |}.

(** The comparator handed to [sort] by [searchMemories]. *)
Definition compareMemories (sortBy : string) (a b : Memory.t) : Q :=
  if String.eqb sortBy "weight" then Memory.weight b - Memory.weight a
  else if String.eqb sortBy "recent" then
    inject_Z (Memory.lastAccessed b - Memory.lastAccessed a)
  else if String.eqb sortBy "frequency" then
    inject_Z (Memory.accessCount b - Memory.accessCount a)
  else Memory.weight b - Memory.weight a.

(** The object [searchOptions]: the four defaults, then the spread of
    [options], which overwrites every property that [options] has. *)
Definition searchOptions (options : Options.t) : SearchOptions.t :=
  let maxResults :=
    match Options.maxResults options with
    | Some v => if (v =? 0)%Z then 20%Z else v
    | None => 20%Z
    end in
  let minWeight := Js.or_num (Options.minWeight options) config.memory.subconscciousThreshold in
  let includeSubconscious :=
    match Options.includeSubconscious options with Some b => b | None => false end in
  let sortBy := Js.or_str (Options.sortBy options) "weight" in
  {| SearchOptions.maxResults := Js.spread (Options.maxResults options) maxResults;
     SearchOptions.minWeight := Js.spread (Options.minWeight options) minWeight;
     SearchOptions.includeSubconscious :=
       Js.spread (Options.includeSubconscious options) includeSubconscious;
     SearchOptions.sortBy := Js.spread (Options.sortBy options) sortBy |}.

(** The reinforcement branch of the callback of [performConsolidation]: the
    importance is compared with the values of the literals 0.7 and 0.5. *)
Definition strengthen (type : string) (now : Z) (memory : Memory.t) : Memory.t :=
  let importance := _calculateImportance now memory in
  if String.eqb type "sws" then
    if negb (Qle_bool importance (Js.double 0.7))
       && _isRecent now memory (24 * 60 * 60 * 1000) then
      set_weight (Js.min 1.0 (Memory.weight memory + config.memory.consolidationStrength)) memory
    else memory
  else if String.eqb type "rem" then
    if negb (Qle_bool importance (Js.double 0.5)) then
      set_weight (Js.min 1.0 (Memory.weight memory + config.memory.consolidationStrength * 0.5)) memory
    else memory
  else memory.

(** The decay branch of the callback. *)
Definition decay (now : Z) (memory : Memory.t) : Memory.t :=
  if negb (_isRecent now memory (7 * 24 * 60 * 60 * 1000)) then
    set_weight (Js.max 0.0 (Memory.weight memory - config.memory.decayRate)) memory
  else memory.

(** The record as the callback leaves it. *)
Definition consolidateMemory (type : string) (now : Z) (memory : Memory.t) : Memory.t :=
  decay now (strengthen type now memory).

(** [memory.weight !== oldWeight] at the end of the callback. *)
Definition weightChanged (type : string) (now : Z) (memory : Memory.t) : bool :=
  negb (Qeq_bool (Memory.weight (consolidateMemory type now memory)) (Memory.weight memory)).

(** The callback reaches [_createSemanticAssociations], and waits there. *)
Definition associates (type : string) (now : Z) (memory : Memory.t) : bool :=
  negb (String.eqb type "sws") && String.eqb type "rem"
  && negb (Qle_bool (_calculateImportance now memory) (Js.double 0.5)).

Module Statistics.
Record t : Type := mk {
  totalMemories : nat;
  consciousMemories : Z;
  consolidationsPerformed : Z;
  lastConsolidation : option Z;
  regionDistribution : list (string * Z);
  weightDistribution : WeightDistribution.t;
  averageWeight : Js.number;
  amplificationFactor : Q;
  lastUpdated : Z
}.
End Statistics.

Definition notInitialized : string := "BiomimeticMemoryManager not initialized".

Section Operations.

Context {S : Type} {R : Regions S}.

Definition storeMemory (now : Z) (random : string) (memoryData : MemoryData.t)
    (this : Manager S) : result (string * Manager S) :=
  if negb (isInitialized this) then Throw notInitialized
  else
    let memory := newMemory now random memoryData in
    let stores := _distributeMemory memory (regions this) in
    let stats := memoryStats this in
    let consciousMemories :=
      if Qle_bool config.memory.consciousThreshold (Memory.weight memory)
      then (MemoryStats.consciousMemories stats + 1)%Z
      else MemoryStats.consciousMemories stats in
    Ok (Memory.id memory,
        mkManager true
          (MemoryStats.mk (MemoryStats.totalMemories stats + 1)%Z consciousMemories
             (MemoryStats.consolidationsPerformed stats)
             (MemoryStats.lastConsolidation stats)
             (MemoryStats.averageWeight stats))
          stores).

(** The six reads by id of [retrieveMemory], in the order of the array. *)
Definition searchById (memoryId : string) (stores : S) : list (option Memory.t) :=
  [ _searchHippocampus memoryId stores;
    _searchNeocortex memoryId stores;
    _searchBasalGanglia memoryId stores;
    _searchThalamus memoryId stores;
    _searchAmygdala memoryId stores;
    _searchCerebellum memoryId stores ].

Definition retrieveMemory (memoryId : string) (now : Z) (this : Manager S)
    : result (option Memory.t * Manager S) :=
  if negb (isInitialized this) then Throw notInitialized
  else
    match Js.find_not_null (searchById memoryId (regions this)) with
    | None => Ok (None, this)
    | Some found =>
        let memory := reinforce now found in
        Ok (Some memory,
            mkManager (isInitialized this) (memoryStats this)
              (_updateMemoryAcrossRegions memory (regions this)))
    end.

(** The six content searches of [searchMemories], in the order of the array. *)
Definition searchByContent (query : string) (o : SearchOptions.t) (stores : S)
    : list (list (option Memory.t)) :=
  [ _searchHippocampusContent query o stores;
    _searchNeocortexContent query o stores;
    _searchBasalGangliaContent query o stores;
    _searchThalamusContent query o stores;
    _searchAmygdalaContent query o stores;
    _searchCerebellumContent query o stores ].

Definition searchMemories (query : string) (options : Options.t) (this : Manager S)
    : result (list Memory.t) :=
  if negb (isInitialized this) then Throw notInitialized
  else
    let o := searchOptions options in
    let searchResults := searchByContent query o (regions this) in
    let allResults := Js.flat_filter_Boolean searchResults in
    let uniqueResults := _deduplicateMemories allResults in
    let filteredResults :=
      Js.slice0 (SearchOptions.maxResults o)
        (Js.sort (compareMemories (SearchOptions.sortBy o))
           (filter (fun memory => Qle_bool (SearchOptions.minWeight o) (Memory.weight memory))
              uniqueResults)) in
    Ok filteredResults.

(** The write of one callback, made when the weight has changed. *)
Definition writeBack (type : string) (now : Z) (stores : S) (memory : Memory.t) : S :=
  if weightChanged type now memory
  then _updateMemoryAcrossRegions (consolidateMemory type now memory) stores
  else stores.

(** The callbacks start in the order of the array and each runs up to its
    first [await]: a callback that reaches [_createSemanticAssociations]
    calls it and waits, the others go on to their write. *)
Definition firstRun (type : string) (now : Z) (stores : S) (memory : Memory.t) : S :=
  if associates type now memory
  then _createSemanticAssociations (strengthen type now memory) stores
  else writeBack type now stores memory.

(** The callbacks that waited resume in the same order. *)
Definition resumed (type : string) (now : Z) (stores : S) (memory : Memory.t) : S :=
  if associates type now memory then writeBack type now stores memory else stores.

Definition performConsolidation (type : string) (now : Z) (this : Manager S)
    : result (nat * Manager S) :=
  if negb (isInitialized this) then Throw notInitialized
  else
    let allMemories := _getAllMemoriesForConsolidation (regions this) in
    let stores := fold_left (firstRun type now) allMemories (regions this) in
    let stores := fold_left (resumed type now) allMemories stores in
    let consolidated := List.length (filter (weightChanged type now) allMemories) in
    let stats := memoryStats this in
    Ok (consolidated,
        mkManager (isInitialized this)
          (MemoryStats.mk (MemoryStats.totalMemories stats)
             (MemoryStats.consciousMemories stats)
             (MemoryStats.consolidationsPerformed stats + 1)%Z
             (Some now)
             (MemoryStats.averageWeight stats))
          stores).

Definition getMemoryStatistics (now : Z) (this : Manager S) : result Statistics.t :=
  if negb (isInitialized this) then Throw notInitialized
  else
    let stores := regions this in
    let allMemories := _getAllMemoriesForConsolidation stores in
    let weightDistribution := _calculateWeightDistribution allMemories in
    let stats := memoryStats this in
    Ok {| Statistics.totalMemories := List.length allMemories;
          Statistics.consciousMemories := MemoryStats.consciousMemories stats;
          Statistics.consolidationsPerformed := MemoryStats.consolidationsPerformed stats;
          Statistics.lastConsolidation := MemoryStats.lastConsolidation stats;
          Statistics.regionDistribution :=
            [ ("hippocampus", _getHippocampusStats stores);
              ("neocortex", _getNeocortexStats stores);
              ("basalGanglia", _getBasalGangliaStats stores);
              ("thalamus", _getThalamusStats stores);
              ("amygdala", _getAmygdalaStats stores);
              ("cerebellum", _getCerebellumStats stores) ]%string;
          Statistics.weightDistribution := weightDistribution;
          Statistics.averageWeight := WeightDistribution.average weightDistribution;
          Statistics.amplificationFactor := _calculateAmplificationFactor allMemories;
          Statistics.lastUpdated := now |}.

End Operations.

End BiomimeticMemoryManager.

(** ** BiomimeticMemoryManager.js: initialize, the timers and shutdown *)

Module Lifecycle.

Import BiomimeticMemoryManager.

(** [this.config.consolidation]. *)
Module consolidation.
Definition slowWaveInterval : Z := (90 * 60 * 1000)%Z.
Definition remInterval : Z := (6 * 60 * 60 * 1000)%Z.
Definition enabled : bool := true.
End consolidation.

(** A timer of [setInterval]: the pass its callback runs and its period. *)
Record Timer : Type := mkTimer {
  pass : string;
  every : Z
}.

(** The manager together with [this.consolidationTimers]. *)
Record Engine (S : Type) : Type := mkEngine {
  manager : Manager S;
  consolidationTimers : list Timer
}.
Arguments mkEngine {S} _ _.
Arguments manager {S} _.
Arguments consolidationTimers {S} _.

(** [_startConsolidationCycles]: the two timers are pushed onto the array. *)
Definition _startConsolidationCycles (timers : list Timer) : list Timer :=
  timers ++ [mkTimer "sws" consolidation.slowWaveInterval;
             mkTimer "rem" consolidation.remInterval].

(** [initialize]: [connected] is the outcome of the six connections, the
    stores they reach or the error of the one that failed. The result is
    what the call returns or throws, and the engine afterwards. *)
Definition initialize {S : Type} (connected : S + string) (this : Engine S)
    : result bool * Engine S :=
  match connected with
  | inr error => (Throw error, this)
  | inl stores =>
      let timers :=
        if consolidation.enabled
        then _startConsolidationCycles (consolidationTimers this)
        else consolidationTimers this in
      (Ok true, mkEngine (mkManager true (memoryStats (manager this)) stores) timers)
  end.

(** What the calls that close the connections do. They are made one after
    the other while the array of promises is filled, outside the [try]:
    one of them may throw there. Otherwise the promises are awaited inside
    the [try], where all are fulfilled or one is rejected. *)
Inductive Closing : Type :=
| Fulfilled
| Rejected (error : string)
| Threw (error : string).

(** [shutdown]: the timers are cleared first. A call that throws ends
    [shutdown] with its error; a rejected promise is caught and logged; in
    both cases the flag keeps its value. The result is what the call
    returns or throws, and the engine afterwards. *)
Definition shutdown {S : Type} (closing : Closing) (this : Engine S)
    : result unit * Engine S :=
  let cleared := mkEngine (manager this) [] in
  match closing with
  | Threw error => (Throw error, cleared)
  | Rejected _ => (Ok tt, cleared)
  | Fulfilled =>
      (Ok tt,
       mkEngine (mkManager false (memoryStats (manager this)) (regions (manager this))) [])
  end.

(** The callback of a timer: a pass whose error is caught and logged. *)
Definition onTimer {S : Type} {R : Regions S} (timer : Timer) (now : Z) (this : Engine S)
    : Engine S :=
  match performConsolidation (pass timer) now (manager this) with
  | Ok (_, manager') => mkEngine manager' (consolidationTimers this)
  | Throw _ => this
  end.

End Lifecycle.

(** ** neuromorphic-mcp-server.js: the tool layer *)

Module NeuromorphicMCPServer.

Import BiomimeticMemoryManager.

(** The argument [args] of the tool [store_neuromorphic_memory]. *)
Module StoreArgs.
Record t : Type := mk {
  content : string;
  type : option string;
  initialWeight : option Q;
  emotionalWeight : option Q;
  semanticWeight : option Q;
  tags : option (list string)
}.
End StoreArgs.

Definition embeddingModel : string := "text-embedding-mxbai-embed-large-v1".

(** The object literal [memoryData] of [storeMemory]; [embedding] is the
    answer of the embedding service and [storedAt] the text of the date. *)
Definition memoryData (embedding : list Q) (storedAt : string) (args : StoreArgs.t)
    : MemoryData.t :=
  {| MemoryData.content := StoreArgs.content args;
     MemoryData.type := Some (Js.or_str (StoreArgs.type args) "general");
     MemoryData.initialWeight := Some (Js.or_num (StoreArgs.initialWeight args) 1.0);
     MemoryData.emotionalWeight := Some (Js.or_num (StoreArgs.emotionalWeight args) 0.5);
     MemoryData.semanticWeight := Some (Js.or_num (StoreArgs.semanticWeight args) 0.5);
     MemoryData.tags := Some (Js.or_obj (StoreArgs.tags args) []);
     MemoryData.embedding := embedding;
     MemoryData.metadata :=
       Some [("embeddingModel", embeddingModel); ("storedAt", storedAt)]%string |}.

Record Server (S : Type) : Type := mkServer {
  isInitialized : bool;
  memoryManager : Manager S
}.
Arguments mkServer {S} _ _.
Arguments isInitialized {S} _.
Arguments memoryManager {S} _.

Definition notInitialized : string :=
  "Neuromorphic brain not initialized. Call initialize_neuromorphic_brain first.".

(** The argument [args] of the tool [search_neuromorphic_memories]. *)
Module SearchArgs.
Record t : Type := mk {
  query : string;
  maxResults : option Z;
  minWeight : option Q;
  includeSubconscious : option bool;
  sortBy : option string
}.
End SearchArgs.

(** The object literal [searchOptions] of the tool [searchMemories]: every
    property is written, with its default when the argument is falsy. *)
Definition searchOptions (args : SearchArgs.t) : Options.t :=
  {| Options.maxResults :=
       Some (match SearchArgs.maxResults args with
             | Some v => if (v =? 0)%Z then 20%Z else v
             | None => 20%Z
             end);
     Options.minWeight := Some (Js.or_num (SearchArgs.minWeight args) 0.1);
     Options.includeSubconscious :=
       Some (match SearchArgs.includeSubconscious args with Some b => b | None => false end);
     Options.sortBy := Some (Js.or_str (SearchArgs.sortBy args) "weight") |}.

Section Tools.

Context {S : Type} {R : Regions S}.

(** [storeMemory]: the identifier and the [memoryData] from which the
    answer text is printed, and the server afterwards. *)
Definition storeMemory (now : Z) (random : string) (embedding : list Q)
    (storedAt : string) (args : StoreArgs.t) (this : Server S)
    : result (string * MemoryData.t * Server S) :=
  if negb (isInitialized this) then Throw notInitialized
  else
    let data := memoryData embedding storedAt args in
    match BiomimeticMemoryManager.storeMemory now random data (memoryManager this) with
    | Throw e => Throw e
    | Ok (memoryId, manager) => Ok (memoryId, data, mkServer (isInitialized this) manager)
    end.

(** [searchMemories]: the records from which the answer text is printed. *)
Definition searchMemories (args : SearchArgs.t) (this : Server S)
    : result (list Memory.t) :=
  if negb (isInitialized this) then Throw notInitialized
  else
    BiomimeticMemoryManager.searchMemories (SearchArgs.query args) (searchOptions args)
      (memoryManager this).

(** [retrieveMemory]: the record printed, or none for the text "not found". *)
Definition retrieveMemory (memoryId : string) (now : Z) (this : Server S)
    : result (option Memory.t * Server S) :=
  if negb (isInitialized this) then Throw notInitialized
  else
    match BiomimeticMemoryManager.retrieveMemory memoryId now (memoryManager this) with
    | Throw e => Throw e
    | Ok (memory, manager) => Ok (memory, mkServer (isInitialized this) manager)
    end.

(** [performConsolidation]: the pass that ran and the count it printed. *)
Definition performConsolidation (type : option string) (now : Z) (this : Server S)
    : result (string * nat * Server S) :=
  if negb (isInitialized this) then Throw notInitialized
  else
    let consolidationType := Js.or_str type "sws" in
    match BiomimeticMemoryManager.performConsolidation consolidationType now
            (memoryManager this) with
    | Throw e => Throw e
    | Ok (processed, manager) =>
        Ok (consolidationType, processed, mkServer (isInitialized this) manager)
    end.

End Tools.

End NeuromorphicMCPServer.

(** ** src/neuromorphic-mcp-server.js: the class NeuromorphicBrain *)

Module NeuromorphicBrain.

(** The record written to the hippocampus by [storeEpisodicMemory]. *)
Module Episodic.
Record t : Type := mk {
  id : string;
  event : string;
  context : string;
  weight : Q;
  timestamp : Z;
  accessCount : Z
}.
End Episodic.

(** [Map.prototype.set] and the store's [setEx] on a list of bindings. *)
Definition set {V : Type} (key : string) (v : V) (m : list (string * V)) : list (string * V) :=
  (key, v) :: filter (fun kv => negb (String.eqb (fst kv) key)) m.

Record Brain : Type := mkBrain {
  hippocampus : list (string * Episodic.t);
  memoryWeights : list (string * Q)
}.

Definition calculateMemoryWeight (content : string) (importance emotional : option Q) : Q :=
  let importance := Js.default_param importance 0.5 in
  let emotional := Js.default_param emotional 0.5 in
  let baseWeight := 0.6 in
  let importanceBoost := importance * 0.3 in
  let emotionalBoost := emotional * 0.1 in
  Js.min 1.0 (baseWeight + importanceBoost + emotionalBoost).

Definition storeEpisodicMemory (now : Z) (random : string) (event context : string)
    (importance : option Q) (this : Brain) : (string * Q * string) * Brain :=
  let importance := Js.default_param importance 0.5 in
  let memoryId := ("episodic:" ++ Js.string_of_Z now ++ ":" ++ random)%string in
  let weight := calculateMemoryWeight event (Some importance) None in
  let memory := Episodic.mk memoryId event context weight now 0 in
  ((memoryId, weight, "hippocampus"%string),
   mkBrain (set memoryId memory (hippocampus this))
           (set memoryId weight (memoryWeights this))).

(** [Map.prototype.get] and the store's [get] on a list of bindings. *)
Definition get {V : Type} (key : string) (m : list (string * V)) : option V :=
  match find (fun kv => String.eqb (fst kv) key) m with
  | Some kv => Some (snd kv)
  | None => None
  end.

(** The document written to the amygdala by [weightEmotionalImportance]. *)
Module Emotional.
Record t : Type := mk {
  _id : string;
  content : string;
  emotional_valence : Q;
  intensity : Q;
  weight : Q;
  created : Z
}.
End Emotional.

(** [weightEmotionalImportance]: what the call returns and the document it
    inserts. *)
Definition weightEmotionalImportance (now : Z) (content : string)
    (emotional_valence intensity : Q) : (string * Q * string) * Emotional.t :=
  let emotionalWeight :=
    intensity * (if negb (Qle_bool emotional_valence 0) then 1 else 0.5) in
  let memoryId := ("emotional:" ++ Js.string_of_Z now)%string in
  ((memoryId, emotionalWeight, "amygdala"%string),
   Emotional.mk memoryId content emotional_valence intensity emotionalWeight now).

(** The weight that [learnProceduralPattern] gives to a pattern. *)
Definition proceduralWeight (pattern : string) : Q :=
  calculateMemoryWeight pattern (Some 0.7) None.

End NeuromorphicBrain.

(** ** The region methods as the repository has them *)

Module Placeholder.

Import BiomimeticMemoryManager.

(** Every method is the placeholder at the end of the class: a write
    changes nothing, a read by id finds nothing, a search and the sweep
    return the empty array and every count is zero. *)
#[global] Instance placeholders : Regions unit := {|
  _distributeMemory := fun _ s => s;
  _searchHippocampus := fun _ _ => None;
  _searchNeocortex := fun _ _ => None;
  _searchBasalGanglia := fun _ _ => None;
  _searchThalamus := fun _ _ => None;
  _searchAmygdala := fun _ _ => None;
  _searchCerebellum := fun _ _ => None;
  _searchHippocampusContent := fun _ _ _ => [];
  _searchNeocortexContent := fun _ _ _ => [];
  _searchBasalGangliaContent := fun _ _ _ => [];
  _searchThalamusContent := fun _ _ _ => [];
  _searchAmygdalaContent := fun _ _ _ => [];
  _searchCerebellumContent := fun _ _ _ => [];
  _updateMemoryAcrossRegions := fun _ s => s;
  _getAllMemoriesForConsolidation := fun _ => [];
  _createSemanticAssociations := fun _ s => s;
  _getHippocampusStats := fun _ => 0%Z;
  _getNeocortexStats := fun _ => 0%Z;
  _getBasalGangliaStats := fun _ => 0%Z;
  _getThalamusStats := fun _ => 0%Z;
  _getAmygdalaStats := fun _ => 0%Z;
  _getCerebellumStats := fun _ => 0%Z
|}.

(** The manager after [initialize]. *)
Definition manager : Manager unit :=
  mkManager true (MemoryStats.mk 0 0 0 None 0) tt.

End Placeholder.

(** ** Backing stores that keep what is written to them *)

Module InMemory.

Import BiomimeticMemoryManager.

(** Modelled from the spec: the six backing stores behind the region
    methods, of which the repository has only the placeholders. Each store
    follows the adapter contract (write replaces by id, read by id, search
    by content above a minimum weight, count), every record is written to
    all six stores, and the sweep lists the stores one after the other and
    keeps the first record of each id. *)
Record Stores : Type := mkStores {
  hippocampus : list Memory.t;
  neocortex : list Memory.t;
  basalGanglia : list Memory.t;
  thalamus : list Memory.t;
  amygdala : list Memory.t;
  cerebellum : list Memory.t
}.

Definition same_id (m : Memory.t) (x : Memory.t) : bool :=
  String.eqb (Memory.id x) (Memory.id m).

Definition write (m : Memory.t) (store : list Memory.t) : list Memory.t :=
  if existsb (same_id m) store
  then map (fun x => if same_id m x then m else x) store
  else store ++ [m].

Definition readById (memoryId : string) (store : list Memory.t) : option Memory.t :=
  find (fun x => String.eqb (Memory.id x) memoryId) store.

Definition includes (query text : string) : bool :=
  match String.index 0 query text with
  | Some _ => true
  | None => false
  end.

Definition searchByContent (query : string) (o : SearchOptions.t) (store : list Memory.t)
    : list (option Memory.t) :=
  map Some
    (filter (fun x => includes query (Memory.content x)
                      && Qle_bool (SearchOptions.minWeight o) (Memory.weight x)) store).

Definition count (store : list Memory.t) : Z := Z.of_nat (List.length store).

Definition writeAll (m : Memory.t) (s : Stores) : Stores :=
  mkStores (write m (hippocampus s)) (write m (neocortex s)) (write m (basalGanglia s))
           (write m (thalamus s)) (write m (amygdala s)) (write m (cerebellum s)).

Fixpoint firstOfEachId (seen : list string) (l : list Memory.t) : list Memory.t :=
  match l with
  | [] => []
  | x :: l' =>
      if existsb (String.eqb (Memory.id x)) seen then firstOfEachId seen l'
      else x :: firstOfEachId (Memory.id x :: seen) l'
  end.

Definition listAll (s : Stores) : list Memory.t :=
  firstOfEachId []
    (hippocampus s ++ neocortex s ++ basalGanglia s ++ thalamus s ++ amygdala s ++ cerebellum s).

#[global] Instance stores : Regions Stores := {|
  _distributeMemory := writeAll;
  _searchHippocampus := fun i s => readById i (hippocampus s);
  _searchNeocortex := fun i s => readById i (neocortex s);
  _searchBasalGanglia := fun i s => readById i (basalGanglia s);
  _searchThalamus := fun i s => readById i (thalamus s);
  _searchAmygdala := fun i s => readById i (amygdala s);
  _searchCerebellum := fun i s => readById i (cerebellum s);
  _searchHippocampusContent := fun q o s => searchByContent q o (hippocampus s);
  _searchNeocortexContent := fun q o s => searchByContent q o (neocortex s);
  _searchBasalGangliaContent := fun q o s => searchByContent q o (basalGanglia s);
  _searchThalamusContent := fun q o s => searchByContent q o (thalamus s);
  _searchAmygdalaContent := fun q o s => searchByContent q o (amygdala s);
  _searchCerebellumContent := fun q o s => searchByContent q o (cerebellum s);
  _updateMemoryAcrossRegions := writeAll;
  _getAllMemoriesForConsolidation := listAll;
  _createSemanticAssociations := fun _ s => s;
  _getHippocampusStats := fun s => count (hippocampus s);
  _getNeocortexStats := fun s => count (neocortex s);
  _getBasalGangliaStats := fun s => count (basalGanglia s);
  _getThalamusStats := fun s => count (thalamus s);
  _getAmygdalaStats := fun s => count (amygdala s);
  _getCerebellumStats := fun s => count (cerebellum s)
|}.

Definition empty : Stores := mkStores [] [] [] [] [] [].

(** A manager after [initialize], over stores that hold [l] in every region. *)
Definition managerOf (l : list Memory.t) : Manager Stores :=
  mkManager true (MemoryStats.mk 0 0 0 None 0) (mkStores l l l l l l).

Definition manager : Manager Stores := managerOf [].

End InMemory.

(** ** Notions in which the properties are stated *)

Module Spec.

(** A weight within its bounds. *)
Definition inRange (w : Q) : Prop := 0 <= w /\ w <= 1.




(** The records that pass the weight threshold of a search, in the order in
    which the regions returned them. *)
Definition candidates {S : Type} {R : BiomimeticMemoryManager.Regions S}
    (query : string) (options : Options.t) (this : BiomimeticMemoryManager.Manager S)
    : list Memory.t :=
  let o := BiomimeticMemoryManager.searchOptions options in
  filter (fun memory => Qle_bool (SearchOptions.minWeight o) (Memory.weight memory))
    (Js.flat_filter_Boolean
       (BiomimeticMemoryManager.searchByContent query o (BiomimeticMemoryManager.regions this))).

(** The text [s] has no character [c]. *)
Fixpoint free_of (c : Ascii.ascii) (s : string) : Prop :=
  match s with
  | EmptyString => True
  | String a s' => a <> c /\ free_of c s'
  end.

End Spec.

(** ** Inputs used in the examples *)

Module Examples.

Import BiomimeticMemoryManager.

(** [store("hello", kind = "general", 0.8, 0.5)] as the manager receives it. *)
Definition hello : MemoryData.t :=
  MemoryData.mk "hello" (Some "general"%string) (Some 0.8) (Some 0.5) None
    (Some ["greeting"%string]) [] None.

(** A caller that passes zero for the three weights. *)
Definition zeros : MemoryData.t :=
  MemoryData.mk "zero" None (Some 0) (Some 0) (Some 0) None [] None.

Definition zerosArgs : NeuromorphicMCPServer.StoreArgs.t :=
  NeuromorphicMCPServer.StoreArgs.mk "zero" None (Some 0) (Some 0) (Some 0) None.

(** A caller that passes a weight above one. *)
Definition heavy : MemoryData.t :=
  MemoryData.mk "heavy" None (Some 5) None None None [] None.

(** A record of weight one half, of which the stores hold a copy each. *)
Definition half : Memory.t :=
  Memory.mk "m1" "half" "general" 0.5 0 0 0 0.5 0.5 [] [].

Definition hour_ms : Z := (60 * 60 * 1000)%Z.

(** Created a day ago and accessed two hours ago, importance 0.75,
    weight 0.6. *)
Definition important : Memory.t :=
  Memory.mk "m7" "important" "general" 0.6 0 (22 * hour_ms) 1 1 (119 # 120) [] [].

(** Last accessed eight days ago, weight 0.5. *)
Definition stale : Memory.t :=
  Memory.mk "m8" "stale" "general" 0.5 0 0 0 0.5 0.5 [] [].

(** Last accessed eight days ago as well, weight 0.5, with the emotional
    and the semantic weight at one: its importance is above 0.5. *)
Definition cherished : Memory.t :=
  Memory.mk "m9" "cherished" "general" 0.5 0 0 0 1 1 [] [].

(** Created and accessed at this instant, never retrieved, emotional
    weight one and semantic weight 0.75: the exact sum of the importance
    is 0.7, the sum of the binary64 operations is the next number above
    the value of the literal 0.7. *)
Definition vivid : Memory.t :=
  Memory.mk "m10" "vivid" "general" 0.5 0 0 0 1 0.75 [] [].

(** Created and last accessed 54 hours ago, nine accesses, emotional
    weight 0.6 and semantic weight 0.25: the exact sum of the importance
    is 0.5, the sum of the binary64 operations is above it. *)
Definition faint : Memory.t :=
  Memory.mk "m11" "faint" "general" 0.5 0 0 9 0.6 0.25 [] [].

(** A caller that passes the empty text for the type. *)
Definition untyped : MemoryData.t :=
  MemoryData.mk "hello" (Some EmptyString) (Some 0.8) (Some 0.5) None
    (Some ["greeting"%string]) [] None.

(** Two records of the same weight, held by the hippocampus alone in the
    order "b", "a". *)
Definition tieB : Memory.t :=
  Memory.mk "b" "tie" "general" 0.5 0 0 0 0.5 0.5 [] [].

Definition tieA : Memory.t :=
  Memory.mk "a" "tie" "general" 0.5 0 0 0 0.5 0.5 [] [].

Definition ties : Manager InMemory.Stores :=
  mkManager true (MemoryStats.mk 0 0 0 None 0)
    (InMemory.mkStores [tieB; tieA] [] [] [] [] []).

(** A search that leaves every option to its default, and one that asks
    for a limit of minus one. *)
Definition defaults : Options.t := Options.mk None None None None.


End Examples.

(** * Properties *)

(** ** The primitives *)

Module JsFacts.

Lemma min_Qmin (a b : Q) : Js.min a b == Qmin a b.
Proof.
  unfold Js.min. destruct (Qle_bool a b) eqn:E.
  - apply Qle_bool_iff in E. symmetry. apply Q.min_l. exact E.
  - assert (H : ~ a <= b) by (intro H; apply Qle_bool_iff in H; congruence).
    symmetry. apply Q.min_r. lra.
Qed.

Lemma max_Qmax (a b : Q) : Js.max a b == Qmax a b.
Proof.
  unfold Js.max. destruct (Qle_bool a b) eqn:E.
  - apply Qle_bool_iff in E. symmetry. apply Q.max_r. exact E.
  - assert (H : ~ a <= b) by (intro H; apply Qle_bool_iff in H; congruence).
    symmetry. apply Q.max_l. lra.
Qed.

Lemma min_cases (a b : Q) :
  (a <= b /\ Js.min a b = a) \/ (b < a /\ Js.min a b = b).
Proof.
  unfold Js.min. destruct (Qle_bool a b) eqn:E.
  - left. split; [now apply Qle_bool_iff | reflexivity].
  - right. split; [| reflexivity].
    apply Qnot_le_lt. intro H. apply Qle_bool_iff in H. congruence.
Qed.

Lemma max_cases (a b : Q) :
  (a <= b /\ Js.max a b = b) \/ (b < a /\ Js.max a b = a).
Proof.
  unfold Js.max. destruct (Qle_bool a b) eqn:E.
  - left. split; [now apply Qle_bool_iff | reflexivity].
  - right. split; [| reflexivity].
    apply Qnot_le_lt. intro H. apply Qle_bool_iff in H. congruence.
Qed.

Lemma or_num_zero (z d : Q) : z == 0 -> Js.or_num (Some z) d = d.
Proof.
  intro H. unfold Js.or_num. apply Qeq_bool_iff in H. now rewrite H.
Qed.

Lemma or_num_nonzero (w d : Q) : ~ w == 0 -> Js.or_num (Some w) d = w.
Proof.
  intro H. unfold Js.or_num. destruct (Qeq_bool w 0) eqn:E; [| reflexivity].
  apply Qeq_bool_iff in E. contradiction.
Qed.

End JsFacts.

(** ** The rounding to binary64 *)

Module DoubleFacts.

Lemma pow2_pos z : 0 < Js.pow2 z.
Proof. apply Qpower_0_lt. reflexivity. Qed.

Lemma pow2_plus a b : Js.pow2 (a + b) == Js.pow2 a * Js.pow2 b.
Proof. apply Qpower_plus. discriminate. Qed.

Lemma pow2_le a b : (a <= b)%Z -> Js.pow2 a <= Js.pow2 b.
Proof. intro H. apply Qpower_le_compat_l; [exact H | discriminate]. Qed.

Lemma pow2_lt_inv a b : Js.pow2 a < Js.pow2 b -> (a < b)%Z.
Proof. intro H. apply (Qpower_lt_compat_l_inv 2); [exact H | reflexivity]. Qed.

Lemma pow2_Z n : (0 <= n)%Z -> Js.pow2 n == inject_Z (2 ^ n).
Proof. intro H. unfold Js.pow2. rewrite Zpower_Qpower by exact H. reflexivity. Qed.

Lemma pow2_cancel a : Js.pow2 a * Js.pow2 (- a) == 1.
Proof. rewrite <- pow2_plus. replace (a + - a)%Z with 0%Z by lia. reflexivity. Qed.

Lemma nearest_bounds x : (Qfloor x <= Js.nearest x <= Qfloor x + 1)%Z.
Proof.
  unfold Js.nearest.
  destruct (Qcompare (x - inject_Z (Qfloor x)) (1 # 2)); try destruct (Z.even (Qfloor x)); lia.
Qed.

Lemma nearest_mono x y : x <= y -> (Js.nearest x <= Js.nearest y)%Z.
Proof.
  intro Hxy.
  pose proof (Qfloor_resp_le x y Hxy) as Hf.
  destruct (Z.eq_dec (Qfloor x) (Qfloor y)) as [E | NE].
  - unfold Js.nearest. rewrite <- E.
    destruct (Qcompare (x - inject_Z (Qfloor x)) (1 # 2)) eqn:Cx;
      destruct (Qcompare (y - inject_Z (Qfloor x)) (1 # 2)) eqn:Cy;
      try destruct (Z.even (Qfloor x)); try lia;
      try rewrite <- Qeq_alt in *; try rewrite <- Qlt_alt in *; try rewrite <- Qgt_alt in *;
      exfalso; lra.
  - assert (H : (Qfloor x + 1 <= Qfloor y)%Z) by lia.
    pose proof (nearest_bounds x) as [_ Hx]. pose proof (nearest_bounds y) as [Hy _]. lia.
Qed.

Lemma nearest_Z z : Js.nearest (inject_Z z) = z.
Proof.
  unfold Js.nearest. rewrite Qfloor_Z.
  assert (H : inject_Z z - inject_Z z < 1 # 2) by lra.
  rewrite Qlt_alt in H. rewrite H. reflexivity.
Qed.

Lemma flog2_spec a : 0 < a -> Js.pow2 (Js.flog2 a) <= a /\ a < Js.pow2 (Js.flog2 a + 1).
Proof.
  intro Ha. destruct a as [n d]. unfold Js.flog2. cbn [Qnum Qden].
  assert (Hn : (0 < n)%Z) by (unfold Qlt in Ha; cbn in Ha; lia).
  destruct (Z.log2_spec n Hn) as [Hn1 Hn2].
  destruct (Z.log2_spec (Zpos d) (Pos2Z.is_pos d)) as [Hd1 Hd2].
  pose proof (Z.log2_nonneg n) as Ln. pose proof (Z.log2_nonneg (Zpos d)) as Ld.
  set (ln := Z.log2 n) in *. set (ld := Z.log2 (Zpos d)) in *.
  assert (Ea : n # d == inject_Z n / inject_Z (Zpos d)) by apply Qmake_Qdiv.
  assert (Hdpos : 0 < inject_Z (Zpos d)) by reflexivity.
  assert (Qn1 : Js.pow2 ln <= inject_Z n) by (rewrite pow2_Z by lia; rewrite <- Zle_Qle; lia).
  assert (Qn2 : inject_Z n < Js.pow2 (ln + 1)) by (rewrite pow2_Z by lia; rewrite <- Zlt_Qlt; lia).
  assert (Qd1 : Js.pow2 ld <= inject_Z (Zpos d)) by (rewrite pow2_Z by lia; rewrite <- Zle_Qle; lia).
  assert (Qd2 : inject_Z (Zpos d) < Js.pow2 (ld + 1)) by (rewrite pow2_Z by lia; rewrite <- Zlt_Qlt; lia).
  assert (Had : (n # d) * inject_Z (Zpos d) == inject_Z n).
  { rewrite Ea. field. intro H. rewrite H in Hdpos. discriminate. }
  assert (Hup : n # d < Js.pow2 (ln - ld + 1)).
  { (* a * 2^ld <= a * d = n < 2^(ln+1) = 2^(ln-ld+1) * 2^ld *)
    apply (Qmult_lt_r _ _ (Js.pow2 ld) (pow2_pos ld)).
    rewrite <- pow2_plus. replace (ln - ld + 1 + ld)%Z with (ln + 1)%Z by lia.
    apply Qle_lt_trans with ((n # d) * inject_Z (Zpos d)).
    - apply Qmult_le_l; [exact Ha | exact Qd1].
    - rewrite Had. exact Qn2. }
  assert (Hlo : Js.pow2 (ln - ld - 1) < n # d).
  { apply (Qmult_lt_r _ _ (Js.pow2 (ld + 1)) (pow2_pos _)).
    rewrite <- pow2_plus. replace (ln - ld - 1 + (ld + 1))%Z with ln by lia.
    apply Qle_lt_trans with (inject_Z n); [exact Qn1 |].
    rewrite <- Had. apply Qmult_lt_l; [exact Ha | exact Qd2]. }
  destruct (Qle_bool (Js.pow2 (ln - ld)) (n # d)) eqn:E.
  - apply Qle_bool_iff in E. split; [exact E | exact Hup].
  - assert (E' : n # d < Js.pow2 (ln - ld)).
    { apply Qnot_le_lt. intro H. apply Qle_bool_iff in H. congruence. }
    split; [apply Qlt_le_weak; exact Hlo |].
    replace (ln - ld - 1 + 1)%Z with (ln - ld)%Z by lia. exact E'.
Qed.

Lemma flog2_mono a b : 0 < a -> a <= b -> (Js.flog2 a <= Js.flog2 b)%Z.
Proof.
  intros Ha Hab.
  destruct (flog2_spec a Ha) as [A1 A2].
  destruct (flog2_spec b (Qlt_le_trans _ _ _ Ha Hab)) as [B1 B2].
  assert (H : Js.pow2 (Js.flog2 a) < Js.pow2 (Js.flog2 b + 1)) by lra.
  apply pow2_lt_inv in H. lia.
Qed.

Lemma exponent_mono a b : 0 < a -> a <= b -> (Js.exponent a <= Js.exponent b)%Z.
Proof. intros Ha Hab. unfold Js.exponent. pose proof (flog2_mono a b Ha Hab). lia. Qed.

Lemma scaled_lt a : 0 < a -> a * Js.pow2 (- Js.exponent a) < Js.pow2 53.
Proof.
  intro Ha. destruct (flog2_spec a Ha) as [_ A2].
  apply Qlt_le_trans with (Js.pow2 (Js.flog2 a + 1) * Js.pow2 (- Js.exponent a)).
  - apply Qmult_lt_r; [apply pow2_pos | exact A2].
  - rewrite <- pow2_plus. apply pow2_le. unfold Js.exponent. lia.
Qed.

Lemma scaled_ge a : 0 < a -> (Js.emin < Js.exponent a)%Z -> Js.pow2 52 <= a * Js.pow2 (- Js.exponent a).
Proof.
  intros Ha He. destruct (flog2_spec a Ha) as [A1 _].
  assert (E : Js.exponent a = (Js.flog2 a - 52)%Z) by (unfold Js.exponent in *; lia).
  apply Qle_trans with (Js.pow2 (Js.flog2 a) * Js.pow2 (- Js.exponent a)).
  - rewrite <- pow2_plus. apply pow2_le. lia.
  - apply Qmult_le_r; [apply pow2_pos | exact A1].
Qed.

Lemma round_pos_nonneg a : 0 < a -> 0 <= Js.round_pos a.
Proof.
  intro Ha. unfold Js.round_pos.
  apply Qmult_le_0_compat; [| apply Qlt_le_weak, pow2_pos].
  change 0 with (inject_Z 0). rewrite <- Zle_Qle.
  rewrite <- (nearest_Z 0). apply nearest_mono.
  apply Qmult_le_0_compat; [lra | apply Qlt_le_weak, pow2_pos].
Qed.

Lemma pow2_shift (k e : Z) : (0 <= k)%Z -> Js.pow2 (e + k) == inject_Z (2 ^ k) * Js.pow2 e.
Proof.
  intro H. replace (e + k)%Z with (k + e)%Z by lia.
  rewrite pow2_plus, (pow2_Z k H). reflexivity.
Qed.

Lemma round_pos_mono a b : 0 < a -> a <= b -> Js.round_pos a <= Js.round_pos b.
Proof.
  intros Ha Hab. assert (Hb : 0 < b) by lra.
  pose proof (exponent_mono a b Ha Hab) as He.
  unfold Js.round_pos.
  destruct (Z.eq_dec (Js.exponent a) (Js.exponent b)) as [E | NE].
  - rewrite E. apply Qmult_le_r; [apply pow2_pos |].
    rewrite <- Zle_Qle. apply nearest_mono.
    apply Qmult_le_r; [apply pow2_pos | exact Hab].
  - assert (Hlt : (Js.exponent a < Js.exponent b)%Z) by lia.
    apply Qle_trans with (Js.pow2 (Js.exponent a + 53)).
    + rewrite (pow2_shift 53) by lia. apply Qmult_le_r; [apply pow2_pos |].
      rewrite <- Zle_Qle.
      rewrite <- (nearest_Z (2 ^ 53)). apply nearest_mono.
      rewrite <- (pow2_Z 53) by lia. apply Qlt_le_weak, scaled_lt, Ha.
    + apply Qle_trans with (Js.pow2 (Js.exponent b + 52)).
      * apply pow2_le. lia.
      * rewrite (pow2_shift 52) by lia. apply Qmult_le_r; [apply pow2_pos |].
        rewrite <- Zle_Qle.
        rewrite <- (nearest_Z (2 ^ 52)). apply nearest_mono.
        rewrite <- (pow2_Z 52) by lia. apply scaled_ge; [exact Hb |].
        assert (Js.emin <= Js.exponent a)%Z by (unfold Js.exponent; lia). lia.
Qed.

Lemma double_sign q :
  (q == 0 -> Js.double q = 0) /\
  (0 < q -> Js.double q == Js.round_pos (Qred q)) /\
  (q < 0 -> Js.double q == - Js.round_pos (- Qred q)).
Proof.
  unfold Js.double. pose proof (Qred_correct q) as Hr.
  destruct (Qred q) as [n d] eqn:E. cbn [Qnum].
  destruct n as [| p | p]; repeat split; intro H; try reflexivity;
    try rewrite Qred_correct; try reflexivity;
    exfalso; rewrite <- Hr in H; revert H; unfold Qlt, Qeq; cbn; lia.
Qed.

Theorem double_mono p q : p <= q -> Js.double p <= Js.double q.
Proof.
  intro H.
  destruct (double_sign p) as (P0 & Pp & Pn). destruct (double_sign q) as (Q0 & Qp & Qn).
  pose proof (Qred_correct p) as Rp. pose proof (Qred_correct q) as Rq.
  destruct (Q_dec p 0) as [[Hp | Hp] | Hp]; destruct (Q_dec q 0) as [[Hq | Hq] | Hq];
    try (exfalso; lra).
  - rewrite (Pn Hp), (Qn Hq). apply Qopp_le_compat.
    apply round_pos_mono; lra.
  - rewrite (Pn Hp), (Qp Hq).
    pose proof (round_pos_nonneg (- Qred p)). pose proof (round_pos_nonneg (Qred q)). lra.
  - rewrite (Pn Hp), (Q0 Hq). pose proof (round_pos_nonneg (- Qred p)). lra.
  - rewrite (Pp Hp), (Qp Hq). apply round_pos_mono; lra.
  - rewrite (P0 Hp), (Qp Hq). pose proof (round_pos_nonneg (Qred q)). lra.
  - rewrite (P0 Hp), (Q0 Hq). lra.
Qed.

Lemma double_comp p q : p == q -> Js.double p = Js.double q.
Proof. intro H. unfold Js.double. rewrite (Qred_complete p q H). reflexivity. Qed.

Lemma flog2_unique a k : Js.pow2 k <= a -> a < Js.pow2 (k + 1) -> Js.flog2 a = k.
Proof.
  intros H1 H2. assert (Ha : 0 < a) by (pose proof (pow2_pos k); lra).
  destruct (flog2_spec a Ha) as [A1 A2].
  assert (L1 : Js.pow2 k < Js.pow2 (Js.flog2 a + 1)) by lra.
  assert (L2 : Js.pow2 (Js.flog2 a) < Js.pow2 (k + 1)) by lra.
  apply pow2_lt_inv in L1, L2. lia.
Qed.

Lemma flog2_lt a k : 0 < a -> a < Js.pow2 k -> (Js.flog2 a < k)%Z.
Proof.
  intros Ha H. destruct (flog2_spec a Ha) as [A1 _].
  assert (L : Js.pow2 (Js.flog2 a) < Js.pow2 k) by lra. apply pow2_lt_inv in L. exact L.
Qed.

(** A significand of at most 53 bits over an Js.exponent of the format is a
    binary64 number: the rounding keeps it. *)
Lemma round_pos_fixed (m e : Z) :
  (0 < m <= 2 ^ 53)%Z -> (Js.emin <= e)%Z -> ((2 ^ 52 <= m)%Z \/ e = Js.emin) ->
  Js.round_pos (inject_Z m * Js.pow2 e) == inject_Z m * Js.pow2 e.
Proof.
  intros [Hm0 Hm1] He Hn.
  set (r := inject_Z m * Js.pow2 e).
  assert (Hr : 0 < r).
  { unfold r. apply Qmult_lt_0_compat; [| apply pow2_pos].
    change 0 with (inject_Z 0). rewrite <- Zlt_Qlt. exact Hm0. }
  destruct (Z.eq_dec m (2 ^ 53)) as [E53 | N53].
  - assert (Er : r == Js.pow2 (e + 53)) by (unfold r; rewrite (pow2_shift 53) by lia; rewrite E53; reflexivity).
    assert (Hf : Js.flog2 r = (e + 53)%Z).
    { apply flog2_unique; rewrite Er; [apply Qle_refl | apply Qpower_lt_compat_l; [lia | reflexivity]]. }
    assert (Hx : Js.exponent r = (e + 1)%Z) by (unfold Js.exponent; rewrite Hf; lia).
    unfold Js.round_pos. rewrite Hx.
    assert (Hs : r * Js.pow2 (- (e + 1)) == inject_Z (2 ^ 52)).
    { rewrite Er. rewrite <- pow2_plus. replace (e + 53 + - (e + 1))%Z with 52%Z by lia.
      apply pow2_Z. lia. }
    assert (Hc : Js.nearest (r * Js.pow2 (- (e + 1))) = Js.nearest (inject_Z (2 ^ 52))).
    { unfold Js.nearest. rewrite (Qfloor_comp _ _ Hs).
      assert (Hq : r * Js.pow2 (- (e + 1)) - inject_Z (Qfloor (inject_Z (2 ^ 52)))
                   == inject_Z (2 ^ 52) - inject_Z (Qfloor (inject_Z (2 ^ 52))))
        by (rewrite Hs; reflexivity).
      rewrite (Qcompare_comp _ _ Hq _ _ (Qeq_refl (1 # 2))). reflexivity. }
    rewrite Hc, nearest_Z. rewrite Er.
    replace (e + 53)%Z with (e + 1 + 52)%Z by lia. rewrite (pow2_shift 52) by lia. reflexivity.
  - assert (Hlt : (m < 2 ^ 53)%Z) by lia.
    assert (Hx : Js.exponent r = e).
    { unfold Js.exponent. destruct Hn as [H52 | Hemin].
      - assert (Hf : Js.flog2 r = (e + 52)%Z).
        { apply flog2_unique.
          - unfold r. rewrite (pow2_shift 52) by lia. apply Qmult_le_r; [apply pow2_pos |].
            rewrite <- Zle_Qle. exact H52.
          - unfold r. replace (e + 52 + 1)%Z with (e + 53)%Z by lia.
            rewrite (pow2_shift 53) by lia. apply Qmult_lt_r; [apply pow2_pos |].
            rewrite <- Zlt_Qlt. exact Hlt. }
        rewrite Hf. lia.
      - assert (Hf : (Js.flog2 r < e + 53)%Z).
        { apply flog2_lt; [exact Hr |]. unfold r.
          rewrite (pow2_shift 53) by lia. apply Qmult_lt_r; [apply pow2_pos |].
          rewrite <- Zlt_Qlt. exact Hlt. }
        lia. }
    unfold Js.round_pos. rewrite Hx.
    assert (Hs : r * Js.pow2 (- e) == inject_Z m).
    { unfold r. rewrite <- Qmult_assoc, pow2_cancel. ring. }
    assert (Hc : Js.nearest (r * Js.pow2 (- e)) = Js.nearest (inject_Z m)).
    { unfold Js.nearest. rewrite (Qfloor_comp _ _ Hs).
      assert (Hq : r * Js.pow2 (- e) - inject_Z (Qfloor (inject_Z m))
                   == inject_Z m - inject_Z (Qfloor (inject_Z m)))
        by (rewrite Hs; reflexivity).
      rewrite (Qcompare_comp _ _ Hq _ _ (Qeq_refl (1 # 2))). reflexivity. }
    rewrite Hc, nearest_Z. reflexivity.
Qed.

Lemma nearest_comp x y : x == y -> Js.nearest x = Js.nearest y.
Proof.
  intro H. unfold Js.nearest. rewrite (Qfloor_comp _ _ H).
  assert (Hq : x - inject_Z (Qfloor y) == y - inject_Z (Qfloor y)) by (rewrite H; reflexivity).
  rewrite (Qcompare_comp _ _ Hq _ _ (Qeq_refl (1 # 2))). reflexivity.
Qed.

Lemma flog2_comp a b : 0 < a -> a == b -> Js.flog2 a = Js.flog2 b.
Proof.
  intros Ha H. destruct (flog2_spec a Ha) as [A1 A2].
  symmetry. apply flog2_unique; rewrite <- H; assumption.
Qed.

Lemma round_pos_comp a b : 0 < a -> a == b -> Js.round_pos a == Js.round_pos b.
Proof.
  intros Ha H. unfold Js.round_pos, Js.exponent. rewrite <- (flog2_comp a b Ha H).
  rewrite (nearest_comp (a * Js.pow2 (- Z.max Js.emin (Js.flog2 a - 52))) (b * Js.pow2 (- Z.max Js.emin (Js.flog2 a - 52)))).
  - reflexivity.
  - apply Qmult_comp; [exact H | reflexivity].
Qed.

Lemma round_pos_idem a : 0 < a -> 0 < Js.round_pos a -> Js.round_pos (Js.round_pos a) == Js.round_pos a.
Proof.
  intros Ha Hr. unfold Js.round_pos at 2 3.
  set (e := Js.exponent a). set (m := Js.nearest (a * Js.pow2 (- e))).
  assert (Hm0 : (0 < m)%Z).
  { assert (0 < inject_Z m).
    { unfold Js.round_pos in Hr. fold e in Hr. fold m in Hr.
      pose proof (pow2_pos e).
      destruct (Qlt_le_dec 0 (inject_Z m)) as [H1 | H1]; [exact H1 |].
      exfalso. assert (inject_Z m * Js.pow2 e <= 0 * Js.pow2 e) by (apply Qmult_le_r; assumption).
      lra. }
    rewrite Zlt_Qlt. exact H. }
  assert (Hm1 : (m <= 2 ^ 53)%Z).
  { unfold m. rewrite <- (nearest_Z (2 ^ 53)). apply nearest_mono.
    rewrite <- (pow2_Z 53) by lia. apply Qlt_le_weak, scaled_lt, Ha. }
  assert (He : (Js.emin <= e)%Z) by (unfold e, Js.exponent; lia).
  apply round_pos_fixed; [lia | exact He |].
  destruct (Z.eq_dec e Js.emin) as [E | N]; [right; exact E | left].
  unfold m. rewrite <- (nearest_Z (2 ^ 52)). apply nearest_mono.
  rewrite <- (pow2_Z 52) by lia. apply scaled_ge; [exact Ha | fold e; lia].
Qed.

Lemma Qle_lteq_refl x y : x == y -> y <= x.
Proof. intro H. rewrite H. apply Qle_refl. Qed.

Theorem double_idem q : Js.double (Js.double q) == Js.double q.
Proof.
  destruct (double_sign q) as (Q0 & Qp & Qn).
  destruct (Q_dec q 0) as [[Hq | Hq] | Hq].
  - assert (Hrq : 0 < - Qred q) by (rewrite Qred_correct; lra).
    pose proof (Qn Hq) as E.
    pose proof (round_pos_nonneg _ Hrq) as Hnn.
    destruct (Qle_lt_or_eq _ _ Hnn) as [Hpos | Hz].
    + destruct (double_sign (Js.double q)) as (_ & _ & Dn).
      rewrite Dn by lra.
      assert (C : - Qred (Js.double q) == Js.round_pos (- Qred q)) by (rewrite Qred_correct; lra).
      rewrite (round_pos_comp _ _ (Qlt_le_trans _ _ _ Hpos (Qle_lteq_refl _ _ C)) C).
      rewrite round_pos_idem by assumption. lra.
    + destruct (double_sign (Js.double q)) as (D0 & _ & _).
      rewrite D0 by lra. lra.
  - assert (Hrq : 0 < Qred q) by (rewrite Qred_correct; lra).
    pose proof (Qp Hq) as E.
    pose proof (round_pos_nonneg _ Hrq) as Hnn.
    destruct (Qle_lt_or_eq _ _ Hnn) as [Hpos | Hz].
    + destruct (double_sign (Js.double q)) as (_ & Dp & _).
      rewrite Dp by lra.
      assert (C : Qred (Js.double q) == Js.round_pos (Qred q)) by (rewrite Qred_correct; lra).
      rewrite (round_pos_comp _ _ (Qlt_le_trans _ _ _ Hpos (Qle_lteq_refl _ _ C)) C).
      rewrite round_pos_idem by assumption. lra.
    + destruct (double_sign (Js.double q)) as (D0 & _ & _).
      rewrite D0 by lra. lra.
  - rewrite (Q0 Hq). reflexivity.
Qed.

(** The rounding respects the equality of rationals. *)
#[global] Instance double_Proper : Proper (Qeq ==> Qeq) Js.double.
Proof. intros p q H. rewrite (double_comp p q H). reflexivity. Qed.

#[global] Instance fadd_Proper : Proper (Qeq ==> Qeq ==> Qeq) Js.fadd.
Proof. intros a b H c d H'. unfold Js.fadd. rewrite H, H'. reflexivity. Qed.

#[global] Instance fsub_Proper : Proper (Qeq ==> Qeq ==> Qeq) Js.fsub.
Proof. intros a b H c d H'. unfold Js.fsub. rewrite H, H'. reflexivity. Qed.

#[global] Instance fmul_Proper : Proper (Qeq ==> Qeq ==> Qeq) Js.fmul.
Proof. intros a b H c d H'. unfold Js.fmul. rewrite H, H'. reflexivity. Qed.

#[global] Instance fdiv_Proper : Proper (Qeq ==> Qeq ==> Qeq) Js.fdiv.
Proof. intros a b H c d H'. unfold Js.fdiv. rewrite H, H'. reflexivity. Qed.

#[global] Instance min_Proper : Proper (Qeq ==> Qeq ==> Qeq) Js.min.
Proof. intros a b H c d H'. rewrite !JsFacts.min_Qmin, H, H'. reflexivity. Qed.

#[global] Instance max_Proper : Proper (Qeq ==> Qeq ==> Qeq) Js.max.
Proof. intros a b H c d H'. rewrite !JsFacts.max_Qmax, H, H'. reflexivity. Qed.

Lemma double_0 : Js.double 0 = 0.
Proof. reflexivity. Qed.

Lemma double_nonneg (q : Q) : 0 <= q -> 0 <= Js.double q.
Proof. intro H. rewrite <- double_0. apply double_mono. exact H. Qed.

(** A whole number of at most 53 bits is a binary64 number. *)
Lemma double_Z (z : Z) : (Z.abs z <= 2 ^ 53)%Z -> Js.double (inject_Z z) == inject_Z z.
Proof.
  intro Hz.
  assert (Hfix : forall m, (0 < m <= 2 ^ 53)%Z -> Js.round_pos (inject_Z m) == inject_Z m).
  { intros m Hm.
    destruct (Z.log2_spec m (proj1 Hm)) as [L1 L2].
    pose proof (Z.log2_nonneg m) as L0.
    destruct (Z.eq_dec m (2 ^ 53)) as [E | N].
    - subst m. vm_compute. reflexivity.
    - assert (Hl : (Z.log2 m <= 52)%Z).
      { destruct (Z_lt_le_dec 52 (Z.log2 m)) as [Hgt | Hle]; [| exact Hle].
        exfalso. assert ((2 ^ 53 <= 2 ^ Z.log2 m)%Z) by (apply Z.pow_le_mono_r; lia). lia. }
      set (k := (52 - Z.log2 m)%Z).
      assert (Hk : (0 <= k)%Z) by (unfold k; lia).
      assert (Em : inject_Z m == inject_Z (m * 2 ^ k) * Js.pow2 (- k)).
      { rewrite inject_Z_mult, <- (pow2_Z k Hk), <- Qmult_assoc, pow2_cancel. ring. }
      assert (Hpos : 0 < inject_Z m).
      { change 0 with (inject_Z 0). rewrite <- Zlt_Qlt. lia. }
      rewrite (round_pos_comp _ _ Hpos Em).
      rewrite round_pos_fixed; [symmetry; exact Em | | unfold Js.emin, k; lia |].
      + split; [apply Z.mul_pos_pos; [lia | apply Z.pow_pos_nonneg; lia] |].
        assert (m * 2 ^ k < 2 ^ (Z.log2 m + 1) * 2 ^ k)%Z
          by (apply Z.mul_lt_mono_pos_r; [apply Z.pow_pos_nonneg; lia | lia]).
        rewrite <- Z.pow_add_r in H by lia.
        replace (Z.log2 m + 1 + k)%Z with 53%Z in H by (unfold k; lia). lia.
      + left.
        assert (2 ^ Z.log2 m * 2 ^ k <= m * 2 ^ k)%Z
          by (apply Z.mul_le_mono_nonneg_r; [apply Z.pow_nonneg; lia | lia]).
        rewrite <- Z.pow_add_r in H by lia.
        replace (Z.log2 m + k)%Z with 52%Z in H by (unfold k; lia). exact H. }
  destruct (double_sign (inject_Z z)) as (D0 & Dp & Dn).
  destruct (Z.lt_trichotomy z 0) as [Hneg | [-> | Hpos]].
  - assert (Hq : inject_Z z < 0) by (change 0 with (inject_Z 0); rewrite <- Zlt_Qlt; lia).
    rewrite (Dn Hq).
    assert (E : - Qred (inject_Z z) == inject_Z (- z))
      by (rewrite Qred_correct, inject_Z_opp; reflexivity).
    assert (Hp : 0 < - Qred (inject_Z z)) by (rewrite Qred_correct; lra).
    rewrite (round_pos_comp _ _ Hp E), Hfix by lia.
    rewrite inject_Z_opp. ring.
  - reflexivity.
  - assert (Hq : 0 < inject_Z z) by (change 0 with (inject_Z 0); rewrite <- Zlt_Qlt; lia).
    rewrite (Dp Hq).
    assert (Hp : 0 < Qred (inject_Z z)) by (rewrite Qred_correct; lra).
    rewrite (round_pos_comp _ _ Hp (Qred_correct _)), Hfix by lia.
    reflexivity.
Qed.

Lemma fadd_le (a b c d : Q) : a <= c -> b <= d -> Js.fadd a b <= Js.fadd c d.
Proof. intros H H'. apply double_mono. lra. Qed.

Lemma fsub_le (a b c d : Q) : a <= c -> d <= b -> Js.fsub a b <= Js.fsub c d.
Proof. intros H H'. apply double_mono. lra. Qed.

Lemma fmul_le (a b c d : Q) :
  0 <= a -> a <= c -> 0 <= b -> b <= d -> Js.fmul a b <= Js.fmul c d.
Proof.
  intros Ha Hac Hb Hbd. apply double_mono.
  apply Qle_trans with (c * b).
  - apply Qmult_le_compat_r; assumption.
  - rewrite (Qmult_comm c b), (Qmult_comm c d).
    apply Qmult_le_compat_r; [assumption | lra].
Qed.

Lemma fdiv_le (a c b : Q) : 0 < b -> a <= c -> Js.fdiv a b <= Js.fdiv c b.
Proof.
  intros Hb Hac. apply double_mono. unfold Qdiv.
  apply Qmult_le_compat_r; [exact Hac |]. apply Qlt_le_weak, Qinv_lt_0_compat, Hb.
Qed.

Lemma fmul_nonneg (a b : Q) : 0 <= a -> 0 <= b -> 0 <= Js.fmul a b.
Proof. intros Ha Hb. apply double_nonneg. apply Qmult_le_0_compat; assumption. Qed.

Lemma fadd_nonneg (a b : Q) : 0 <= a -> 0 <= b -> 0 <= Js.fadd a b.
Proof. intros Ha Hb. apply double_nonneg. lra. Qed.

Lemma min_le (a b c d : Q) : a <= c -> b <= d -> Js.min a b <= Js.min c d.
Proof.
  intros H H'. rewrite !JsFacts.min_Qmin. apply Q.min_le_compat; assumption.
Qed.

Lemma max_le (a b c d : Q) : a <= c -> b <= d -> Js.max a b <= Js.max c d.
Proof.
  intros H H'. rewrite !JsFacts.max_Qmax. apply Q.max_le_compat; assumption.
Qed.

(** A binary64 number [x] is above the value of a literal exactly when it
    is above the literal, for a literal that is not rounded upwards. *)
Lemma above_literal (x t : Q) :
  Js.double x == x -> Js.double t <= t ->
  (negb (Qle_bool x (Js.double t)) = true <-> t < x).
Proof.
  intros Hx Ht. destruct (Qle_bool x (Js.double t)) eqn:E; cbn [negb].
  - apply Qle_bool_iff in E. split; [discriminate |]. intro H. exfalso. lra.
  - split; [intros _ | reflexivity].
    assert (H : Js.double t < x).
    { apply Qnot_le_lt. intro H. apply Qle_bool_iff in H. congruence. }
    apply Qnot_le_lt. intro Hle. apply double_mono in Hle. lra.
Qed.

End DoubleFacts.

(** ** The rounding against the binary64 numbers of the Standard Library *)

Module FloatFacts.

Import BiomimeticMemoryManager.

(** The rounding [Js.double] and the four operations give the numbers that
    the primitive binary64 arithmetic gives: on a literal, on a sum that is
    not exact, below the normal range, and on the importance of the three
    records of the examples, written as the source writes it. *)
#[warnings="-inexact-float"]
Lemma double_agrees_with_floats :
  Js.of_float 0.1 = Some (Js.double 0.1) /\
  Js.of_float 0.7 = Some (Js.double 0.7) /\
  Js.of_float (0.1 + 0.2) = Some (Js.fadd (Js.double 0.1) (Js.double 0.2)) /\
  Js.of_float (1 / 3) = Some (Js.fdiv 1 3) /\
  Js.of_float (0x1p-1074 * 0.3) = Some (Js.fmul (Js.pow2 (-1074)) (Js.double 0.3)) /\
  Js.of_float (0x1p-1074 * 0.7) = Some (Js.fmul (Js.pow2 (-1074)) (Js.double 0.7)) /\
  Js.of_float (1 * 0.3 + 0 / 100 * 0.25 + 1 * 0.25 + 0.75 * 0.2)
  = Some (_calculateImportance 0 Examples.vivid) /\
  Js.of_float ((1 - 194400000 / 86400000 / 30) * 0.3 + 9 / 100 * 0.25
               + 0.6 * 0.25 + 0.25 * 0.2)
  = Some (_calculateImportance (54 * Examples.hour_ms) Examples.faint) /\
  Js.of_float ((1 - 7200000 / 86400000 / 30) * 0.3 + 1 / 100 * 0.25
               + 1 * 0.25 + 119 / 120 * 0.2)
  = Some (_calculateImportance (24 * Examples.hour_ms) Examples.important).
Proof.
  repeat split; vm_compute; reflexivity.
Qed.

End FloatFacts.

(** ** storeMemory *)

Module StoreFacts.

Import BiomimeticMemoryManager.

Section Store.

Context {S : Type} {R : Regions S}.

(** An initialised manager stores: the record of the object literal goes to
    the regions and its identifier is returned. *)
Lemma storeMemory_initialized (now : Z) (random : string) (d : MemoryData.t)
    (this : Manager S) :
  isInitialized this = true ->
  exists this',
    storeMemory now random d this = Ok (Memory.id (newMemory now random d), this') /\
    isInitialized this' = true /\
    regions this' = _distributeMemory (newMemory now random d) (regions this) /\
    MemoryStats.totalMemories (memoryStats this')
    = (MemoryStats.totalMemories (memoryStats this) + 1)%Z.
Proof.
  intro Hinit. unfold storeMemory. rewrite Hinit. cbn [negb].
  eexists. split; [reflexivity |]. cbn. auto.
Qed.

Lemma storeMemory_not_initialized (now : Z) (random : string) (d : MemoryData.t)
    (this : Manager S) :
  isInitialized this = false -> storeMemory now random d this = Throw notInitialized.
Proof.
  intro Hinit. unfold storeMemory. now rewrite Hinit.
Qed.

End Store.

(** C1 (as the code has it). The weight of the record created by
    [storeMemory] is the [initialWeight] of the caller when it is given and
    is not zero, and one otherwise; [emotionalWeight] has no part in it. The
    formula [min(1, 0.6 + 0.3 * importance + 0.1 * emotional)] is the one of
    [calculateMemoryWeight], which [storeEpisodicMemory] applies with the
    emotional term at its default 0.5; at importance 0.8 and emotional 0.5
    it gives 0.89. *)
Theorem storeMemory_weight {S : Type} {R : Regions S} (now : Z) (random : string)
    (d : MemoryData.t) (this : Manager S) :
  isInitialized this = true ->
  (exists memory this',
     storeMemory now random d this = Ok (Memory.id memory, this') /\
     regions this' = _distributeMemory memory (regions this) /\
     (forall w, MemoryData.initialWeight d = Some w -> ~ w == 0 -> Memory.weight memory = w) /\
     (forall w, MemoryData.initialWeight d = Some w -> w == 0 -> Memory.weight memory == 1) /\
     (MemoryData.initialWeight d = None -> Memory.weight memory == 1)) /\
  (forall content importance emotional,
     NeuromorphicBrain.calculateMemoryWeight content (Some importance) (Some emotional)
     == Qmin 1 (0.6 + 0.3 * importance + 0.1 * emotional)) /\
  (forall event context importance brain,
     snd (fst (fst (NeuromorphicBrain.storeEpisodicMemory now random event context
                      (Some importance) brain)))
     == Qmin 1 (0.6 + 0.3 * importance + 0.1 * 0.5)) /\
  NeuromorphicBrain.calculateMemoryWeight "hello" (Some 0.8) (Some 0.5) == 0.89.
Proof.
  intro Hinit. split; [| split; [| split]].
  - destruct (storeMemory_initialized now random d this Hinit) as (this' & Hs & _ & Hr & _).
    exists (newMemory now random d), this'. repeat split; try assumption.
    + intros w Hw Hnz. cbn. rewrite Hw. now apply JsFacts.or_num_nonzero.
    + intros w Hw Hz. cbn. rewrite Hw. rewrite (JsFacts.or_num_zero w _ Hz). reflexivity.
    + intros Hw. cbn. rewrite Hw. reflexivity.
  - intros content importance emotional.
    unfold NeuromorphicBrain.calculateMemoryWeight. cbn [Js.default_param].
    rewrite JsFacts.min_Qmin.
    apply Q.min_compat; [reflexivity | ring].
  - intros event context importance brain.
    unfold NeuromorphicBrain.storeEpisodicMemory, NeuromorphicBrain.calculateMemoryWeight.
    cbn [fst snd Js.default_param].
    rewrite JsFacts.min_Qmin.
    apply Q.min_compat; [reflexivity | ring].
  - vm_compute. reflexivity.
Qed.

(** The theorem at the call of the scenario, on stores that keep records. *)
Lemma storeMemory_weight_witness :
  exists memory this',
    storeMemory 0 "abc" Examples.hello InMemory.manager = Ok (Memory.id memory, this') /\
    regions this' = _distributeMemory memory (regions InMemory.manager) /\
    Memory.weight memory = 0.8.
Proof.
  destruct (storeMemory_weight 0 "abc" Examples.hello InMemory.manager eq_refl)
    as [(memory & this' & Hs & Hr & Hw & _) _].
  exists memory, this'. repeat split; try assumption.
  apply Hw; [reflexivity | intro H; discriminate H].
Defined.

(** C1 fails as stated: the call of the scenario leaves in the stores a
    record of weight 0.8, which is not the 0.89 of the formula. *)
Lemma storeMemory_weight_counterexample :
  exists memoryId this' memory,
    storeMemory 0 "abc" Examples.hello InMemory.manager = Ok (memoryId, this') /\
    InMemory.hippocampus (regions this') = [memory] /\
    Memory.weight memory == 0.8 /\
    ~ Memory.weight memory == Qmin 1 (0.6 + 0.3 * 0.8 + 0.1 * 0.5).
Proof.
  eexists. eexists. eexists. split; [reflexivity |]. split; [reflexivity |].
  split; [reflexivity |]. cbn. intro H. vm_compute in H. discriminate H.
Qed.

End StoreFacts.

(** ** Defaults of the stored record *)

Module DefaultsFacts.

Import BiomimeticMemoryManager.

(** C9. A caller that passes zero for [initialWeight], [emotionalWeight] or
    [semanticWeight] gets the default instead (1.0, 0.5, 0.5): through the
    manager, and through the tool layer, whose [memoryData] already carries
    the defaults. *)
Theorem zero_weight_takes_default {S : Type} {R : Regions S} (now : Z) (random : string)
    (d : MemoryData.t) (this : Manager S) :
  isInitialized this = true ->
  (exists memory this',
     storeMemory now random d this = Ok (Memory.id memory, this') /\
     regions this' = _distributeMemory memory (regions this) /\
     (forall z, MemoryData.initialWeight d = Some z -> z == 0 ->
                Memory.weight memory = 1.0) /\
     (forall z, MemoryData.emotionalWeight d = Some z -> z == 0 ->
                Memory.emotionalWeight memory = 0.5) /\
     (forall z, MemoryData.semanticWeight d = Some z -> z == 0 ->
                Memory.semanticWeight memory = 0.5)) /\
  (forall embedding storedAt args,
     let data := NeuromorphicMCPServer.memoryData embedding storedAt args in
     (forall z, NeuromorphicMCPServer.StoreArgs.initialWeight args = Some z -> z == 0 ->
                MemoryData.initialWeight data = Some 1.0) /\
     (forall z, NeuromorphicMCPServer.StoreArgs.emotionalWeight args = Some z -> z == 0 ->
                MemoryData.emotionalWeight data = Some 0.5) /\
     (forall z, NeuromorphicMCPServer.StoreArgs.semanticWeight args = Some z -> z == 0 ->
                MemoryData.semanticWeight data = Some 0.5) /\
     exists memoryId server',
       NeuromorphicMCPServer.storeMemory now random embedding storedAt args
         (NeuromorphicMCPServer.mkServer true this) = Ok (memoryId, data, server') /\
       regions (NeuromorphicMCPServer.memoryManager server')
       = _distributeMemory (newMemory now random data) (regions this)).
Proof.
  intro Hinit. split.
  - destruct (StoreFacts.storeMemory_initialized now random d this Hinit)
      as (this' & Hs & _ & Hr & _).
    exists (newMemory now random d), this'. repeat split; try assumption.
    + intros z Hz H0. cbn. rewrite Hz. now apply JsFacts.or_num_zero.
    + intros z Hz H0. cbn. rewrite Hz. now apply JsFacts.or_num_zero.
    + intros z Hz H0. cbn. rewrite Hz. now apply JsFacts.or_num_zero.
  - intros embedding storedAt args data. repeat split.
    + intros z Hz H0. cbn. rewrite Hz. f_equal. now apply JsFacts.or_num_zero.
    + intros z Hz H0. cbn. rewrite Hz. f_equal. now apply JsFacts.or_num_zero.
    + intros z Hz H0. cbn. rewrite Hz. f_equal. now apply JsFacts.or_num_zero.
    + destruct (StoreFacts.storeMemory_initialized now random data this Hinit)
        as (this' & Hs & _ & Hr & _).
      exists (Memory.id (newMemory now random data)), (NeuromorphicMCPServer.mkServer true this').
      unfold NeuromorphicMCPServer.storeMemory. cbn [NeuromorphicMCPServer.isInitialized negb].
      cbn [NeuromorphicMCPServer.memoryManager]. fold data. rewrite Hs.
      split; [reflexivity | exact Hr].
Qed.

(** The theorem at a caller that passes three zeros, to the manager and to
    the tool layer. *)
Lemma zero_weight_takes_default_witness :
  (exists memory this',
     storeMemory 0 "abc" Examples.zeros InMemory.manager = Ok (Memory.id memory, this') /\
     Memory.weight memory = 1.0 /\
     Memory.emotionalWeight memory = 0.5 /\
     Memory.semanticWeight memory = 0.5) /\
  (let data := NeuromorphicMCPServer.memoryData [] "t" Examples.zerosArgs in
   MemoryData.initialWeight data = Some 1.0 /\
   MemoryData.emotionalWeight data = Some 0.5 /\
   MemoryData.semanticWeight data = Some 0.5).
Proof.
  destruct (zero_weight_takes_default 0 "abc" Examples.zeros InMemory.manager eq_refl)
    as [(memory & this' & Hs & _ & Hw & He & Hsem) Hserver].
  split.
  - exists memory, this'. split; [exact Hs |]. split; [| split].
    + apply (Hw 0); reflexivity.
    + apply (He 0); reflexivity.
    + apply (Hsem 0); reflexivity.
  - destruct (Hserver [] "t"%string Examples.zerosArgs) as (Hw' & He' & Hsem' & _).
    split; [| split].
    + apply (Hw' 0); reflexivity.
    + apply (He' 0); reflexivity.
    + apply (Hsem' 0); reflexivity.
Defined.

End DefaultsFacts.

(** ** retrieveMemory *)

Module RetrieveFacts.

Import BiomimeticMemoryManager.

Section Retrieve.

Context {S : Type} {R : Regions S}.

(** When no region answers, the result is absent and nothing is written. *)
Lemma retrieveMemory_absent (memoryId : string) (now : Z) (this : Manager S) :
  isInitialized this = true ->
  Js.find_not_null (searchById memoryId (regions this)) = None ->
  retrieveMemory memoryId now this = Ok (None, this).
Proof.
  intros Hinit Hnone. unfold retrieveMemory. rewrite Hinit, Hnone. reflexivity.
Qed.

Lemma retrieveMemory_found (memoryId : string) (now : Z) (this : Manager S)
    (found : Memory.t) :
  isInitialized this = true ->
  Js.find_not_null (searchById memoryId (regions this)) = Some found ->
  retrieveMemory memoryId now this
  = Ok (Some (reinforce now found),
        mkManager true (memoryStats this)
          (_updateMemoryAcrossRegions (reinforce now found) (regions this))).
Proof.
  intros Hinit Hfound. unfold retrieveMemory. rewrite Hinit, Hfound. reflexivity.
Qed.

End Retrieve.

(** C4. A retrieve that finds a record of weight [w] and access count [c]
    returns it with weight [min(1, w + 0.01)], access count [c + 1] and the
    present time as [lastAccessed], the other fields as found, and hands
    this same record to the write across the regions. *)
Theorem retrieveMemory_reinforces {S : Type} {R : Regions S} (memoryId : string)
    (now : Z) (this : Manager S) (found : Memory.t) :
  isInitialized this = true ->
  Js.find_not_null (searchById memoryId (regions this)) = Some found ->
  exists memory this',
    retrieveMemory memoryId now this = Ok (Some memory, this') /\
    Memory.weight memory == Qmin 1 (Memory.weight found + 0.01) /\
    Memory.accessCount memory = (Memory.accessCount found + 1)%Z /\
    Memory.lastAccessed memory = now /\
    regions this' = _updateMemoryAcrossRegions memory (regions this) /\
    Memory.id memory = Memory.id found /\
    Memory.content memory = Memory.content found /\
    Memory.type memory = Memory.type found /\
    Memory.tags memory = Memory.tags found /\
    Memory.created memory = Memory.created found.
Proof.
  intros Hinit Hfound.
  eexists. eexists. split; [exact (retrieveMemory_found memoryId now this found Hinit Hfound) |].
  cbn. split; [| repeat split].
  rewrite JsFacts.min_Qmin. apply Q.min_compat; reflexivity.
Qed.

(** The theorem at a store that holds one record of weight one half: the
    record comes back with weight 0.51 and one access. *)
Lemma retrieveMemory_reinforces_witness :
  exists memory this',
    retrieveMemory "m1" 7 (InMemory.managerOf [Examples.half]) = Ok (Some memory, this') /\
    Memory.weight memory == 0.51 /\
    Memory.accessCount memory = 1%Z /\
    Memory.lastAccessed memory = 7%Z /\
    InMemory.hippocampus (regions this') = [memory].
Proof.
  assert (Hfound : Js.find_not_null
                     (searchById "m1" (regions (InMemory.managerOf [Examples.half])))
                   = Some Examples.half) by (vm_compute; reflexivity).
  destruct (retrieveMemory_reinforces "m1" 7 (InMemory.managerOf [Examples.half])
              Examples.half eq_refl Hfound)
    as (memory & this' & Hr & Hw & Hc & Hl & Hreg & Hid & _).
  exists memory, this'. split; [exact Hr |].
  split; [rewrite Hw; vm_compute; reflexivity |].
  split; [exact Hc |]. split; [exact Hl |].
  rewrite Hreg. cbn. unfold InMemory.write, InMemory.same_id. cbn [existsb map].
  rewrite Hid. reflexivity.
Defined.

End RetrieveFacts.

(** ** storeMemory followed by retrieveMemory *)

Module RoundTripFacts.

Import BiomimeticMemoryManager.

(** C3 (as the code has it). Over regions whose read by id finds the record
    that [storeMemory] distributed, a first [retrieveMemory] of the returned
    identifier gives a record with the content of the call, with the type
    of the call when that is a text that is not empty and the type
    "general" when it is missing or empty, with the tags of the call or
    none when they are missing, with one access, and with the weight of
    creation raised by 0.01 and capped at one. *)
Theorem store_then_retrieve {S : Type} {R : Regions S} (now later : Z) (random : string)
    (d : MemoryData.t) (this : Manager S) :
  isInitialized this = true ->
  Js.find_not_null
    (searchById (Memory.id (newMemory now random d))
       (_distributeMemory (newMemory now random d) (regions this)))
  = Some (newMemory now random d) ->
  exists memoryId this1 memory this2,
    storeMemory now random d this = Ok (memoryId, this1) /\
    retrieveMemory memoryId later this1 = Ok (Some memory, this2) /\
    Memory.content memory = MemoryData.content d /\
    (forall k, MemoryData.type d = Some k -> k <> EmptyString -> Memory.type memory = k) /\
    (MemoryData.type d = None \/ MemoryData.type d = Some EmptyString ->
     Memory.type memory = "general"%string) /\
    (forall t, MemoryData.tags d = Some t -> Memory.tags memory = t) /\
    (MemoryData.tags d = None -> Memory.tags memory = []) /\
    Memory.weight memory == Qmin 1 (Memory.weight (newMemory now random d) + 0.01) /\
    Memory.accessCount memory = 1%Z /\
    Memory.lastAccessed memory = later.
Proof.
  intros Hinit Hread.
  destruct (StoreFacts.storeMemory_initialized now random d this Hinit)
    as (this1 & Hs & Hinit1 & Hr & _).
  rewrite <- Hr in Hread.
  exists (Memory.id (newMemory now random d)), this1.
  eexists. eexists. split; [exact Hs |].
  split; [exact (RetrieveFacts.retrieveMemory_found _ later this1 _ Hinit1 Hread) |].
  cbn. repeat split.
  - intros k Hk Hne. rewrite Hk. destruct k; [congruence | reflexivity].
  - intros [Hk | Hk]; rewrite Hk; reflexivity.
  - intros t Ht. rewrite Ht. reflexivity.
  - intro Ht. rewrite Ht. reflexivity.
  - rewrite JsFacts.min_Qmin. apply Q.min_compat; reflexivity.
Qed.

(** The theorem at the call of the scenario: 0.8 at creation, 0.81 at the
    first retrieve. *)
Lemma store_then_retrieve_witness :
  exists memoryId this1 memory this2,
    storeMemory 0 "abc" Examples.hello InMemory.manager = Ok (memoryId, this1) /\
    retrieveMemory memoryId 5 this1 = Ok (Some memory, this2) /\
    Memory.content memory = "hello"%string /\
    Memory.type memory = "general"%string /\
    Memory.tags memory = ["greeting"%string] /\
    Memory.weight memory == 0.81 /\
    Memory.accessCount memory = 1%Z.
Proof.
  assert (Hread : Js.find_not_null
                    (searchById (Memory.id (newMemory 0 "abc" Examples.hello))
                       (_distributeMemory (newMemory 0 "abc" Examples.hello)
                          (regions InMemory.manager)))
                  = Some (newMemory 0 "abc" Examples.hello)) by (vm_compute; reflexivity).
  destruct (store_then_retrieve 0 5 "abc" Examples.hello InMemory.manager eq_refl Hread)
    as (memoryId & this1 & memory & this2 & Hs & Hr & Hc & Hk & _ & Ht & _ & Hw & Ha & _).
  exists memoryId, this1, memory, this2.
  split; [exact Hs |]. split; [exact Hr |]. split; [exact Hc |].
  split; [apply Hk; [reflexivity | discriminate] |].
  split; [apply Ht; reflexivity |].
  split; [rewrite Hw; vm_compute; reflexivity | exact Ha].
Defined.

(** C3 fails as stated. With the region methods of the repository the
    retrieve after a store is absent; over stores that keep the record the
    retrieve returns it with weight 0.81, not the 0.8 of its creation; and
    a record stored with the empty text for its type comes back with the
    type "general". *)
Lemma store_then_retrieve_counterexample :
  (exists memoryId this1,
     storeMemory 0 "abc" Examples.hello Placeholder.manager = Ok (memoryId, this1) /\
     retrieveMemory memoryId 5 this1 = Ok (None, this1)) /\
  (exists memoryId this1 created memory this2,
     storeMemory 0 "abc" Examples.hello InMemory.manager = Ok (memoryId, this1) /\
     InMemory.hippocampus (regions this1) = [created] /\
     retrieveMemory memoryId 5 this1 = Ok (Some memory, this2) /\
     Memory.weight created == 0.8 /\
     Memory.weight memory == 0.81 /\
     ~ Memory.weight memory == Memory.weight created) /\
  (exists memoryId this1 memory this2,
     storeMemory 0 "abc" Examples.untyped InMemory.manager = Ok (memoryId, this1) /\
     retrieveMemory memoryId 5 this1 = Ok (Some memory, this2) /\
     MemoryData.type Examples.untyped = Some EmptyString /\
     Memory.type memory = "general"%string /\
     Some (Memory.type memory) <> MemoryData.type Examples.untyped).
Proof.
  split; [| split].
  - eexists. eexists. split; reflexivity.
  - eexists. eexists. eexists. eexists. eexists.
    split; [reflexivity |]. split; [reflexivity |]. split; [vm_compute; reflexivity |].
    split; [reflexivity |]. split; [vm_compute; reflexivity |].
    intro H. vm_compute in H. discriminate H.
  - eexists. eexists. eexists. eexists.
    split; [reflexivity |]. split; [vm_compute; reflexivity |].
    split; [reflexivity |]. split; [reflexivity |]. discriminate.
Qed.

End RoundTripFacts.

(** ** getMemoryStatistics *)

Module StatisticsFacts.

Import BiomimeticMemoryManager.

(** The average of the distribution is a finite number, whatever the
    population. *)
Lemma average_is_finite (memories : list Memory.t) :
  exists q, WeightDistribution.average (_calculateWeightDistribution memories) = Js.Num q.
Proof.
  unfold _calculateWeightDistribution.
  destruct memories as [| m l].
  - exists 0. reflexivity.
  - cbn [List.length Nat.eqb WeightDistribution.average]. unfold Js.div.
    destruct (Qeq_bool (inject_Z (Z.of_nat (Datatypes.S (List.length l)))) 0) eqn:E.
    + apply Qeq_bool_iff in E. unfold Qeq in E. cbn in E. lia.
    + eexists. reflexivity.
Qed.

(** C10. Over an empty population the statistics report an average weight
    of exactly zero and no conscious, accessible or dormant record; and over
    any population the reported average is a finite number. *)
Theorem statistics_of_empty_population {S : Type} {R : Regions S} (now : Z)
    (this : Manager S) :
  isInitialized this = true ->
  (_getAllMemoriesForConsolidation (regions this) = [] ->
   exists stats,
     getMemoryStatistics now this = Ok stats /\
     Statistics.averageWeight stats = Js.Num 0 /\
     Statistics.totalMemories stats = 0%nat /\
     WeightDistribution.average (Statistics.weightDistribution stats) = Js.Num 0 /\
     WeightDistribution.conscious (Statistics.weightDistribution stats) = 0%nat /\
     WeightDistribution.accessible (Statistics.weightDistribution stats) = 0%nat /\
     WeightDistribution.dormant (Statistics.weightDistribution stats) = 0%nat) /\
  (exists stats q,
     getMemoryStatistics now this = Ok stats /\
     Statistics.averageWeight stats = Js.Num q).
Proof.
  intro Hinit. split.
  - intro Hempty. unfold getMemoryStatistics. rewrite Hinit, Hempty. cbn [negb].
    eexists. split; [reflexivity |]. cbn. repeat split.
  - unfold getMemoryStatistics. rewrite Hinit. cbn [negb].
    destruct (average_is_finite (_getAllMemoriesForConsolidation (regions this))) as [q Hq].
    eexists. exists q. split; [reflexivity |]. cbn [Statistics.averageWeight]. exact Hq.
Qed.

(** The theorem at the manager of the repository, whose sweep is empty. *)
Lemma statistics_of_empty_population_witness :
  exists stats,
    getMemoryStatistics 9 Placeholder.manager = Ok stats /\
    Statistics.averageWeight stats = Js.Num 0 /\
    WeightDistribution.conscious (Statistics.weightDistribution stats) = 0%nat /\
    WeightDistribution.accessible (Statistics.weightDistribution stats) = 0%nat /\
    WeightDistribution.dormant (Statistics.weightDistribution stats) = 0%nat.
Proof.
  destruct (statistics_of_empty_population 9 Placeholder.manager eq_refl) as [H _].
  destruct (H eq_refl) as (stats & Hs & Ha & _ & _ & Hc & Hacc & Hd).
  exists stats. repeat split; assumption.
Defined.

End StatisticsFacts.

(** ** performConsolidation *)

Module ConsolidationFacts.

Import BiomimeticMemoryManager.

Lemma isRecent_true (now : Z) (memory : Memory.t) (ms : Z) :
  _isRecent now memory ms = true <-> (now - Memory.lastAccessed memory < ms)%Z.
Proof.
  unfold _isRecent. apply Z.ltb_lt.
Qed.

Lemma isRecent_false (now : Z) (memory : Memory.t) (ms : Z) :
  _isRecent now memory ms = false <-> (ms <= now - Memory.lastAccessed memory)%Z.
Proof.
  unfold _isRecent. apply Z.ltb_ge.
Qed.

Lemma strengthen_lastAccessed (type : string) (now : Z) (memory : Memory.t) :
  Memory.lastAccessed (strengthen type now memory) = Memory.lastAccessed memory.
Proof.
  unfold strengthen.
  destruct (String.eqb type "sws"); [| destruct (String.eqb type "rem")];
    repeat match goal with |- context [if ?b then _ else _] => destruct b end;
    reflexivity.
Qed.

(** The importance is the result of a binary64 addition. *)
Lemma importance_is_double (now : Z) (memory : Memory.t) :
  Js.double (_calculateImportance now memory) == _calculateImportance now memory.
Proof.
  unfold _calculateImportance. cbv zeta.
  match goal with
  | |- Js.double (Js.fadd ?a ?b) == _ => change (Js.fadd a b) with (Js.double (a + b))
  end.
  apply DoubleFacts.double_idem.
Qed.

(** The two tests of the importance: the literal 0.7 denotes a number below
    0.7 and the literal 0.5 denotes 0.5, and no binary64 number lies
    between a literal and its value. *)
Lemma above_07 (now : Z) (memory : Memory.t) :
  negb (Qle_bool (_calculateImportance now memory) (Js.double 0.7)) = true
  <-> 0.7 < _calculateImportance now memory.
Proof.
  apply DoubleFacts.above_literal; [apply importance_is_double |].
  vm_compute. discriminate.
Qed.

Lemma above_05 (now : Z) (memory : Memory.t) :
  negb (Qle_bool (_calculateImportance now memory) (Js.double 0.5)) = true
  <-> 0.5 < _calculateImportance now memory.
Proof.
  apply DoubleFacts.above_literal; [apply importance_is_double |].
  vm_compute. discriminate.
Qed.

Lemma not_above (b : bool) (P : Prop) : (negb b = true <-> P) -> ~ P -> negb b = false.
Proof.
  intros H Hn. destruct (negb b); [| reflexivity]. exfalso. apply Hn, H. reflexivity.
Qed.

(** The fast pass strengthens exactly on high importance and recent access. *)
Lemma strengthen_sws (now : Z) (memory : Memory.t) :
  strengthen "sws" now memory
  = if negb (Qle_bool (_calculateImportance now memory) (Js.double 0.7))
       && _isRecent now memory (24 * 60 * 60 * 1000)
    then set_weight (Js.min 1.0 (Memory.weight memory + config.memory.consolidationStrength))
           memory
    else memory.
Proof.
  reflexivity.
Qed.

Lemma strengthen_rem (now : Z) (memory : Memory.t) :
  strengthen "rem" now memory
  = if negb (Qle_bool (_calculateImportance now memory) (Js.double 0.5))
    then set_weight
           (Js.min 1.0 (Memory.weight memory + config.memory.consolidationStrength * 0.5))
           memory
    else memory.
Proof.
  reflexivity.
Qed.

Lemma strengthen_other (type : string) (now : Z) (memory : Memory.t) :
  type <> "sws"%string -> type <> "rem"%string -> strengthen type now memory = memory.
Proof.
  intros Hsws Hrem. unfold strengthen.
  apply String.eqb_neq in Hsws, Hrem. rewrite Hsws, Hrem. reflexivity.
Qed.

(** No pass but the slow one strengthens a record whose last access is a
    day old. *)
Lemma strengthen_not_recent (type : string) (now : Z) (memory : Memory.t) :
  type <> "rem"%string ->
  (24 * 60 * 60 * 1000 <= now - Memory.lastAccessed memory)%Z ->
  strengthen type now memory = memory.
Proof.
  intros Hrem Hold.
  destruct (String.eqb type "sws") eqn:E.
  - apply String.eqb_eq in E. subst type. rewrite strengthen_sws.
    assert (Hr : _isRecent now memory (24 * 60 * 60 * 1000) = false)
      by (apply isRecent_false; exact Hold).
    rewrite Hr, andb_false_r. reflexivity.
  - apply String.eqb_neq in E. apply strengthen_other; assumption.
Qed.

(** The slow pass strengthens exactly on an importance above 0.5. *)
Lemma strengthen_rem_weight (now : Z) (memory : Memory.t) :
  (0.5 < _calculateImportance now memory ->
   Memory.weight (strengthen "rem" now memory) == Qmin 1 (Memory.weight memory + 0.05)) /\
  (_calculateImportance now memory <= 0.5 -> strengthen "rem" now memory = memory).
Proof.
  split; intro Himp; rewrite strengthen_rem.
  - apply above_05 in Himp. rewrite Himp. cbn [set_weight Memory.weight].
    rewrite JsFacts.min_Qmin. apply Q.min_compat; [reflexivity |].
    unfold config.memory.consolidationStrength. ring.
  - rewrite (not_above _ _ (above_05 now memory)) by lra. reflexivity.
Qed.

(** The decay branch, by the age of the last access. *)
Lemma decay_old (now : Z) (memory : Memory.t) :
  (7 * 24 * 60 * 60 * 1000 <= now - Memory.lastAccessed memory)%Z ->
  decay now memory
  = set_weight (Js.max 0.0 (Memory.weight memory - config.memory.decayRate)) memory.
Proof.
  intro H. unfold decay. apply isRecent_false in H. rewrite H. reflexivity.
Qed.

Lemma decay_recent (now : Z) (memory : Memory.t) :
  (now - Memory.lastAccessed memory < 7 * 24 * 60 * 60 * 1000)%Z ->
  decay now memory = memory.
Proof.
  intro H. unfold decay. apply isRecent_true in H. rewrite H. reflexivity.
Qed.

(** C7. In a fast pass, a record whose computed importance exceeds 0.7 and
    whose last access is less than 24 hours old gains
    [consolidationStrength] (0.1), capped at one, and leaves the pass with
    that weight; for any other record the reinforcement branch changes
    nothing. A record of importance 0.75 and weight 0.6 accessed two hours
    ago ends at 0.7. *)
Theorem fast_pass_strengthens (now : Z) (memory : Memory.t) :
  (0.7 < _calculateImportance now memory ->
   (now - Memory.lastAccessed memory < 24 * 60 * 60 * 1000)%Z ->
   Memory.weight (strengthen "sws" now memory)
   == Qmin 1 (Memory.weight memory + config.memory.consolidationStrength) /\
   Memory.weight (consolidateMemory "sws" now memory)
   == Qmin 1 (Memory.weight memory + config.memory.consolidationStrength)) /\
  (~ (0.7 < _calculateImportance now memory /\
      (now - Memory.lastAccessed memory < 24 * 60 * 60 * 1000)%Z) ->
   strengthen "sws" now memory = memory) /\
  config.memory.consolidationStrength == 0.1 /\
  (_calculateImportance now memory == 0.75 ->
   Memory.weight memory == 0.6 ->
   (now - Memory.lastAccessed memory = 2 * 60 * 60 * 1000)%Z ->
   Memory.weight (consolidateMemory "sws" now memory) == 0.7).
Proof.
  assert (Hstrong :
    0.7 < _calculateImportance now memory ->
    (now - Memory.lastAccessed memory < 24 * 60 * 60 * 1000)%Z ->
    Memory.weight (strengthen "sws" now memory)
    == Qmin 1 (Memory.weight memory + config.memory.consolidationStrength) /\
    Memory.weight (consolidateMemory "sws" now memory)
    == Qmin 1 (Memory.weight memory + config.memory.consolidationStrength)).
  { intros Himp Hrec.
    assert (Hs : strengthen "sws" now memory
                 = set_weight (Js.min 1.0 (Memory.weight memory
                                           + config.memory.consolidationStrength)) memory).
    { rewrite strengthen_sws.
      apply above_07 in Himp. rewrite Himp.
      apply isRecent_true in Hrec. rewrite Hrec. reflexivity. }
    assert (Hw : Memory.weight (strengthen "sws" now memory)
                 == Qmin 1 (Memory.weight memory + config.memory.consolidationStrength)).
    { rewrite Hs. cbn [Memory.weight set_weight]. rewrite JsFacts.min_Qmin.
      apply Q.min_compat; reflexivity. }
    split; [exact Hw |].
    unfold consolidateMemory. rewrite decay_recent; [exact Hw |].
    rewrite strengthen_lastAccessed. lia. }
  split; [exact Hstrong |]. split; [| split].
  - intro Hnot. rewrite strengthen_sws.
    destruct (negb (Qle_bool (_calculateImportance now memory) (Js.double 0.7))) eqn:Ei;
      [| reflexivity].
    destruct (_isRecent now memory (24 * 60 * 60 * 1000)) eqn:Er; [| reflexivity].
    exfalso. apply Hnot. split; [now apply above_07 | now apply isRecent_true].
  - reflexivity.
  - intros Himp Hw Hage.
    destruct Hstrong as [_ Hc]; [rewrite Himp; reflexivity | lia |].
    rewrite Hc, Hw. vm_compute. reflexivity.
Qed.

(** The theorem at the record of the scenario, and the whole pass over
    stores that hold it: one record is rewritten, with weight 0.7. *)
Lemma fast_pass_strengthens_witness :
  _calculateImportance (24 * Examples.hour_ms) Examples.important == 0.75 /\
  Memory.weight (consolidateMemory "sws" (24 * Examples.hour_ms) Examples.important) == 0.7 /\
  exists this',
    performConsolidation "sws" (24 * Examples.hour_ms) (InMemory.managerOf [Examples.important])
    = Ok (1%nat, this') /\
    InMemory.hippocampus (regions this')
    = [consolidateMemory "sws" (24 * Examples.hour_ms) Examples.important].
Proof.
  assert (Himp : _calculateImportance (24 * Examples.hour_ms) Examples.important == 0.75)
    by (vm_compute; reflexivity).
  split; [exact Himp |]. split.
  - destruct (fast_pass_strengthens (24 * Examples.hour_ms) Examples.important) as (_ & _ & _ & H).
    apply H; [exact Himp | reflexivity | reflexivity].
  - eexists. split; vm_compute; reflexivity.
Defined.

(** C8 (as the code has it). In a pass of any kind, a record whose last
    access is at least seven days old has [decayRate] (0.001) taken from
    the weight with which it reaches the decay branch, floored at zero, and
    so never leaves below zero. In a fast pass, and in a slow pass for an
    importance of at most 0.5, that weight is the one it had before the
    pass; in a slow pass a record of importance above 0.5 is first raised
    by 0.05, capped at one. A record accessed within the seven days is not
    changed by the decay. *)
Theorem decay_outside_the_window (type : string) (now : Z) (memory : Memory.t) :
  ((7 * 24 * 60 * 60 * 1000 <= now - Memory.lastAccessed memory)%Z ->
   Memory.weight (consolidateMemory type now memory)
   == Qmax 0 (Memory.weight (strengthen type now memory) - config.memory.decayRate) /\
   0 <= Memory.weight (consolidateMemory type now memory) /\
   (type <> "rem"%string ->
    Memory.weight (consolidateMemory type now memory)
    == Qmax 0 (Memory.weight memory - config.memory.decayRate)) /\
   (type = "rem"%string -> _calculateImportance now memory <= 0.5 ->
    Memory.weight (consolidateMemory type now memory)
    == Qmax 0 (Memory.weight memory - config.memory.decayRate)) /\
   (type = "rem"%string -> 0.5 < _calculateImportance now memory ->
    Memory.weight (consolidateMemory type now memory)
    == Qmax 0 (Qmin 1 (Memory.weight memory + 0.05) - config.memory.decayRate))) /\
  ((now - Memory.lastAccessed memory < 7 * 24 * 60 * 60 * 1000)%Z ->
   consolidateMemory type now memory = strengthen type now memory) /\
  config.memory.decayRate == 0.001.
Proof.
  split; [| split].
  - intro Hold.
    assert (Hd : Memory.weight (consolidateMemory type now memory)
                 == Qmax 0 (Memory.weight (strengthen type now memory)
                            - config.memory.decayRate)).
    { unfold consolidateMemory. rewrite decay_old by (rewrite strengthen_lastAccessed; lia).
      cbn [Memory.weight set_weight]. rewrite JsFacts.max_Qmax.
      apply Q.max_compat; reflexivity. }
    split; [exact Hd |]. split; [rewrite Hd; apply Q.le_max_l |].
    split; [| split].
    + intro Hrem. rewrite Hd.
      rewrite (strengthen_not_recent type now memory Hrem) by lia. reflexivity.
    + intros -> Himp. rewrite Hd.
      rewrite (proj2 (strengthen_rem_weight now memory) Himp). reflexivity.
    + intros -> Himp. rewrite Hd.
      apply Q.max_compat; [reflexivity |].
      rewrite (proj1 (strengthen_rem_weight now memory) Himp). reflexivity.
  - intro Hrec. unfold consolidateMemory. apply decay_recent.
    rewrite strengthen_lastAccessed. exact Hrec.
  - reflexivity.
Qed.

(** The theorem at two records of weight 0.5 last accessed eight days ago.
    One fast pass leaves the first at 0.499, and the pass rewrites that one
    record; one slow pass leaves the second, whose importance is above 0.5,
    at 0.549. *)
Lemma decay_outside_the_window_witness :
  Memory.weight (consolidateMemory "sws" (8 * 24 * Examples.hour_ms) Examples.stale) == 0.499 /\
  0 <= Memory.weight (consolidateMemory "sws" (8 * 24 * Examples.hour_ms) Examples.stale) /\
  Memory.weight (consolidateMemory "rem" (8 * 24 * Examples.hour_ms) Examples.cherished)
  == 0.549 /\
  exists this',
    performConsolidation "sws" (8 * 24 * Examples.hour_ms) (InMemory.managerOf [Examples.stale])
    = Ok (1%nat, this') /\
    InMemory.hippocampus (regions this')
    = [consolidateMemory "sws" (8 * 24 * Examples.hour_ms) Examples.stale].
Proof.
  destruct (decay_outside_the_window "sws" (8 * 24 * Examples.hour_ms) Examples.stale)
    as (Hold & _ & _).
  destruct Hold as (_ & Hpos & Hsws & _); [vm_compute; discriminate |].
  destruct (decay_outside_the_window "rem" (8 * 24 * Examples.hour_ms) Examples.cherished)
    as (Hold & _ & _).
  destruct Hold as (_ & _ & _ & _ & Hrem); [vm_compute; discriminate |].
  split; [rewrite Hsws by discriminate; vm_compute; reflexivity |].
  split; [exact Hpos |].
  split; [rewrite (Hrem eq_refl) by (vm_compute; reflexivity); vm_compute; reflexivity |].
  eexists. split; vm_compute; reflexivity.
Defined.

(** C8 fails as stated. A slow pass over a record of weight 0.5 whose last
    access is eight days old and whose importance is above 0.5 does not
    reduce the weight by 0.001: the record leaves the pass at 0.549, and
    that is the weight the pass writes to the stores. *)
Lemma decay_outside_the_window_counterexample :
  (7 * 24 * 60 * 60 * 1000
   <= 8 * 24 * Examples.hour_ms - Memory.lastAccessed Examples.cherished)%Z /\
  Memory.weight Examples.cherished == 0.5 /\
  0.5 < _calculateImportance (8 * 24 * Examples.hour_ms) Examples.cherished /\
  Memory.weight (consolidateMemory "rem" (8 * 24 * Examples.hour_ms) Examples.cherished)
  == 0.549 /\
  ~ Memory.weight (consolidateMemory "rem" (8 * 24 * Examples.hour_ms) Examples.cherished)
    == Qmax 0 (Memory.weight Examples.cherished - config.memory.decayRate) /\
  exists this',
    performConsolidation "rem" (8 * 24 * Examples.hour_ms)
      (InMemory.managerOf [Examples.cherished])
    = Ok (1%nat, this') /\
    InMemory.hippocampus (regions this')
    = [consolidateMemory "rem" (8 * 24 * Examples.hour_ms) Examples.cherished].
Proof.
  split; [vm_compute; discriminate |]. split; [reflexivity |].
  split; [vm_compute; reflexivity |]. split; [vm_compute; reflexivity |].
  split; [intro H; vm_compute in H; discriminate H |].
  eexists. split; vm_compute; reflexivity.
Qed.

End ConsolidationFacts.

(** ** The sort and the slice *)

Module SortFacts.

Section Sort.

Variable A : Type.
Variable cmp : A -> A -> Q.
Variable key : A -> Q.

(** The comparator orders by descending key. *)
Hypothesis cmp_key : forall a b, cmp a b == key b - key a.



Lemma insert_Permutation (x : A) (l : list A) :
  Permutation (x :: l) (Js.insert cmp x l).
Proof.
  induction l as [| z l IH]; cbn.
  - apply Permutation_refl.
  - destruct (Qle_bool (cmp x z) 0).
    + apply Permutation_refl.
    + eapply perm_trans; [apply perm_swap |]. apply perm_skip. exact IH.
Qed.

Lemma sort_Permutation (l : list A) : Permutation l (Js.sort cmp l).
Proof.
  induction l as [| x l IH]; cbn.
  - apply perm_nil.
  - eapply perm_trans; [apply perm_skip; exact IH |]. apply insert_Permutation.
Qed.

Lemma sort_In (x : A) (l : list A) : In x (Js.sort cmp l) <-> In x l.
Proof.
  split; apply Permutation_in; [apply Permutation_sym |]; apply sort_Permutation.
Qed.





End Sort.

Section Slice.

Variable A : Type.

(** The slice is a front part of the array. *)
Lemma slice0_front (e : Z) (l : list A) :
  exists rest, l = Js.slice0 e l ++ rest.
Proof.
  unfold Js.slice0. eexists. symmetry. apply firstn_skipn.
Qed.

Lemma slice0_length (e : Z) (l : list A) :
  (0 <= e)%Z -> (Z.of_nat (List.length (Js.slice0 e l)) <= e)%Z.
Proof.
  intro He. unfold Js.slice0.
  assert (Hneg : (e <? 0)%Z = false) by (apply Z.ltb_ge; exact He).
  rewrite Hneg. rewrite length_firstn. lia.
Qed.

Lemma slice0_In (e : Z) (l : list A) (x : A) : In x (Js.slice0 e l) -> In x l.
Proof.
  destruct (slice0_front e l) as [rest H]. intro Hx.
  rewrite H. apply in_or_app. left. exact Hx.
Qed.

Lemma front_sorted (R : A -> A -> Prop) (l1 l2 : list A) :
  StronglySorted R (l1 ++ l2) -> StronglySorted R l1.
Proof.
  induction l1 as [| x l1 IH]; cbn; intro H.
  - constructor.
  - inversion H as [| ? ? Hs Hf]; subst. constructor.
    + apply IH. exact Hs.
    + apply Forall_app in Hf. apply Hf.
Qed.

End Slice.

End SortFacts.

(** ** searchMemories *)

Module SearchFacts.

Import BiomimeticMemoryManager.


Section Search.

Context {S : Type} {R : Regions S}.

Lemma searchMemories_initialized (query : string) (options : Options.t) (this : Manager S) :
  isInitialized this = true ->
  searchMemories query options this
  = Ok (Js.slice0 (SearchOptions.maxResults (searchOptions options))
          (Js.sort (compareMemories (SearchOptions.sortBy (searchOptions options)))
             (Spec.candidates query options this))).
Proof.
  intro Hinit. unfold searchMemories. rewrite Hinit. reflexivity.
Qed.

(** Every record of the result is one that a region returned. *)
Lemma searchMemories_In (query : string) (options : Options.t) (this : Manager S)
    (out : list Memory.t) (m : Memory.t) :
  searchMemories query options this = Ok out ->
  In m out ->
  In m (Js.flat_filter_Boolean (searchByContent query (searchOptions options) (regions this))).
Proof.
  unfold searchMemories. destruct (negb (isInitialized this)); [discriminate |].
  intros Hout Hm. injection Hout as <-.
  apply SortFacts.slice0_In in Hm.
  apply SortFacts.sort_In in Hm.
  unfold _deduplicateMemories in Hm. apply filter_In in Hm. apply Hm.
Qed.

End Search.




(** C5 fails on the code: [_deduplicateMemories] returns its argument, so a
    record that all six regions return is six times in the result. *)
Theorem searchMemories_keeps_duplicates :
  (forall memories, _deduplicateMemories memories = memories) /\
  exists out,
    searchMemories "half" Examples.defaults (InMemory.managerOf [Examples.half]) = Ok out /\
    map Memory.id out = ["m1"; "m1"; "m1"; "m1"; "m1"; "m1"]%string /\
    ~ NoDup (map Memory.id out).
Proof.
  split; [reflexivity |].
  eexists. split; [vm_compute; reflexivity |]. split; [reflexivity |].
  intro H. inversion H as [| x l Hnotin _]; subst. apply Hnotin. left. reflexivity.
Qed.

End SearchFacts.

(** ** The bounds of the weight *)

Module InvariantFacts.

Import BiomimeticMemoryManager.

Lemma min_one_inRange (w c : Q) :
  Spec.inRange w -> 0 <= c -> Spec.inRange (Js.min 1.0 (w + c)).
Proof.
  intros [Hlo Hhi] Hc. unfold Spec.inRange.
  assert (H1 : 1.0 == 1) by reflexivity.
  destruct (JsFacts.min_cases 1.0 (w + c)) as [[Hle ->] | [Hlt ->]].
  - split; lra.
  - split; lra.
Qed.

Lemma max_zero_inRange (w c : Q) :
  Spec.inRange w -> 0 <= c -> Spec.inRange (Js.max 0.0 (w - c)).
Proof.
  intros [Hlo Hhi] Hc. unfold Spec.inRange.
  assert (H0 : 0.0 == 0) by reflexivity.
  destruct (JsFacts.max_cases 0.0 (w - c)) as [[Hle ->] | [Hlt ->]].
  - split; lra.
  - split; lra.
Qed.

Lemma reinforce_inRange (now : Z) (memory : Memory.t) :
  Spec.inRange (Memory.weight memory) ->
  Spec.inRange (Memory.weight (reinforce now memory)).
Proof.
  intro H. cbn [reinforce Memory.weight]. apply min_one_inRange; [exact H | discriminate].
Qed.

Lemma strengthen_inRange (type : string) (now : Z) (memory : Memory.t) :
  Spec.inRange (Memory.weight memory) ->
  Spec.inRange (Memory.weight (strengthen type now memory)).
Proof.
  intro H. unfold strengthen.
  destruct (String.eqb type "sws"); [| destruct (String.eqb type "rem")];
    repeat match goal with |- context [if ?b then _ else _] => destruct b end;
    try exact H;
    cbn [set_weight Memory.weight]; apply min_one_inRange; try exact H; discriminate.
Qed.

Lemma decay_inRange (now : Z) (memory : Memory.t) :
  Spec.inRange (Memory.weight memory) ->
  Spec.inRange (Memory.weight (decay now memory)).
Proof.
  intro H. unfold decay.
  destruct (negb (_isRecent now memory (7 * 24 * 60 * 60 * 1000))); [| exact H].
  cbn [set_weight Memory.weight]. apply max_zero_inRange; [exact H | discriminate].
Qed.

Lemma consolidateMemory_inRange (type : string) (now : Z) (memory : Memory.t) :
  Spec.inRange (Memory.weight memory) ->
  Spec.inRange (Memory.weight (consolidateMemory type now memory)).
Proof.
  intro H. unfold consolidateMemory. apply decay_inRange, strengthen_inRange, H.
Qed.

Lemma newMemory_inRange (now : Z) (random : string) (d : MemoryData.t) :
  match MemoryData.initialWeight d with Some w => Spec.inRange w | None => True end ->
  Spec.inRange (Memory.weight (newMemory now random d)).
Proof.
  cbn [newMemory Memory.weight]. unfold Js.or_num.
  destruct (MemoryData.initialWeight d) as [w |].
  - intro H. destruct (Qeq_bool w 0); [split; discriminate | exact H].
  - intros _. split; discriminate.
Qed.

(** C2 (as the code has it). The weight stays within [0, 1] when it starts
    there: a store whose [initialWeight] is absent or within the bounds
    creates a record within them; a retrieve of a record within the bounds
    returns and writes one within them; a search returns the records of the
    regions as they are; and a consolidation pass of any kind takes a record
    within the bounds to one within them. *)
Theorem weight_stays_in_range {S : Type} {R : Regions S} (now : Z) (random : string)
    (d : MemoryData.t) (memoryId query type : string) (options : Options.t)
    (this : Manager S) :
  isInitialized this = true ->
  match MemoryData.initialWeight d with Some w => Spec.inRange w | None => True end ->
  (exists memory this',
     storeMemory now random d this = Ok (Memory.id memory, this') /\
     regions this' = _distributeMemory memory (regions this) /\
     Spec.inRange (Memory.weight memory)) /\
  (forall found,
     Js.find_not_null (searchById memoryId (regions this)) = Some found ->
     Spec.inRange (Memory.weight found) ->
     exists memory this',
       retrieveMemory memoryId now this = Ok (Some memory, this') /\
       regions this' = _updateMemoryAcrossRegions memory (regions this) /\
       Spec.inRange (Memory.weight memory)) /\
  (exists out,
     searchMemories query options this = Ok out /\
     forall m, In m out ->
       In m (Js.flat_filter_Boolean
               (searchByContent query (searchOptions options) (regions this)))) /\
  (forall memory,
     Spec.inRange (Memory.weight memory) ->
     Spec.inRange (Memory.weight (consolidateMemory type now memory))).
Proof.
  intros Hinit Hw. split; [| split; [| split]].
  - destruct (StoreFacts.storeMemory_initialized now random d this Hinit)
      as (this' & Hs & _ & Hr & _).
    exists (newMemory now random d), this'.
    split; [exact Hs |]. split; [exact Hr |]. apply newMemory_inRange. exact Hw.
  - intros found Hfound Hrange.
    eexists. eexists.
    split; [exact (RetrieveFacts.retrieveMemory_found memoryId now this found Hinit Hfound) |].
    split; [reflexivity |]. apply reinforce_inRange. exact Hrange.
  - eexists. split; [apply SearchFacts.searchMemories_initialized; exact Hinit |].
    intros m Hm.
    apply (SearchFacts.searchMemories_In query options this _ m
             (SearchFacts.searchMemories_initialized query options this Hinit) Hm).
  - intros memory. apply consolidateMemory_inRange.
Qed.

(** The theorem over stores that hold one record of weight one half: the
    store of the scenario, the retrieve of the record and a fast pass. *)
Lemma weight_stays_in_range_witness :
  (exists memory this',
     storeMemory 0 "abc" Examples.hello (InMemory.managerOf [Examples.half])
     = Ok (Memory.id memory, this') /\
     Spec.inRange (Memory.weight memory)) /\
  (exists memory this',
     retrieveMemory "m1" 0 (InMemory.managerOf [Examples.half]) = Ok (Some memory, this') /\
     Spec.inRange (Memory.weight memory)) /\
  Spec.inRange (Memory.weight (consolidateMemory "sws" 0 Examples.half)).
Proof.
  assert (Hw : match MemoryData.initialWeight Examples.hello with
               | Some w => Spec.inRange w
               | None => True
               end) by (split; discriminate).
  assert (Hhalf : Spec.inRange (Memory.weight Examples.half)) by (split; discriminate).
  destruct (weight_stays_in_range 0 "abc" Examples.hello "m1" "half" "sws" Examples.defaults
              (InMemory.managerOf [Examples.half]) eq_refl Hw)
    as (Hstore & Hretrieve & _ & Hpass).
  split; [| split].
  - destruct Hstore as (memory & this' & Hs & _ & Hr). exists memory, this'. split; assumption.
  - destruct (Hretrieve Examples.half) as (memory & this' & Hs & _ & Hr);
      [vm_compute; reflexivity | exact Hhalf |].
    exists memory, this'. split; assumption.
  - apply Hpass. exact Hhalf.
Defined.

(** C2 fails as stated: a store whose caller passes the weight 5 creates a
    record of weight 5. *)
Lemma weight_stays_in_range_counterexample :
  exists memoryId this' memory,
    storeMemory 0 "abc" Examples.heavy InMemory.manager = Ok (memoryId, this') /\
    InMemory.hippocampus (regions this') = [memory] /\
    Memory.weight memory == 5 /\
    ~ Spec.inRange (Memory.weight memory).
Proof.
  eexists. eexists. eexists. split; [reflexivity |]. split; [reflexivity |].
  split; [reflexivity |]. cbn. intros [_ H]. apply H. reflexivity.
Qed.

End InvariantFacts.

(** ** The weight policy: delays, recency and importance *)

Module PolicyFacts.

Import BiomimeticMemoryManager.

Lemma Qle_bool_false (a b : Q) : Qle_bool a b = false -> b < a.
Proof.
  intro E. apply Qnot_le_lt. intro H. apply Qle_bool_iff in H. congruence.
Qed.

(** Every test [a <= b] of the goal, decided both ways. *)
Ltac qle_cases :=
  repeat match goal with
  | |- context [Qle_bool ?a ?b] =>
      let E := fresh "E" in
      destruct (Qle_bool a b) eqn:E;
      [apply Qle_bool_iff in E | apply Qle_bool_false in E]
  end.

Ltac thresholds :=
  unfold config.memory.consciousThreshold, config.memory.easyRecallThreshold,
    config.memory.effortThreshold, config.memory.subconscciousThreshold,
    config.memory.decayRate, config.memory.consolidationStrength in *.

Lemma accessDelay_le (w1 w2 : Q) :
  w1 <= w2 -> (_calculateAccessDelay w2 <= _calculateAccessDelay w1)%Z.
Proof.
  intro Hle. unfold _calculateAccessDelay. thresholds.
  qle_cases; try lia; exfalso; lra.
Qed.

(** X1. The access delay never grows with the weight; it is zero exactly
    from 0.8 up and three seconds exactly below 0.1. *)
Theorem accessDelay_monotone (w1 w2 : Q) :
  w1 <= w2 ->
  (_calculateAccessDelay w2 <= _calculateAccessDelay w1)%Z /\
  (_calculateAccessDelay w1 = 0%Z <-> 0.8 <= w1) /\
  (_calculateAccessDelay w1 = 3000%Z <-> w1 < 0.1).
Proof.
  intro Hle. split; [apply accessDelay_le; exact Hle |].
  unfold _calculateAccessDelay. thresholds.
  split.
  - qle_cases; split; intro H; try reflexivity; try discriminate; try lra.
  - qle_cases; split; intro H; try reflexivity; try discriminate; try lra.
Qed.

Lemma accessDelay_monotone_witness :
  (_calculateAccessDelay 0.85 <= _calculateAccessDelay 0.05)%Z /\
  _calculateAccessDelay 0.05 = 3000%Z.
Proof.
  assert (H : 0.05 <= 0.85) by (vm_compute; discriminate).
  destruct (accessDelay_monotone 0.05 0.85 H) as (Hm & _ & H3).
  split; [exact Hm |]. apply H3. vm_compute. reflexivity.
Defined.

(** X2. A retrieve never leaves a record slower to reach than it found it. *)
Theorem reinforce_not_slower (now : Z) (memory : Memory.t) :
  (_calculateAccessDelay (Memory.weight (reinforce now memory))
   <= _calculateAccessDelay (Memory.weight memory))%Z.
Proof.
  cbn [reinforce Memory.weight].
  assert (H1 : 1.0 == 1) by reflexivity.
  destruct (JsFacts.min_cases 1.0 (Memory.weight memory + 0.01)) as [[Hle ->] | [Hlt ->]].
  - unfold _calculateAccessDelay at 1. thresholds. cbn.
    unfold _calculateAccessDelay. qle_cases; lia.
  - apply accessDelay_le. lra.
Qed.

Lemma inject_Z_nonneg (z : Z) : (0 <= z)%Z -> 0 <= inject_Z z.
Proof.
  intro H. change 0 with (inject_Z 0). rewrite <- Zle_Qle. exact H.
Qed.

(** The age in days that the recency score reads off a date. *)
Lemma age_difference (now t : Z) : inject_Z now - inject_Z t == inject_Z (now - t).
Proof.
  unfold Z.sub. rewrite inject_Z_plus, inject_Z_opp. reflexivity.
Qed.

Lemma age_nonneg (now t : Z) :
  (t <= now)%Z -> 0 <= Js.fdiv (Js.fsub (inject_Z now) (inject_Z t)) (inject_Z day_ms).
Proof.
  intro H. unfold Js.fdiv. apply DoubleFacts.double_nonneg.
  apply Qle_shift_div_l; [reflexivity |]. rewrite Qmult_0_l.
  unfold Js.fsub. apply DoubleFacts.double_nonneg.
  rewrite age_difference. apply inject_Z_nonneg. lia.
Qed.

Lemma age_zero (now : Z) :
  Js.fdiv (Js.fsub (inject_Z now) (inject_Z now)) (inject_Z day_ms) == 0.
Proof.
  assert (H : inject_Z now - inject_Z now == 0) by ring.
  unfold Js.fsub. rewrite H, DoubleFacts.double_0. vm_compute. reflexivity.
Qed.

Lemma age_thirty (now t : Z) :
  (30 * day_ms <= now - t)%Z ->
  30 <= Js.fdiv (Js.fsub (inject_Z now) (inject_Z t)) (inject_Z day_ms).
Proof.
  intro H.
  apply Qle_trans with (Js.fdiv (Js.fsub (inject_Z (30 * day_ms)) 0) (inject_Z day_ms)).
  - vm_compute. discriminate.
  - apply DoubleFacts.fdiv_le; [reflexivity |].
    unfold Js.fsub. apply DoubleFacts.double_mono.
    rewrite age_difference. unfold Qminus. rewrite Qplus_0_r.
    rewrite <- Zle_Qle. exact H.
Qed.

Lemma recencyScore_facts (now : Z) (memory : Memory.t) :
  0 <= _calculateRecencyScore now memory /\
  ((Memory.created memory <= now)%Z -> (Memory.lastAccessed memory <= now)%Z ->
   _calculateRecencyScore now memory <= 1) /\
  ((Memory.created memory <= now)%Z -> Memory.lastAccessed memory = now ->
   _calculateRecencyScore now memory == 1) /\
  ((30 * day_ms <= now - Memory.created memory)%Z ->
   (30 * day_ms <= now - Memory.lastAccessed memory)%Z ->
   _calculateRecencyScore now memory == 0).
Proof.
  unfold _calculateRecencyScore. cbv zeta.
  set (c := Js.fdiv (Js.fsub (inject_Z now) (inject_Z (Memory.created memory)))
              (inject_Z day_ms)).
  set (a := Js.fdiv (Js.fsub (inject_Z now) (inject_Z (Memory.lastAccessed memory)))
              (inject_Z day_ms)).
  assert (H10 : Js.fsub 1 (Js.fdiv 0 30) == 1) by (vm_compute; reflexivity).
  assert (H11 : Js.fsub 1 (Js.fdiv 30 30) == 0) by (vm_compute; reflexivity).
  split; [| split; [| split]].
  - match goal with |- 0 <= Js.max 0 ?x =>
      destruct (JsFacts.max_cases 0 x) as [[H ->] | [H ->]] end; lra.
  - intros Hc Ha.
    assert (Hm : 0 <= Js.min c a).
    { destruct (JsFacts.min_cases c a) as [[_ ->] | [_ ->]];
        [apply age_nonneg, Hc | apply age_nonneg, Ha]. }
    assert (Hx : Js.fsub 1 (Js.fdiv (Js.min c a) 30) <= 1).
    { rewrite <- H10. apply DoubleFacts.fsub_le; [lra |].
      apply DoubleFacts.fdiv_le; [reflexivity | exact Hm]. }
    match goal with |- Js.max 0 ?x <= 1 =>
      destruct (JsFacts.max_cases 0 x) as [[H ->] | [H ->]] end; lra.
  - intros Hc Ha.
    assert (Hc0 : 0 <= c) by (apply age_nonneg, Hc).
    assert (Ha0 : a == 0) by (unfold a; rewrite Ha; apply age_zero).
    assert (Hm : Js.min c a == 0).
    { destruct (JsFacts.min_cases c a) as [[Hle ->] | [_ ->]]; lra. }
    rewrite Hm, H10. reflexivity.
  - intros Hc Ha.
    assert (Hm : 30 <= Js.min c a).
    { destruct (JsFacts.min_cases c a) as [[_ ->] | [_ ->]];
        [apply age_thirty, Hc | apply age_thirty, Ha]. }
    assert (Hx : Js.fsub 1 (Js.fdiv (Js.min c a) 30) <= 0).
    { rewrite <- H11. apply DoubleFacts.fsub_le; [lra |].
      apply DoubleFacts.fdiv_le; [reflexivity | exact Hm]. }
    match goal with |- Js.max 0 ?x == 0 =>
      destruct (JsFacts.max_cases 0 x) as [[H ->] | [H ->]] end; lra.
Qed.

(** X3. The recency score is never negative; it is at most one when
    neither date lies in the future, one for a record accessed at this
    instant, and zero once creation and last access are both thirty days
    old. *)
Theorem recencyScore_bounds (now : Z) (memory : Memory.t) :
  0 <= _calculateRecencyScore now memory /\
  ((Memory.created memory <= now)%Z -> (Memory.lastAccessed memory <= now)%Z ->
   _calculateRecencyScore now memory <= 1) /\
  ((Memory.created memory <= now)%Z -> Memory.lastAccessed memory = now ->
   _calculateRecencyScore now memory == 1) /\
  ((30 * day_ms <= now - Memory.created memory)%Z ->
   (30 * day_ms <= now - Memory.lastAccessed memory)%Z ->
   _calculateRecencyScore now memory == 0).
Proof.
  exact (recencyScore_facts now memory).
Qed.

Lemma recencyScore_bounds_witness :
  _calculateRecencyScore (24 * Examples.hour_ms) Examples.important <= 1 /\
  _calculateRecencyScore (30 * day_ms) Examples.stale == 0.
Proof.
  destruct (recencyScore_bounds (24 * Examples.hour_ms) Examples.important)
    as (_ & Hle & _ & _).
  destruct (recencyScore_bounds (30 * day_ms) Examples.stale) as (_ & _ & _ & Hz).
  split.
  - apply Hle; vm_compute; discriminate.
  - apply Hz; vm_compute; discriminate.
Defined.

End PolicyFacts.

(** ** Importance and the two passes *)

Module PassFacts.

Import BiomimeticMemoryManager.
Import PolicyFacts.

Lemma or_num_self (x : Q) : Js.or_num (Some x) 0 == x.
Proof.
  unfold Js.or_num. destruct (Qeq_bool x 0) eqn:E; [| reflexivity].
  apply Qeq_bool_iff in E. symmetry. exact E.
Qed.

Lemma fmul_le_l (a c k : Q) : 0 <= k -> a <= c -> Js.fmul a k <= Js.fmul c k.
Proof.
  intros Hk Hac. apply DoubleFacts.double_mono. apply Qmult_le_compat_r; assumption.
Qed.

Lemma factors_nonneg :
  0 <= Js.double importanceFactors.recency /\
  0 <= Js.double importanceFactors.frequency /\
  0 <= Js.double importanceFactors.emotional /\
  0 <= Js.double importanceFactors.semantic.
Proof.
  repeat split; vm_compute; discriminate.
Qed.

(** The importance grows with each of its four scores. *)
Lemma importance_le (now : Z) (memory : Memory.t) (r f e s : Q) :
  _calculateRecencyScore now memory <= r ->
  Js.fdiv (Js.double (inject_Z (Memory.accessCount memory))) 100 <= f ->
  Js.double (Memory.emotionalWeight memory) <= e ->
  Js.double (Memory.semanticWeight memory) <= s ->
  _calculateImportance now memory
  <= Js.fadd
       (Js.fadd
          (Js.fadd (Js.fmul r (Js.double importanceFactors.recency))
                   (Js.fmul f (Js.double importanceFactors.frequency)))
          (Js.fmul e (Js.double importanceFactors.emotional)))
       (Js.fmul s (Js.double importanceFactors.semantic)).
Proof.
  intros Hr Hf He Hs. destruct factors_nonneg as (F1 & F2 & F3 & F4).
  unfold _calculateImportance. cbv zeta. rewrite !or_num_self.
  repeat apply DoubleFacts.fadd_le; apply fmul_le_l; assumption.
Qed.

Lemma importance_ge (now : Z) (memory : Memory.t) (r f e s : Q) :
  r <= _calculateRecencyScore now memory ->
  f <= Js.fdiv (Js.double (inject_Z (Memory.accessCount memory))) 100 ->
  e <= Js.double (Memory.emotionalWeight memory) ->
  s <= Js.double (Memory.semanticWeight memory) ->
  Js.fadd
    (Js.fadd
       (Js.fadd (Js.fmul r (Js.double importanceFactors.recency))
                (Js.fmul f (Js.double importanceFactors.frequency)))
       (Js.fmul e (Js.double importanceFactors.emotional)))
    (Js.fmul s (Js.double importanceFactors.semantic))
  <= _calculateImportance now memory.
Proof.
  intros Hr Hf He Hs. destruct factors_nonneg as (F1 & F2 & F3 & F4).
  unfold _calculateImportance. cbv zeta. rewrite !or_num_self.
  repeat apply DoubleFacts.fadd_le; apply fmul_le_l; assumption.
Qed.

(** The frequency score, by the number of accesses. *)
Lemma frequency_le (count bound : Z) :
  (count <= bound)%Z ->
  Js.fdiv (Js.double (inject_Z count)) 100 <= Js.fdiv (Js.double (inject_Z bound)) 100.
Proof.
  intro H. apply DoubleFacts.fdiv_le; [reflexivity |].
  apply DoubleFacts.double_mono. rewrite <- Zle_Qle. exact H.
Qed.

(** X4. With no date in the future, no negative count and both weights within
    their bounds, the importance is not negative; it is at most one up to
    a hundred accesses and exceeds one beyond four hundred. *)
Theorem importance_bounds (now : Z) (memory : Memory.t) :
  (Memory.created memory <= now)%Z ->
  (Memory.lastAccessed memory <= now)%Z ->
  (0 <= Memory.accessCount memory)%Z ->
  Spec.inRange (Memory.emotionalWeight memory) ->
  Spec.inRange (Memory.semanticWeight memory) ->
  0 <= _calculateImportance now memory /\
  ((Memory.accessCount memory <= 100)%Z -> _calculateImportance now memory <= 1) /\
  ((400 < Memory.accessCount memory)%Z -> 1 < _calculateImportance now memory).
Proof.
  intros Hc Ha Hn [He0 He1] [Hs0 Hs1].
  destruct (recencyScore_facts now memory) as (Hr0 & Hr1 & _).
  specialize (Hr1 Hc Ha).
  assert (D1 : Js.double 1 == 1) by (vm_compute; reflexivity).
  assert (He0' : 0 <= Js.double (Memory.emotionalWeight memory))
    by (apply DoubleFacts.double_nonneg; exact He0).
  assert (Hs0' : 0 <= Js.double (Memory.semanticWeight memory))
    by (apply DoubleFacts.double_nonneg; exact Hs0).
  assert (He1' : Js.double (Memory.emotionalWeight memory) <= 1)
    by (rewrite <- D1; apply DoubleFacts.double_mono; exact He1).
  assert (Hs1' : Js.double (Memory.semanticWeight memory) <= 1)
    by (rewrite <- D1; apply DoubleFacts.double_mono; exact Hs1).
  split; [| split].
  - eapply Qle_trans;
      [| apply (importance_ge now memory 0 (Js.fdiv (Js.double (inject_Z 0)) 100) 0 0);
         [exact Hr0 | apply frequency_le; exact Hn | exact He0' | exact Hs0']].
    vm_compute. discriminate.
  - intro H100.
    eapply Qle_trans;
      [apply (importance_le now memory 1 (Js.fdiv (Js.double (inject_Z 100)) 100) 1 1);
         [exact Hr1 | apply frequency_le; exact H100 | exact He1' | exact Hs1'] |].
    vm_compute. discriminate.
  - intro H400.
    eapply Qlt_le_trans;
      [| apply (importance_ge now memory 0 (Js.fdiv (Js.double (inject_Z 401)) 100) 0 0);
         [exact Hr0 | apply frequency_le; lia | exact He0' | exact Hs0']].
    vm_compute. reflexivity.
Qed.

Lemma importance_bounds_witness :
  0 <= _calculateImportance (24 * Examples.hour_ms) Examples.important /\
  _calculateImportance (24 * Examples.hour_ms) Examples.important <= 1.
Proof.
  assert (He : Spec.inRange (Memory.emotionalWeight Examples.important))
    by (split; vm_compute; discriminate).
  assert (Hs : Spec.inRange (Memory.semanticWeight Examples.important))
    by (split; vm_compute; discriminate).
  assert (Hc : (Memory.created Examples.important <= 24 * Examples.hour_ms)%Z)
    by (vm_compute; discriminate).
  assert (Ha : (Memory.lastAccessed Examples.important <= 24 * Examples.hour_ms)%Z)
    by (vm_compute; discriminate).
  assert (Hn : (0 <= Memory.accessCount Examples.important)%Z)
    by (vm_compute; discriminate).
  destruct (importance_bounds (24 * Examples.hour_ms) Examples.important Hc Ha Hn He Hs)
    as (H0 & H1 & _).
  split; [exact H0 |]. apply H1. vm_compute. discriminate.
Defined.

(** X5. A record that keeps the default emotional and semantic weights (0.5)
    and has at most seventy accesses never exceeds the importance 0.7, so a
    fast pass does not strengthen it, however recent it is. *)
Theorem default_record_not_strengthened (now : Z) (memory : Memory.t) :
  (Memory.created memory <= now)%Z ->
  (Memory.lastAccessed memory <= now)%Z ->
  (Memory.accessCount memory <= 70)%Z ->
  Memory.emotionalWeight memory == 0.5 ->
  Memory.semanticWeight memory == 0.5 ->
  _calculateImportance now memory <= 0.7 /\
  strengthen "sws" now memory = memory /\
  consolidateMemory "sws" now memory = decay now memory.
Proof.
  intros Hc Ha Hn He Hs.
  destruct (recencyScore_facts now memory) as (_ & Hr1 & _).
  specialize (Hr1 Hc Ha).
  assert (Himp : _calculateImportance now memory <= 0.7).
  { eapply Qle_trans;
      [apply (importance_le now memory 1 (Js.fdiv (Js.double (inject_Z 70)) 100)
                (Js.double 0.5) (Js.double 0.5));
         [exact Hr1 | apply frequency_le; exact Hn
          | rewrite He; apply Qle_refl | rewrite Hs; apply Qle_refl] |].
    vm_compute. discriminate. }
  assert (Hsame : strengthen "sws" now memory = memory).
  { rewrite ConsolidationFacts.strengthen_sws.
    rewrite (ConsolidationFacts.not_above _ _ (ConsolidationFacts.above_07 now memory))
      by lra.
    reflexivity. }
  split; [exact Himp |]. split; [exact Hsame |].
  unfold consolidateMemory. rewrite Hsame. reflexivity.
Qed.

Lemma default_record_not_strengthened_witness :
  strengthen "sws" 0 Examples.half = Examples.half.
Proof.
  assert (Hc : (Memory.created Examples.half <= 0)%Z) by (vm_compute; discriminate).
  assert (Ha : (Memory.lastAccessed Examples.half <= 0)%Z) by (vm_compute; discriminate).
  assert (Hn : (Memory.accessCount Examples.half <= 70)%Z) by (vm_compute; discriminate).
  destruct (default_record_not_strengthened 0 Examples.half Hc Ha Hn
              (Qeq_refl _) (Qeq_refl _)) as (_ & H & _).
  exact H.
Defined.

(** X6. In a slow pass a record whose importance exceeds 0.5 gains half the
    consolidation strength (0.05), capped at one, whether or not it was
    accessed lately; a record at or below 0.5 is not strengthened. When the
    last access is seven days old the decay then takes 0.001 from the
    strengthened weight. *)
Theorem slow_pass_strengthens (now : Z) (memory : Memory.t) :
  (0.5 < _calculateImportance now memory ->
   Memory.weight (strengthen "rem" now memory) == Qmin 1 (Memory.weight memory + 0.05) /\
   ((now - Memory.lastAccessed memory < 7 * 24 * 60 * 60 * 1000)%Z ->
    Memory.weight (consolidateMemory "rem" now memory)
    == Qmin 1 (Memory.weight memory + 0.05)) /\
   ((7 * 24 * 60 * 60 * 1000 <= now - Memory.lastAccessed memory)%Z ->
    Memory.weight (consolidateMemory "rem" now memory)
    == Qmax 0 (Qmin 1 (Memory.weight memory + 0.05) - 0.001))) /\
  (_calculateImportance now memory <= 0.5 -> strengthen "rem" now memory = memory).
Proof.
  destruct (ConsolidationFacts.strengthen_rem_weight now memory) as [Habove Hbelow].
  split; [| exact Hbelow].
  intro Himp. pose proof (Habove Himp) as Hw.
  split; [exact Hw |]. split.
  - intro Hrec. unfold consolidateMemory.
    rewrite ConsolidationFacts.decay_recent; [exact Hw |].
    rewrite ConsolidationFacts.strengthen_lastAccessed. exact Hrec.
  - intro Hold. unfold consolidateMemory.
    rewrite ConsolidationFacts.decay_old
      by (rewrite ConsolidationFacts.strengthen_lastAccessed; exact Hold).
    cbn [set_weight Memory.weight]. rewrite JsFacts.max_Qmax.
    apply Q.max_compat; [reflexivity |]. rewrite Hw. thresholds. reflexivity.
Qed.

Lemma slow_pass_strengthens_witness :
  Memory.weight (consolidateMemory "rem" (24 * Examples.hour_ms) Examples.important)
  == 0.65.
Proof.
  destruct (slow_pass_strengthens (24 * Examples.hour_ms) Examples.important) as [H _].
  destruct H as (_ & Hrec & _); [vm_compute; reflexivity |].
  rewrite Hrec; [vm_compute; reflexivity | vm_compute; reflexivity].
Defined.

(** X30. The importance is the sum the binary64 operations give, and a
    threshold that the exact sum only reaches can be crossed in the last
    bit. A record created at this instant with emotional weight one and
    semantic weight 0.75 has the exact sum 0.3 + 0.25 + 0.15, that is 0.7;
    the code computes the next binary64 number above the value of the
    literal 0.7, and a fast pass raises the weight from 0.5 to 0.6 and
    counts the record. In the same way a slow pass strengthens a record
    whose exact sum is 0.5. *)
Theorem importance_last_bit :
  _calculateImportance 0 Examples.vivid == 6305039478318695 # 9007199254740992 /\
  Js.double 0.7 == 6305039478318694 # 9007199254740992 /\
  0.7 < _calculateImportance 0 Examples.vivid /\
  Memory.weight (consolidateMemory "sws" 0 Examples.vivid) == 0.6 /\
  (exists this',
     performConsolidation "sws" 0 (InMemory.managerOf [Examples.vivid]) = Ok (1%nat, this') /\
     InMemory.hippocampus (regions this') = [consolidateMemory "sws" 0 Examples.vivid]) /\
  0.5 < _calculateImportance (54 * Examples.hour_ms) Examples.faint /\
  Memory.weight (consolidateMemory "rem" (54 * Examples.hour_ms) Examples.faint) == 0.55.
Proof.
  split; [vm_compute; reflexivity |]. split; [vm_compute; reflexivity |].
  split; [vm_compute; reflexivity |]. split; [vm_compute; reflexivity |].
  split; [eexists; split; vm_compute; reflexivity |].
  split; vm_compute; reflexivity.
Qed.

End PassFacts.

(** ** What one pass can do to a weight *)

Module PassBoundsFacts.

Import BiomimeticMemoryManager.
Import PolicyFacts.

Lemma decay_weight_bounds (now : Z) (memory : Memory.t) :
  0 <= Memory.weight memory ->
  Memory.weight memory - 0.001 <= Memory.weight (decay now memory) /\
  Memory.weight (decay now memory) <= Memory.weight memory.
Proof.
  intro H0. assert (Hz : 0.0 == 0) by reflexivity. unfold decay.
  destruct (negb (_isRecent now memory (7 * 24 * 60 * 60 * 1000)));
    cbn [set_weight Memory.weight]; thresholds;
    try match goal with |- context [Js.max ?a ?b] =>
          destruct (JsFacts.max_cases a b) as [[Hm ->] | [Hm ->]] end;
    split; lra.
Qed.

(** X7. A pass whose type is neither "sws" nor "rem" (the comparison is exact,
    so "SWS" is such a type) strengthens nothing: it only decays, and no
    weight that is not negative rises. *)
Theorem other_pass_only_decays (type : string) (now : Z) (memory : Memory.t) :
  type <> "sws"%string -> type <> "rem"%string ->
  consolidateMemory type now memory = decay now memory /\
  (0 <= Memory.weight memory ->
   Memory.weight (consolidateMemory type now memory) <= Memory.weight memory).
Proof.
  intros Hsws Hrem. unfold consolidateMemory.
  rewrite (ConsolidationFacts.strengthen_other type now memory Hsws Hrem).
  split; [reflexivity |]. intro H0. apply decay_weight_bounds. exact H0.
Qed.

Lemma other_pass_only_decays_witness :
  consolidateMemory "SWS" (24 * Examples.hour_ms) Examples.important = Examples.important.
Proof.
  destruct (other_pass_only_decays "SWS" (24 * Examples.hour_ms) Examples.important)
    as [H _]; [discriminate | discriminate |].
  rewrite H. reflexivity.
Defined.

(** X9. A fast pass leaves untouched every record whose last access is between
    twenty-four hours and seven days old, whatever its importance. *)
Theorem fast_pass_quiet_window (now : Z) (memory : Memory.t) :
  (24 * 60 * 60 * 1000 <= now - Memory.lastAccessed memory)%Z ->
  (now - Memory.lastAccessed memory < 7 * 24 * 60 * 60 * 1000)%Z ->
  consolidateMemory "sws" now memory = memory /\
  weightChanged "sws" now memory = false.
Proof.
  intros Hday Hweek.
  assert (Hs : strengthen "sws" now memory = memory).
  { rewrite ConsolidationFacts.strengthen_sws.
    apply ConsolidationFacts.isRecent_false in Hday. rewrite Hday, andb_false_r.
    reflexivity. }
  assert (Hc : consolidateMemory "sws" now memory = memory).
  { unfold consolidateMemory. rewrite Hs. apply ConsolidationFacts.decay_recent. exact Hweek. }
  split; [exact Hc |].
  unfold weightChanged. rewrite Hc.
  assert (E : Qeq_bool (Memory.weight memory) (Memory.weight memory) = true)
    by (apply Qeq_bool_iff; reflexivity).
  rewrite E. reflexivity.
Qed.

Lemma fast_pass_quiet_window_witness :
  consolidateMemory "sws" (46 * Examples.hour_ms) Examples.important = Examples.important.
Proof.
  destruct (fast_pass_quiet_window (46 * Examples.hour_ms) Examples.important) as [H _].
  - vm_compute. discriminate.
  - vm_compute. reflexivity.
  - exact H.
Defined.

Lemma reinforce_weight_bounds (t : Z) (memory : Memory.t) :
  Memory.weight memory <= 1 ->
  Memory.weight memory <= Memory.weight (reinforce t memory) /\
  Memory.weight (reinforce t memory) <= 1.
Proof.
  intro H1. cbn [reinforce Memory.weight].
  assert (Hone : 1.0 == 1) by reflexivity.
  destruct (JsFacts.min_cases 1.0 (Memory.weight memory + 0.01)) as [[Hm ->] | [Hm ->]];
    split; lra.
Qed.

Lemma reinforce_many (times : list Z) (memory : Memory.t) :
  Memory.weight memory <= 1 ->
  Memory.weight memory
  <= Memory.weight (fold_left (fun m t => reinforce t m) times memory) /\
  Memory.weight (fold_left (fun m t => reinforce t m) times memory) <= 1 /\
  Memory.accessCount (fold_left (fun m t => reinforce t m) times memory)
  = (Memory.accessCount memory + Z.of_nat (List.length times))%Z.
Proof.
  revert memory. induction times as [| t times IH]; intros memory H1.
  - cbn [fold_left List.length]. repeat split; [apply Qle_refl | exact H1 | cbn; lia].
  - cbn [fold_left].
    destruct (reinforce_weight_bounds t memory H1) as [Hlo Hhi].
    destruct (IH (reinforce t memory) Hhi) as (Hw0 & Hw1 & Hc).
    split; [lra |]. split; [exact Hw1 |].
    rewrite Hc. cbn [reinforce Memory.accessCount List.length]. lia.
Qed.

(** X10. After [n] retrieves in a row a record has [n] more accesses; a weight
    that started at most at one has not fallen and is still at most one,
    and a weight of one is still one. *)
Theorem repeated_retrieves (times : list Z) (memory : Memory.t) :
  Memory.weight memory <= 1 ->
  Memory.weight memory
  <= Memory.weight (fold_left (fun m t => reinforce t m) times memory) /\
  Memory.weight (fold_left (fun m t => reinforce t m) times memory) <= 1 /\
  Memory.accessCount (fold_left (fun m t => reinforce t m) times memory)
  = (Memory.accessCount memory + Z.of_nat (List.length times))%Z /\
  (Memory.weight memory == 1 ->
   Memory.weight (fold_left (fun m t => reinforce t m) times memory) == 1).
Proof.
  intro H1. destruct (reinforce_many times memory H1) as (Hlo & Hhi & Hc).
  split; [exact Hlo |]. split; [exact Hhi |]. split; [exact Hc |].
  intro Hone. lra.
Qed.

Lemma repeated_retrieves_witness :
  0.5 <= Memory.weight (fold_left (fun m t => reinforce t m) [1; 2; 3]%Z Examples.half) /\
  Memory.accessCount (fold_left (fun m t => reinforce t m) [1; 2; 3]%Z Examples.half) = 3%Z.
Proof.
  assert (H : Memory.weight Examples.half <= 1) by (vm_compute; discriminate).
  destruct (repeated_retrieves [1; 2; 3]%Z Examples.half H) as (Hw & _ & Hc & _).
  split; [exact Hw | exact Hc].
Defined.

End PassBoundsFacts.

(** ** The operations of the manager *)

Module OperationFacts.

Import BiomimeticMemoryManager.

(** X11. Before [initialize] every operation throws the same error, and nothing
    is read or written. *)
Theorem uninitialized_throws {S : Type} {R : Regions S} (now : Z) (random : string)
    (d : MemoryData.t) (memoryId query type : string) (options : Options.t)
    (this : Manager S) :
  isInitialized this = false ->
  storeMemory now random d this = Throw "BiomimeticMemoryManager not initialized" /\
  retrieveMemory memoryId now this = Throw "BiomimeticMemoryManager not initialized" /\
  searchMemories query options this = Throw "BiomimeticMemoryManager not initialized" /\
  performConsolidation type now this = Throw "BiomimeticMemoryManager not initialized" /\
  getMemoryStatistics now this = Throw "BiomimeticMemoryManager not initialized".
Proof.
  intro H.
  unfold storeMemory, retrieveMemory, searchMemories, performConsolidation,
    getMemoryStatistics.
  rewrite H. repeat split.
Qed.

Lemma uninitialized_throws_witness :
  storeMemory 0 "abc" Examples.hello (mkManager false (MemoryStats.mk 0 0 0 None 0) tt)
  = Throw "BiomimeticMemoryManager not initialized".
Proof.
  exact (proj1 (uninitialized_throws 0 "abc" Examples.hello "m1" "q" "sws" Examples.defaults
                  (mkManager false (MemoryStats.mk 0 0 0 None 0) tt) eq_refl)).
Defined.

(** X12. A store adds one to [totalMemories]; it adds one to [consciousMemories]
    exactly when the new weight is at least 0.8, which is always so when
    the caller gives no weight or zero; the consolidation counters are left
    alone. *)
Theorem storeMemory_counters {S : Type} {R : Regions S} (now : Z) (random : string)
    (d : MemoryData.t) (this : Manager S) :
  isInitialized this = true ->
  exists memoryId this',
    storeMemory now random d this = Ok (memoryId, this') /\
    MemoryStats.totalMemories (memoryStats this')
    = (MemoryStats.totalMemories (memoryStats this) + 1)%Z /\
    (0.8 <= Memory.weight (newMemory now random d) ->
     MemoryStats.consciousMemories (memoryStats this')
     = (MemoryStats.consciousMemories (memoryStats this) + 1)%Z) /\
    (Memory.weight (newMemory now random d) < 0.8 ->
     MemoryStats.consciousMemories (memoryStats this')
     = MemoryStats.consciousMemories (memoryStats this)) /\
    (Js.or_num (MemoryData.initialWeight d) 0 == 0 ->
     MemoryStats.consciousMemories (memoryStats this')
     = (MemoryStats.consciousMemories (memoryStats this) + 1)%Z) /\
    MemoryStats.consolidationsPerformed (memoryStats this')
    = MemoryStats.consolidationsPerformed (memoryStats this) /\
    MemoryStats.lastConsolidation (memoryStats this')
    = MemoryStats.lastConsolidation (memoryStats this).
Proof.
  intro Hinit. unfold storeMemory. rewrite Hinit. cbn [negb].
  eexists. eexists. split; [reflexivity |].
  cbn [memoryStats MemoryStats.totalMemories MemoryStats.consciousMemories
       MemoryStats.consolidationsPerformed MemoryStats.lastConsolidation].
  split; [reflexivity |].
  unfold config.memory.consciousThreshold.
  split; [| split; [| split; [| split; reflexivity]]].
  - intro H. apply Qle_bool_iff in H. rewrite H. reflexivity.
  - intro H. destruct (Qle_bool 0.8 (Memory.weight (newMemory now random d))) eqn:E;
      [| reflexivity].
    apply Qle_bool_iff in E. lra.
  - intro H.
    assert (Hw : Memory.weight (newMemory now random d) = 1.0).
    { cbn [newMemory Memory.weight]. unfold Js.or_num in *.
      destruct (MemoryData.initialWeight d) as [w |]; [| reflexivity].
      destruct (Qeq_bool w 0) eqn:E; [reflexivity |].
      apply Qeq_bool_iff in H. congruence. }
    rewrite Hw. reflexivity.
Qed.

Lemma storeMemory_counters_witness :
  exists memoryId this',
    storeMemory 0 "abc" Examples.zeros InMemory.manager = Ok (memoryId, this') /\
    MemoryStats.totalMemories (memoryStats this') = 1%Z /\
    MemoryStats.consciousMemories (memoryStats this') = 1%Z.
Proof.
  destruct (storeMemory_counters 0 "abc" Examples.zeros InMemory.manager eq_refl)
    as (memoryId & this' & Hs & Ht & _ & _ & Hz & _).
  exists memoryId, this'. split; [exact Hs |]. split; [exact Ht |].
  apply Hz. reflexivity.
Defined.

(** X13. The six regions are asked in the order hippocampus, neocortex, basal
    ganglia, thalamus, amygdala, cerebellum, and the first that answers
    decides: the copies of the regions after it are not looked at, and the
    reinforced record is what is written back. The result is absent exactly
    when none of the six answers, and then the manager is as before. *)
Theorem retrieveMemory_first_answer {S : Type} {R : Regions S} (memoryId : string)
    (now : Z) (this : Manager S) :
  isInitialized this = true ->
  let answer m :=
    retrieveMemory memoryId now this
    = Ok (Some (reinforce now m),
          mkManager true (memoryStats this)
            (_updateMemoryAcrossRegions (reinforce now m) (regions this))) in
  (forall m, _searchHippocampus memoryId (regions this) = Some m -> answer m) /\
  (forall m, _searchHippocampus memoryId (regions this) = None ->
     _searchNeocortex memoryId (regions this) = Some m -> answer m) /\
  (forall m, _searchHippocampus memoryId (regions this) = None ->
     _searchNeocortex memoryId (regions this) = None ->
     _searchBasalGanglia memoryId (regions this) = Some m -> answer m) /\
  (forall m, _searchHippocampus memoryId (regions this) = None ->
     _searchNeocortex memoryId (regions this) = None ->
     _searchBasalGanglia memoryId (regions this) = None ->
     _searchThalamus memoryId (regions this) = Some m -> answer m) /\
  (forall m, _searchHippocampus memoryId (regions this) = None ->
     _searchNeocortex memoryId (regions this) = None ->
     _searchBasalGanglia memoryId (regions this) = None ->
     _searchThalamus memoryId (regions this) = None ->
     _searchAmygdala memoryId (regions this) = Some m -> answer m) /\
  (forall m, _searchHippocampus memoryId (regions this) = None ->
     _searchNeocortex memoryId (regions this) = None ->
     _searchBasalGanglia memoryId (regions this) = None ->
     _searchThalamus memoryId (regions this) = None ->
     _searchAmygdala memoryId (regions this) = None ->
     _searchCerebellum memoryId (regions this) = Some m -> answer m) /\
  (retrieveMemory memoryId now this = Ok (None, this) <->
   Forall (fun answer => answer = None) (searchById memoryId (regions this))).
Proof.
  intro Hinit. cbv zeta. unfold retrieveMemory. rewrite Hinit. cbn [negb].
  unfold searchById. cbn [Js.find_not_null].
  repeat match goal with
         | |- (forall m, _) /\ _ =>
             split; [intros; repeat match goal with
                                    | H : _ = None |- _ => rewrite H; clear H
                                    | H : _ = Some _ |- _ => rewrite H; clear H
                                    end; reflexivity |]
         end.
  split.
  - intro H.
    destruct (_searchHippocampus memoryId (regions this)); [discriminate |].
    destruct (_searchNeocortex memoryId (regions this)); [discriminate |].
    destruct (_searchBasalGanglia memoryId (regions this)); [discriminate |].
    destruct (_searchThalamus memoryId (regions this)); [discriminate |].
    destruct (_searchAmygdala memoryId (regions this)); [discriminate |].
    destruct (_searchCerebellum memoryId (regions this)); [discriminate |].
    repeat constructor.
  - intro H.
    repeat match goal with
           | H : Forall _ (_ :: _) |- _ =>
               let E := fresh "E" in
               inversion H as [| ? ? E ?]; subst; clear H; rewrite E
           end.
    reflexivity.
Qed.

Lemma retrieveMemory_first_answer_witness :
  retrieveMemory "m1" 3
    (mkManager true (MemoryStats.mk 0 0 0 None 0)
       (InMemory.mkStores [] [] [Examples.stale] [Examples.half] [Examples.tieA] []))
  = Ok (Some (reinforce 3 Examples.half),
        mkManager true (MemoryStats.mk 0 0 0 None 0)
          (InMemory.mkStores [reinforce 3 Examples.half] [reinforce 3 Examples.half]
             [Examples.stale; reinforce 3 Examples.half] [reinforce 3 Examples.half]
             [Examples.tieA; reinforce 3 Examples.half] [reinforce 3 Examples.half])).
Proof.
  destruct (retrieveMemory_first_answer "m1" 3
              (mkManager true (MemoryStats.mk 0 0 0 None 0)
                 (InMemory.mkStores [] [] [Examples.stale] [Examples.half] [Examples.tieA] []))
              eq_refl)
    as (_ & _ & _ & H & _).
  rewrite (H Examples.half eq_refl eq_refl eq_refl eq_refl). reflexivity.
Defined.

End OperationFacts.

(** ** The threshold and the limit of a search *)

Module SearchOptionFacts.

Import BiomimeticMemoryManager.

Lemma slice0_zero {A : Type} (l : list A) : Js.slice0 0 l = [].
Proof.
  unfold Js.slice0. cbn [Z.ltb Z.compare]. 
  replace (Z.to_nat (Z.min 0 (Z.of_nat (List.length l)))) with 0%nat by lia.
  reflexivity.
Qed.

(** X14. A search returns only records at or above its threshold. The threshold
    and the limit are the values of the caller whenever the caller gives
    them, zero included, and 0.1 and 20 otherwise; so a limit of zero given
    to the manager returns nothing, and a threshold of zero lets every
    record of weight zero or more through. *)
Theorem searchMemories_threshold {S : Type} {R : Regions S} (query : string)
    (options : Options.t) (this : Manager S) :
  isInitialized this = true ->
  exists out,
    searchMemories query options this = Ok out /\
    (forall m, In m out ->
       SearchOptions.minWeight (searchOptions options) <= Memory.weight m) /\
    (forall t, Options.minWeight options = Some t ->
       SearchOptions.minWeight (searchOptions options) = t) /\
    (Options.minWeight options = None ->
       SearchOptions.minWeight (searchOptions options) = 0.1) /\
    (forall n, Options.maxResults options = Some n ->
       SearchOptions.maxResults (searchOptions options) = n) /\
    (Options.maxResults options = None ->
       SearchOptions.maxResults (searchOptions options) = 20%Z) /\
    (Options.maxResults options = Some 0%Z -> out = []).
Proof.
  intro Hinit. eexists.
  split; [apply SearchFacts.searchMemories_initialized; exact Hinit |].
  split; [| split; [| split; [| split; [| split]]]].
  - intros m Hm. apply SortFacts.slice0_In in Hm. apply SortFacts.sort_In in Hm.
    unfold Spec.candidates in Hm. apply filter_In in Hm. destruct Hm as [_ Hm].
    apply Qle_bool_iff in Hm. exact Hm.
  - intros t Ht. unfold searchOptions. cbn. rewrite Ht. reflexivity.
  - intro Hn. unfold searchOptions. cbn. rewrite Hn. reflexivity.
  - intros n Hn. unfold searchOptions. cbn. rewrite Hn. reflexivity.
  - intro Hn. unfold searchOptions. cbn. rewrite Hn. reflexivity.
  - intro Hn.
    assert (Hz : SearchOptions.maxResults (searchOptions options) = 0%Z)
      by (unfold searchOptions; cbn; rewrite Hn; reflexivity).
    rewrite Hz. apply slice0_zero.
Qed.

Lemma searchMemories_threshold_witness :
  searchMemories "tie" (Options.mk (Some 0%Z) None None None) Examples.ties = Ok [].
Proof.
  destruct (searchMemories_threshold "tie" (Options.mk (Some 0%Z) None None None)
              Examples.ties eq_refl) as (out & Hs & _ & _ & _ & _ & _ & H0).
  rewrite Hs. rewrite (H0 eq_refl). reflexivity.
Defined.

(** X15. Through the tool layer a threshold or a limit of zero does not reach
    the manager: the tool passes 0.1 and 20 in their place, so every record
    it lists has a weight of at least 0.1 and it lists at most twenty. A
    sort key that is missing or empty becomes "weight". *)
Theorem tool_search_defaults {S : Type} {R : Regions S}
    (args : NeuromorphicMCPServer.SearchArgs.t) (this : NeuromorphicMCPServer.Server S) :
  NeuromorphicMCPServer.isInitialized this = true ->
  isInitialized (NeuromorphicMCPServer.memoryManager this) = true ->
  exists out,
    NeuromorphicMCPServer.searchMemories args this = Ok out /\
    (Js.or_num (NeuromorphicMCPServer.SearchArgs.minWeight args) 0 == 0 ->
     forall m, In m out -> 0.1 <= Memory.weight m) /\
    ((NeuromorphicMCPServer.SearchArgs.maxResults args = Some 0%Z \/
      NeuromorphicMCPServer.SearchArgs.maxResults args = None) ->
     (List.length out <= 20)%nat) /\
    (forall t, NeuromorphicMCPServer.SearchArgs.minWeight args = Some t -> ~ t == 0 ->
     forall m, In m out -> t <= Memory.weight m).
Proof.
  intros Hserver Hinit. unfold NeuromorphicMCPServer.searchMemories.
  rewrite Hserver. cbn [negb].
  set (options := NeuromorphicMCPServer.searchOptions args).
  exists (Js.slice0 (SearchOptions.maxResults (searchOptions options))
            (Js.sort (compareMemories (SearchOptions.sortBy (searchOptions options)))
               (Spec.candidates (NeuromorphicMCPServer.SearchArgs.query args) options
                  (NeuromorphicMCPServer.memoryManager this)))).
  split; [apply SearchFacts.searchMemories_initialized; exact Hinit |].
  assert (Hthreshold : forall m,
            In m (Js.slice0 (SearchOptions.maxResults (searchOptions options))
                    (Js.sort (compareMemories (SearchOptions.sortBy (searchOptions options)))
                       (Spec.candidates (NeuromorphicMCPServer.SearchArgs.query args) options
                          (NeuromorphicMCPServer.memoryManager this)))) ->
            Js.or_num (NeuromorphicMCPServer.SearchArgs.minWeight args) 0.1
            <= Memory.weight m).
  { intros m Hm. apply SortFacts.slice0_In in Hm. apply SortFacts.sort_In in Hm.
    unfold Spec.candidates in Hm. apply filter_In in Hm. destruct Hm as [_ Hm].
    apply Qle_bool_iff in Hm. exact Hm. }
  split; [| split].
  - intros Hz m Hm. specialize (Hthreshold m Hm).
    assert (Hd : Js.or_num (NeuromorphicMCPServer.SearchArgs.minWeight args) 0.1 = 0.1).
    { unfold Js.or_num in *.
      destruct (NeuromorphicMCPServer.SearchArgs.minWeight args) as [w |]; [| reflexivity].
      destruct (Qeq_bool w 0) eqn:E; [reflexivity |].
      apply Qeq_bool_iff in Hz. congruence. }
    rewrite Hd in Hthreshold. exact Hthreshold.
  - intro Hlimit.
    assert (H20 : SearchOptions.maxResults (searchOptions options) = 20%Z).
    { unfold options, NeuromorphicMCPServer.searchOptions, searchOptions. cbn.
      destruct Hlimit as [-> | ->]; reflexivity. }
    rewrite H20.
    pose proof (SortFacts.slice0_length _ 20
                  (Js.sort (compareMemories (SearchOptions.sortBy (searchOptions options)))
                     (Spec.candidates (NeuromorphicMCPServer.SearchArgs.query args) options
                        (NeuromorphicMCPServer.memoryManager this)))) as Hlen.
    lia.
  - intros t Ht Hnz m Hm. specialize (Hthreshold m Hm).
    rewrite Ht in Hthreshold. rewrite (JsFacts.or_num_nonzero t 0.1 Hnz) in Hthreshold.
    exact Hthreshold.
Qed.

Lemma tool_search_defaults_witness :
  exists out,
    NeuromorphicMCPServer.searchMemories
      (NeuromorphicMCPServer.SearchArgs.mk "tie" (Some 0%Z) (Some 0) None None)
      (NeuromorphicMCPServer.mkServer true Examples.ties) = Ok out /\
    (List.length out <= 20)%nat /\
    forall m, In m out -> 0.1 <= Memory.weight m.
Proof.
  destruct (tool_search_defaults
              (NeuromorphicMCPServer.SearchArgs.mk "tie" (Some 0%Z) (Some 0) None None)
              (NeuromorphicMCPServer.mkServer true Examples.ties) eq_refl eq_refl)
    as (out & Hs & Hw & Hl & _).
  exists out. split; [exact Hs |]. split.
  - apply Hl. left. reflexivity.
  - apply Hw. reflexivity.
Defined.

End SearchOptionFacts.

(** ** A pass that changes no weight *)

Module QuietPassFacts.

Import BiomimeticMemoryManager.

Lemma fold_left_fixed {A B : Type} (f : A -> B -> A) (l : list B) (a : A) :
  (forall b, In b l -> f a b = a) -> fold_left f l a = a.
Proof.
  induction l as [| b l IH]; intro H; cbn [fold_left].
  - reflexivity.
  - rewrite (H b (or_introl eq_refl)). apply IH. intros b' Hb'. apply H. now right.
Qed.

Lemma filter_none {A : Type} (p : A -> bool) (l : list A) :
  (forall a, In a l -> p a = false) -> filter p l = [].
Proof.
  induction l as [| a l IH]; intro H; cbn [filter].
  - reflexivity.
  - rewrite (H a (or_introl eq_refl)). apply IH. intros a' Ha'. apply H. now right.
Qed.

Lemma associates_not_rem (type : string) (now : Z) (memory : Memory.t) :
  type <> "rem"%string -> associates type now memory = false.
Proof.
  intro H. unfold associates. apply String.eqb_neq in H. rewrite H.
  rewrite andb_false_r. reflexivity.
Qed.

(** X16. A pass other than the slow one in which no record of the sweep changes
    its weight returns the count zero and calls no write on the regions; it
    is still counted as a pass and dated. *)
Theorem quiet_pass_writes_nothing {S : Type} {R : Regions S} (type : string) (now : Z)
    (this : Manager S) :
  isInitialized this = true ->
  type <> "rem"%string ->
  (forall m, In m (_getAllMemoriesForConsolidation (regions this)) ->
     weightChanged type now m = false) ->
  exists this',
    performConsolidation type now this = Ok (0%nat, this') /\
    regions this' = regions this /\
    MemoryStats.consolidationsPerformed (memoryStats this')
    = (MemoryStats.consolidationsPerformed (memoryStats this) + 1)%Z /\
    MemoryStats.lastConsolidation (memoryStats this') = Some now /\
    MemoryStats.totalMemories (memoryStats this')
    = MemoryStats.totalMemories (memoryStats this).
Proof.
  intros Hinit Hrem Hquiet. unfold performConsolidation. rewrite Hinit. cbn [negb].
  rewrite (filter_none _ _ Hquiet).
  assert (H1 : fold_left (firstRun type now)
                 (_getAllMemoriesForConsolidation (regions this)) (regions this)
               = regions this).
  { apply fold_left_fixed. intros m Hm. unfold firstRun, writeBack.
    rewrite (associates_not_rem type now m Hrem), (Hquiet m Hm). reflexivity. }
  rewrite H1.
  assert (H2 : fold_left (resumed type now)
                 (_getAllMemoriesForConsolidation (regions this)) (regions this)
               = regions this).
  { apply fold_left_fixed. intros m Hm. unfold resumed.
    rewrite (associates_not_rem type now m Hrem). reflexivity. }
  rewrite H2. eexists. split; [reflexivity |]. cbn. repeat split.
Qed.

Lemma quiet_pass_writes_nothing_witness :
  exists this',
    performConsolidation "sws" (46 * Examples.hour_ms)
      (InMemory.managerOf [Examples.important]) = Ok (0%nat, this') /\
    regions this' = regions (InMemory.managerOf [Examples.important]).
Proof.
  destruct (quiet_pass_writes_nothing "sws" (46 * Examples.hour_ms)
              (InMemory.managerOf [Examples.important]) eq_refl)
    as (this' & Hp & Hr & _).
  - discriminate.
  - intros m Hm. vm_compute in Hm. destruct Hm as [<- | []]. vm_compute. reflexivity.
  - exists this'. split; assumption.
Defined.

End QuietPassFacts.

(** ** The statistics *)

Module DistributionFacts.

Import BiomimeticMemoryManager.
Import PolicyFacts.

Lemma filter_length_implies {A : Type} (p q : A -> bool) (l : list A) :
  (forall a, p a = true -> q a = true) ->
  (List.length (filter p l) <= List.length (filter q l))%nat.
Proof.
  intro H. induction l as [| a l IH]; cbn [filter]; [lia |].
  destruct (p a) eqn:Ep.
  - rewrite (H a Ep). cbn [List.length]. lia.
  - destruct (q a); cbn [List.length]; lia.
Qed.

Lemma filter_length_disjoint {A : Type} (p q : A -> bool) (l : list A) :
  (forall a, p a = true -> q a = false) ->
  (List.length (filter p l) + List.length (filter q l) <= List.length l)%nat.
Proof.
  intro H. induction l as [| a l IH]; cbn [filter List.length]; [lia |].
  destruct (p a) eqn:Ep.
  - rewrite (H a Ep). cbn [List.length]. lia.
  - destruct (q a); cbn [List.length]; lia.
Qed.

Lemma total_weight_bounds (l : list Memory.t) (acc : Q) :
  Forall (fun m => Spec.inRange (Memory.weight m)) l ->
  acc <= fold_left (fun sum m => sum + Memory.weight m) l acc /\
  fold_left (fun sum m => sum + Memory.weight m) l acc
  <= acc + inject_Z (Z.of_nat (List.length l)).
Proof.
  intro H. revert acc. induction H as [| m l [Hm0 Hm1] Hl IH]; intro acc.
  - cbn [fold_left List.length]. change (inject_Z (Z.of_nat 0)) with 0. split; lra.
  - cbn [fold_left List.length]. destruct (IH (acc + Memory.weight m)) as [H0 H1].
    rewrite Nat2Z.inj_succ. unfold Z.succ. rewrite inject_Z_plus.
    change (inject_Z 1) with 1. split; lra.
Qed.

(** X17. The weight distribution of any population: no more conscious records
    than accessible ones, accessible and dormant records together no more
    than the population, and, when every weight is within [0, 1], an
    average within [0, 1]. *)
Theorem distribution_is_consistent (memories : list Memory.t) :
  (WeightDistribution.conscious (_calculateWeightDistribution memories)
   <= WeightDistribution.accessible (_calculateWeightDistribution memories))%nat /\
  (WeightDistribution.accessible (_calculateWeightDistribution memories)
   + WeightDistribution.dormant (_calculateWeightDistribution memories)
   <= List.length memories)%nat /\
  (Forall (fun m => Spec.inRange (Memory.weight m)) memories ->
   exists q,
     WeightDistribution.average (_calculateWeightDistribution memories) = Js.Num q /\
     0 <= q /\ q <= 1).
Proof.
  unfold _calculateWeightDistribution.
  destruct memories as [| m l].
  - cbn. split; [lia |]. split; [lia |]. intros _. exists 0. repeat split; discriminate.
  - set (memories := m :: l).
    cbn [Nat.eqb List.length WeightDistribution.conscious WeightDistribution.accessible
         WeightDistribution.dormant WeightDistribution.average].
    split; [| split].
    + apply filter_length_implies. intros a Ha. thresholds.
      apply Qle_bool_iff in Ha. apply Qle_bool_iff. lra.
    + apply (filter_length_disjoint _ _ memories). intros a Ha. thresholds.
      apply Qle_bool_iff in Ha.
      destruct (Qle_bool 0.1 (Memory.weight a)) eqn:E; [reflexivity |].
      apply Qle_bool_false in E. lra.
    + intro Hall. destruct (total_weight_bounds memories 0 Hall) as [H0 H1].
      fold memories.
      set (n := inject_Z (Z.of_nat (List.length memories))) in *.
      assert (Hn : 0 < n).
      { unfold n. change 0 with (inject_Z 0). rewrite <- Zlt_Qlt.
        unfold memories. cbn [List.length]. lia. }
      unfold Js.div.
      destruct (Qeq_bool n 0) eqn:E; [apply Qeq_bool_iff in E; lra |].
      eexists. split; [reflexivity |]. split.
      * apply Qle_shift_div_l; [exact Hn | lra].
      * apply Qle_shift_div_r; [exact Hn | lra].
Qed.

Lemma distribution_is_consistent_witness :
  exists q,
    WeightDistribution.average
      (_calculateWeightDistribution [Examples.half; Examples.important]) = Js.Num q /\
    0 <= q /\ q <= 1.
Proof.
  destruct (distribution_is_consistent [Examples.half; Examples.important]) as (_ & _ & H).
  apply H.
  constructor; [split; vm_compute; discriminate |].
  constructor; [split; vm_compute; discriminate |].
  constructor.
Defined.

(** X18. The amplification factor is never below one, and it is one for every
    population of at most a hundred records, whatever their weights. *)
Theorem amplification_at_least_one (memories : list Memory.t) :
  1 <= _calculateAmplificationFactor memories /\
  ((List.length memories <= 100)%nat -> _calculateAmplificationFactor memories == 1).
Proof.
  unfold _calculateAmplificationFactor.
  set (a := List.length
              (filter (fun m => Qle_bool config.memory.effortThreshold (Memory.weight m))
                 memories)).
  unfold Qdiv. change (/ 100) with (1 # 100).
  split.
  - destruct (JsFacts.max_cases 1 (inject_Z (Z.of_nat a) * (1 # 100))) as [[H ->] | [H ->]];
      lra.
  - intro Hlen.
    assert (Ha : (a <= List.length memories)%nat) by apply filter_length_le.
    assert (Hq : inject_Z (Z.of_nat a) <= 100).
    { change 100 with (inject_Z 100). rewrite <- Zle_Qle. lia. }
    destruct (JsFacts.max_cases 1 (inject_Z (Z.of_nat a) * (1 # 100))) as [[H ->] | [H ->]];
      lra.
Qed.

Lemma amplification_at_least_one_witness :
  _calculateAmplificationFactor [Examples.half; Examples.important] == 1.
Proof.
  destruct (amplification_at_least_one [Examples.half; Examples.important]) as [_ H].
  apply H. cbn [List.length]. lia.
Defined.

End DistributionFacts.

(** ** initialize, the timers and shutdown *)

Module LifecycleFacts.

Import BiomimeticMemoryManager.
Import Lifecycle.

Lemma manager_eta {S : Type} (m : Manager S) :
  mkManager (isInitialized m) (memoryStats m) (regions m) = m.
Proof.
  destruct m. reflexivity.
Qed.

(** X19. Every successful [initialize] pushes a fast and a slow timer, whether
    or not the manager was initialised already: after [n] calls on an
    engine there are [2 * n] timers more. A call whose connections fail
    throws the error of the connection and leaves the engine as it was. *)
Theorem initialize_adds_timers {S : Type} (stores : S) (error : string) (n : nat)
    (this : Engine S) :
  consolidationTimers (snd (initialize (inl stores) this))
  = consolidationTimers this ++ [mkTimer "sws" 5400000; mkTimer "rem" 21600000] /\
  fst (initialize (inl stores) this) = Ok true /\
  isInitialized (manager (snd (initialize (inl stores) this))) = true /\
  List.length (consolidationTimers
                 (Nat.iter n (fun e => snd (initialize (inl stores) e)) this))
  = (List.length (consolidationTimers this) + 2 * n)%nat /\
  initialize (inr error) this = (Throw error, this).
Proof.
  split; [reflexivity |]. split; [reflexivity |]. split; [reflexivity |].
  split; [| reflexivity].
  assert (Hstep : forall e : Engine S,
            List.length (consolidationTimers (snd (initialize (inl stores) e)))
            = (List.length (consolidationTimers e) + 2)%nat).
  { intro e. cbn [initialize snd consolidationTimers consolidation.enabled].
    unfold _startConsolidationCycles. rewrite length_app. reflexivity. }
  induction n as [| n IH].
  - cbn [Nat.iter nat_rect]. lia.
  - rewrite Nat.iter_succ, Hstep, IH. lia.
Qed.

(** X20. [shutdown] always clears the timers and leaves the stores and the
    counters alone. When every connection closes it returns and the manager
    is no longer initialised, so that any later operation throws. When the
    promise of a close is rejected it returns as well, the error being
    logged, and the manager is exactly as before, still initialised if it
    was. When a call that closes a connection throws, [shutdown] throws
    that error, the manager again as before; it throws in no other case. *)
Theorem shutdown_effects {S : Type} {R : Regions S} (closing : Closing) (error : string)
    (this : Engine S) (now : Z) (random : string) (d : MemoryData.t) :
  consolidationTimers (snd (shutdown closing this)) = [] /\
  regions (manager (snd (shutdown closing this))) = regions (manager this) /\
  memoryStats (manager (snd (shutdown closing this))) = memoryStats (manager this) /\
  fst (shutdown Fulfilled this) = Ok tt /\
  isInitialized (manager (snd (shutdown Fulfilled this))) = false /\
  storeMemory now random d (manager (snd (shutdown Fulfilled this)))
  = Throw "BiomimeticMemoryManager not initialized" /\
  shutdown (Rejected error) this = (Ok tt, mkEngine (manager this) []) /\
  shutdown (Threw error) this = (Throw error, mkEngine (manager this) []) /\
  (fst (shutdown closing this) = Throw error <-> closing = Threw error).
Proof.
  split; [destruct closing; reflexivity |].
  split; [destruct closing; reflexivity |].
  split; [destruct closing; reflexivity |].
  repeat (split; [reflexivity |]).
  destruct closing as [| e | e]; cbn [shutdown fst]; split; intro H;
    try discriminate H; try (injection H as ->; reflexivity).
Qed.

Lemma shutdown_effects_witness :
  fst (shutdown (Threw "closed") (mkEngine Placeholder.manager [mkTimer "sws" 5400000]))
  = Throw "closed" /\
  consolidationTimers
    (snd (shutdown (Threw "closed") (mkEngine Placeholder.manager [mkTimer "sws" 5400000])))
  = [].
Proof.
  destruct (shutdown_effects (Threw "closed") "closed"
              (mkEngine Placeholder.manager [mkTimer "sws" 5400000]) 0 "abc" Examples.hello)
    as (Ht & _ & _ & _ & _ & _ & _ & _ & Hthrow).
  split; [apply Hthrow; reflexivity | exact Ht].
Defined.

(** X21. A timer that fires on a manager that is not initialised changes
    nothing and raises nothing; on an initialised manager it runs its pass,
    which is counted and dated, and the timers stay as they are. *)
Theorem onTimer_effects {S : Type} {R : Regions S} (timer : Timer) (now : Z)
    (this : Engine S) :
  (isInitialized (manager this) = false -> onTimer timer now this = this) /\
  (isInitialized (manager this) = true ->
   MemoryStats.consolidationsPerformed (memoryStats (manager (onTimer timer now this)))
   = (MemoryStats.consolidationsPerformed (memoryStats (manager this)) + 1)%Z /\
   MemoryStats.lastConsolidation (memoryStats (manager (onTimer timer now this)))
   = Some now /\
   consolidationTimers (onTimer timer now this) = consolidationTimers this /\
   isInitialized (manager (onTimer timer now this)) = true).
Proof.
  unfold onTimer, performConsolidation. split; intro H; rewrite H; cbn [negb].
  - reflexivity.
  - repeat split.
Qed.

Lemma onTimer_effects_witness :
  MemoryStats.consolidationsPerformed
    (memoryStats
       (manager (onTimer (mkTimer "sws" 5400000) 7
                   (mkEngine (InMemory.managerOf [Examples.half]) []))))
  = 1%Z.
Proof.
  destruct (onTimer_effects (mkTimer "sws" 5400000) 7
              (mkEngine (InMemory.managerOf [Examples.half]) [])) as [_ H].
  destruct (H eq_refl) as (Hc & _). rewrite Hc. reflexivity.
Defined.

End LifecycleFacts.

(** ** The tool layer *)

Module ToolFacts.

Import BiomimeticMemoryManager.

(** X22. A tool called before the server is initialised throws the error of the
    server, even over an initialised manager: the test comes first in each
    of the four tools. Over an initialised server whose manager is not, the
    retrieve tool and the consolidation tool, which call the manager next,
    throw the error of the manager. *)
Theorem tool_errors {S : Type} {R : Regions S} (now : Z) (random storedAt : string)
    (embedding : list Q) (store : NeuromorphicMCPServer.StoreArgs.t)
    (search : NeuromorphicMCPServer.SearchArgs.t) (memoryId : string)
    (type : option string) (this : NeuromorphicMCPServer.Server S) :
  (NeuromorphicMCPServer.isInitialized this = false ->
   NeuromorphicMCPServer.storeMemory now random embedding storedAt store this
   = Throw "Neuromorphic brain not initialized. Call initialize_neuromorphic_brain first." /\
   NeuromorphicMCPServer.retrieveMemory memoryId now this
   = Throw "Neuromorphic brain not initialized. Call initialize_neuromorphic_brain first." /\
   NeuromorphicMCPServer.searchMemories search this
   = Throw "Neuromorphic brain not initialized. Call initialize_neuromorphic_brain first." /\
   NeuromorphicMCPServer.performConsolidation type now this
   = Throw "Neuromorphic brain not initialized. Call initialize_neuromorphic_brain first.") /\
  (NeuromorphicMCPServer.isInitialized this = true ->
   isInitialized (NeuromorphicMCPServer.memoryManager this) = false ->
   NeuromorphicMCPServer.retrieveMemory memoryId now this
   = Throw "BiomimeticMemoryManager not initialized" /\
   NeuromorphicMCPServer.performConsolidation type now this
   = Throw "BiomimeticMemoryManager not initialized").
Proof.
  unfold NeuromorphicMCPServer.storeMemory, NeuromorphicMCPServer.retrieveMemory,
    NeuromorphicMCPServer.searchMemories, NeuromorphicMCPServer.performConsolidation.
  split.
  - intro H. rewrite H. repeat split.
  - intros H Hm. rewrite H. cbn [negb].
    unfold retrieveMemory, performConsolidation.
    rewrite Hm. repeat split.
Qed.

Lemma tool_errors_witness :
  NeuromorphicMCPServer.searchMemories
    (NeuromorphicMCPServer.SearchArgs.mk "tie" None None None None)
    (NeuromorphicMCPServer.mkServer false Examples.ties)
  = Throw "Neuromorphic brain not initialized. Call initialize_neuromorphic_brain first.".
Proof.
  destruct (tool_errors 0 "abc" "t" [] Examples.zerosArgs
              (NeuromorphicMCPServer.SearchArgs.mk "tie" None None None None) "m1" None
              (NeuromorphicMCPServer.mkServer false Examples.ties)) as [H _].
  destruct (H eq_refl) as (_ & _ & Hs & _). exact Hs.
Defined.

(** X23. The consolidation tool runs a fast pass when its type is missing or
    empty, and hands any other text to the manager as it is. *)
Theorem tool_consolidation_default {S : Type} {R : Regions S} (type : option string)
    (now : Z) (this : NeuromorphicMCPServer.Server S) :
  NeuromorphicMCPServer.isInitialized this = true ->
  isInitialized (NeuromorphicMCPServer.memoryManager this) = true ->
  exists ran processed manager',
    NeuromorphicMCPServer.performConsolidation type now this
    = Ok (ran, processed, NeuromorphicMCPServer.mkServer true manager') /\
    performConsolidation ran now (NeuromorphicMCPServer.memoryManager this)
    = Ok (processed, manager') /\
    ((type = None \/ type = Some EmptyString) -> ran = "sws"%string) /\
    (forall t, type = Some t -> t <> EmptyString -> ran = t).
Proof.
  intros Hs Hm. unfold NeuromorphicMCPServer.performConsolidation. rewrite Hs. cbn [negb].
  destruct (performConsolidation (Js.or_str type "sws") now
              (NeuromorphicMCPServer.memoryManager this)) as [[processed manager'] | e] eqn:E.
  - exists (Js.or_str type "sws"), processed, manager'.
    split; [reflexivity |]. split; [exact E |]. split.
    + intros [-> | ->]; reflexivity.
    + intros t -> Hne. destruct t; [congruence | reflexivity].
  - unfold performConsolidation in E. rewrite Hm in E. discriminate E.
Qed.

Lemma tool_consolidation_default_witness :
  exists processed manager',
    NeuromorphicMCPServer.performConsolidation None (8 * 24 * Examples.hour_ms)
      (NeuromorphicMCPServer.mkServer true (InMemory.managerOf [Examples.stale]))
    = Ok ("sws"%string, processed, NeuromorphicMCPServer.mkServer true manager').
Proof.
  destruct (tool_consolidation_default None (8 * 24 * Examples.hour_ms)
              (NeuromorphicMCPServer.mkServer true (InMemory.managerOf [Examples.stale]))
              eq_refl eq_refl) as (ran & processed & manager' & Hp & _ & Hd & _).
  exists processed, manager'. rewrite Hp. rewrite (Hd (or_introl eq_refl)). reflexivity.
Defined.

End ToolFacts.

(** ** NeuromorphicBrain *)

Module BrainFacts.

Import NeuromorphicBrain.

Lemma calculateMemoryWeight_value (content : string) (i e : Q) :
  calculateMemoryWeight content (Some i) (Some e) = Js.min 1.0 (0.6 + i * 0.3 + e * 0.1).
Proof.
  reflexivity.
Qed.

(** X24. The weight of [calculateMemoryWeight] grows with the importance and
    with the emotional value and never exceeds one; for arguments within
    [0, 1] it is at least 0.6. With both arguments left out it is 0.8, and
    every procedural pattern gets 0.86. *)
Theorem calculateMemoryWeight_range (content : string) (i1 i2 e1 e2 : Q) :
  i1 <= i2 -> e1 <= e2 ->
  calculateMemoryWeight content (Some i1) (Some e1)
  <= calculateMemoryWeight content (Some i2) (Some e2) /\
  calculateMemoryWeight content (Some i1) (Some e1) <= 1 /\
  (Spec.inRange i1 -> Spec.inRange e1 ->
   0.6 <= calculateMemoryWeight content (Some i1) (Some e1)) /\
  calculateMemoryWeight content None None == 0.8 /\
  proceduralWeight content == 0.86.
Proof.
  intros Hi He. rewrite !calculateMemoryWeight_value.
  assert (Hone : 1.0 == 1) by reflexivity.
  destruct (JsFacts.min_cases 1.0 (0.6 + i1 * 0.3 + e1 * 0.1)) as [[H1 E1] | [H1 E1]];
    destruct (JsFacts.min_cases 1.0 (0.6 + i2 * 0.3 + e2 * 0.1)) as [[H2 E2] | [H2 E2]];
    rewrite E1, E2;
    (split; [lra |]); (split; [lra |]);
    (split; [| split; vm_compute; reflexivity]);
    intros [Hi0 Hi1] [He0 He1]; lra.
Qed.

Lemma calculateMemoryWeight_range_witness :
  calculateMemoryWeight "a" (Some 0.2) (Some 0.5)
  <= calculateMemoryWeight "a" (Some 0.8) (Some 0.5) /\
  0.6 <= calculateMemoryWeight "a" (Some 0.2) (Some 0.5).
Proof.
  assert (Hi : 0.2 <= 0.8) by (vm_compute; discriminate).
  assert (He : 0.5 <= 0.5) by (vm_compute; discriminate).
  destruct (calculateMemoryWeight_range "a" 0.2 0.8 0.5 0.5 Hi He) as (Hm & _ & Hr & _).
  split; [exact Hm |].
  apply Hr; split; vm_compute; discriminate.
Defined.

Lemma get_set_same {V : Type} (key : string) (v : V) (m : list (string * V)) :
  get key (set key v m) = Some v.
Proof.
  unfold get, set. cbn [find fst]. rewrite String.eqb_refl. reflexivity.
Qed.

Lemma get_set_other {V : Type} (key other : string) (v : V) (m : list (string * V)) :
  other <> key -> get other (set key v m) = get other m.
Proof.
  intro Hne. unfold get, set. cbn [find fst].
  assert (E : String.eqb key other = false) by (apply String.eqb_neq; congruence).
  rewrite E. clear E. f_equal.
  induction m as [| [k w] m IH]; cbn [filter find fst]; [reflexivity |].
  destruct (String.eqb k key) eqn:Ek; cbn [negb].
  - apply String.eqb_eq in Ek. subst k.
    assert (E : String.eqb key other = false) by (apply String.eqb_neq; congruence).
    rewrite E. exact IH.
  - cbn [find fst]. destruct (String.eqb k other); [reflexivity | exact IH].
Qed.

(** X25. [storeEpisodicMemory] gives an importance within [0, 1] a weight
    between 0.65 and 0.95. It files the record in the hippocampus and the
    weight in [memoryWeights] under the identifier it returns, the two
    weights agree with the weight it returns, and what was filed under
    other identifiers is kept. *)
Theorem storeEpisodicMemory_files (now : Z) (random event context : string)
    (importance : Q) (this : Brain) :
  Spec.inRange importance ->
  let '((memoryId, weight, stored), this') :=
    storeEpisodicMemory now random event context (Some importance) this in
  0.65 <= weight /\ weight <= 0.95 /\
  stored = "hippocampus"%string /\
  get memoryId (memoryWeights this') = Some weight /\
  (exists memory,
     get memoryId (hippocampus this') = Some memory /\
     Episodic.weight memory = weight /\
     Episodic.event memory = event /\
     Episodic.accessCount memory = 0%Z) /\
  (forall other, other <> memoryId ->
     get other (memoryWeights this') = get other (memoryWeights this) /\
     get other (hippocampus this') = get other (hippocampus this)).
Proof.
  intros [Hi0 Hi1].
  cbv beta zeta iota delta [storeEpisodicMemory calculateMemoryWeight Js.default_param
                             memoryWeights hippocampus].
  assert (Hone : 1.0 == 1) by reflexivity.
  split; [| split; [| split; [reflexivity | split; [apply get_set_same | split]]]].
  - destruct (JsFacts.min_cases 1.0 (0.6 + importance * 0.3 + 0.5 * 0.1)) as [[H ->] | [H ->]];
      lra.
  - destruct (JsFacts.min_cases 1.0 (0.6 + importance * 0.3 + 0.5 * 0.1)) as [[H ->] | [H ->]];
      lra.
  - eexists. split; [apply get_set_same |]. repeat split.
  - intros other Hne. split; apply get_set_other; exact Hne.
Qed.

Lemma storeEpisodicMemory_files_witness :
  0.65 <= snd (fst (fst (storeEpisodicMemory 5 "abc" "e" "c" (Some 0.8)
                           (mkBrain [] [])))).
Proof.
  assert (H : Spec.inRange 0.8) by (split; vm_compute; discriminate).
  exact (proj1 (storeEpisodicMemory_files 5 "abc" "e" "c" 0.8
                  (mkBrain [] []) H)).
Defined.

End BrainFacts.

(** ** Emotional weights and identifiers *)

Module IdentifierFacts.

Import BiomimeticMemoryManager.

(** X26. [weightEmotionalImportance] weighs a positive valence by the whole
    intensity and any other valence, zero included, by half of it; an
    intensity within [0, 1] gives a weight within [0, 1], and a larger one
    is not capped. The document carries the returned weight, and its
    identifier is made of the time alone, so two calls in the same
    millisecond share it. *)
Theorem weightEmotionalImportance_weight (now : Z) (content content' : string)
    (valence valence' intensity intensity' : Q) :
  let '((memoryId, weight, stored), document) :=
    NeuromorphicBrain.weightEmotionalImportance now content valence intensity in
  (0 < valence -> weight == intensity) /\
  (valence <= 0 -> weight == intensity * 0.5) /\
  (Spec.inRange intensity -> Spec.inRange weight) /\
  (0 < valence -> 1 < intensity -> 1 < weight) /\
  NeuromorphicBrain.Emotional.weight document = weight /\
  NeuromorphicBrain.Emotional._id document = memoryId /\
  stored = "amygdala"%string /\
  fst (fst (fst (NeuromorphicBrain.weightEmotionalImportance now content' valence'
                   intensity'))) = memoryId.
Proof.
  cbv beta zeta iota delta [NeuromorphicBrain.weightEmotionalImportance
                             NeuromorphicBrain.Emotional.weight
                             NeuromorphicBrain.Emotional._id fst].
  destruct (Qle_bool valence 0) eqn:E; cbn [negb].
  - apply Qle_bool_iff in E. repeat split; intros; try lra.
    + destruct H; lra.
    + destruct H; lra.
  - apply PolicyFacts.Qle_bool_false in E. repeat split; intros; try lra.
    + destruct H; lra.
    + destruct H; lra.
Qed.

Lemma weightEmotionalImportance_weight_witness :
  snd (fst (fst (NeuromorphicBrain.weightEmotionalImportance 5 "joy" 0 0.8))) == 0.4.
Proof.
  pose proof (weightEmotionalImportance_weight 5 "joy" "x" 0 1 0.8 1) as H.
  destruct H as (_ & H & _). rewrite H; [vm_compute; reflexivity | vm_compute; discriminate].
Defined.

Lemma digits_free (c : Ascii.ascii) (d : Decimal.uint) :
  Spec.free_of c "0123456789" -> Spec.free_of c (NilEmpty.string_of_uint d).
Proof.
  intro H. cbn in H. induction d; cbn; intuition.
Qed.

Lemma string_of_Z_free (c : Ascii.ascii) (z : Z) :
  Spec.free_of c "-0123456789" -> Spec.free_of c (Js.string_of_Z z).
Proof.
  intros [Hm Hd]. unfold Js.string_of_Z, NilZero.string_of_int.
  assert (Hu : forall d, Spec.free_of c (NilZero.string_of_uint d)).
  { intro d. unfold NilZero.string_of_uint.
    destruct d; try (apply digits_free; exact Hd). cbn. cbn in Hd. intuition. }
  destruct (Z.to_int z); [apply Hu | split; [exact Hm | apply Hu]].
Qed.

Lemma string_of_Z_inj (z1 z2 : Z) : Js.string_of_Z z1 = Js.string_of_Z z2 -> z1 = z2.
Proof.
  unfold Js.string_of_Z. intro H.
  assert (Hnn : forall z, Z.to_int z <> Decimal.Pos Decimal.Nil /\
                          Z.to_int z <> Decimal.Neg Decimal.Nil).
  { intro z. destruct z as [| p | p]; cbn; split; try discriminate;
      intro E; injection E as E; exact (DecimalPos.Unsigned.to_uint_nonnil p E). }
  apply DecimalZ.to_int_inj.
  assert (E : Some (Z.to_int z1) = Some (Z.to_int z2)).
  { rewrite <- (NilZero.isi (Z.to_int z1)), <- (NilZero.isi (Z.to_int z2));
      try apply Hnn. rewrite H. reflexivity. }
  injection E as E. exact E.
Qed.

Lemma split_at (c : Ascii.ascii) (s1 s2 r1 r2 : string) :
  Spec.free_of c s1 -> Spec.free_of c s2 ->
  (s1 ++ String c r1 = s2 ++ String c r2)%string -> s1 = s2 /\ r1 = r2.
Proof.
  revert s2. induction s1 as [| a s1 IH]; intros s2 H1 H2 E.
  - destruct s2 as [| b s2]; cbn in E.
    + injection E as E. split; [reflexivity | exact E].
    + injection E as Ea _. destruct H2 as [Hb _]. congruence.
  - destruct s2 as [| b s2]; cbn in E.
    + injection E as Ea _. destruct H1 as [Ha _]. congruence.
    + injection E as Ea E. destruct H1 as [_ H1]. destruct H2 as [_ H2].
      destruct (IH s2 H1 H2 E) as [-> ->]. subst. split; reflexivity.
Qed.

(** X27. The identifier of a record tells the time and the random text it was
    made from: two stores get the same identifier only when both agree. The
    same holds for the identifiers of [storeEpisodicMemory]. *)
Theorem identifiers_are_distinct (now1 now2 : Z) (random1 random2 : string) :
  (_generateMemoryId now1 random1 = _generateMemoryId now2 random2 ->
   now1 = now2 /\ random1 = random2) /\
  (forall event context importance brain,
     fst (fst (fst (NeuromorphicBrain.storeEpisodicMemory now1 random1 event context
                      importance brain)))
     = fst (fst (fst (NeuromorphicBrain.storeEpisodicMemory now2 random2 event context
                        importance brain))) ->
     now1 = now2 /\ random1 = random2).
Proof.
  split.
  - unfold _generateMemoryId. intro E. cbn [String.append] in E.
    injection E as E.
    apply split_at in E; try (apply string_of_Z_free; cbn; intuition discriminate).
    destruct E as [E ->]. apply string_of_Z_inj in E. split; [exact E | reflexivity].
  - intros event context importance brain.
    cbv beta zeta iota delta [NeuromorphicBrain.storeEpisodicMemory fst].
    intro E. cbn [String.append] in E. injection E as E.
    apply split_at in E; try (apply string_of_Z_free; cbn; intuition discriminate).
    destruct E as [E ->]. apply string_of_Z_inj in E. split; [exact E | reflexivity].
Qed.

Lemma identifiers_are_distinct_witness :
  _generateMemoryId 17 "abc" = "mem_17_abc"%string /\
  _generateMemoryId 17 "abc" <> _generateMemoryId 18 "abc".
Proof.
  split; [reflexivity |].
  intro E. destruct (proj1 (identifiers_are_distinct 17 18 "abc" "abc") E) as [H _].
  discriminate H.
Defined.

End IdentifierFacts.

(** ** The counters of the manager and the record of the store tool *)

Module CounterFacts.

Import BiomimeticMemoryManager.

(** X28. Only a store moves [totalMemories] and [consciousMemories]: a
    retrieve, found or not, and a pass of any type leave both as they were,
    even when a weight crosses 0.8, and the statistics report
    [consciousMemories] from that counter. *)
Theorem counters_move_only_on_store {S : Type} {R : Regions S} (memoryId type : string)
    (now : Z) (this : Manager S) :
  isInitialized this = true ->
  (exists found this',
     retrieveMemory memoryId now this = Ok (found, this') /\
     MemoryStats.totalMemories (memoryStats this')
     = MemoryStats.totalMemories (memoryStats this) /\
     MemoryStats.consciousMemories (memoryStats this')
     = MemoryStats.consciousMemories (memoryStats this)) /\
  (exists consolidated this',
     performConsolidation type now this = Ok (consolidated, this') /\
     MemoryStats.totalMemories (memoryStats this')
     = MemoryStats.totalMemories (memoryStats this) /\
     MemoryStats.consciousMemories (memoryStats this')
     = MemoryStats.consciousMemories (memoryStats this) /\
     (consolidated <= List.length (_getAllMemoriesForConsolidation (regions this)))%nat) /\
  (exists stats,
     getMemoryStatistics now this = Ok stats /\
     Statistics.consciousMemories stats = MemoryStats.consciousMemories (memoryStats this) /\
     Statistics.totalMemories stats
     = List.length (_getAllMemoriesForConsolidation (regions this))).
Proof.
  intro Hinit. split; [| split].
  - unfold retrieveMemory. rewrite Hinit. cbn [negb].
    destruct (Js.find_not_null (searchById memoryId (regions this)));
      eexists; eexists; (split; [reflexivity |]); split; reflexivity.
  - unfold performConsolidation. rewrite Hinit. cbn [negb].
    eexists. eexists. split; [reflexivity |]. split; [reflexivity |]. split; [reflexivity |].
    apply filter_length_le.
  - unfold getMemoryStatistics. rewrite Hinit. cbn [negb].
    eexists. split; [reflexivity |]. split; reflexivity.
Qed.

Lemma counters_move_only_on_store_witness :
  exists found this',
    retrieveMemory "m7" (24 * Examples.hour_ms) (InMemory.managerOf [Examples.important])
    = Ok (found, this') /\
    MemoryStats.consciousMemories (memoryStats this') = 0%Z.
Proof.
  destruct (counters_move_only_on_store "m7" "sws" (24 * Examples.hour_ms)
              (InMemory.managerOf [Examples.important]) eq_refl)
    as ((found & this' & Hr & _ & Hc) & _).
  exists found, this'. split; [exact Hr |]. rewrite Hc. reflexivity.
Defined.

End CounterFacts.
